(** * Data-Science-Lab: histogram features and the forecasting split

    A shallow embedding of

    - [code/classification/randomforest_hist_classification.py]
      ([HistogramTransformer], [RandomForestClassification] with its
       constructor, [_get_raw_data], [_get_labels], [_get_pipeline],
       [evaluate_simulated], [evaluate_real], and the script body);
    - [code/prediction/xgboost_prediction.py]
      ([XGBoostPredict._bring_data_to_format],
       [XGBoostPredict.preprocess_as_prediction], and the cache path of
       the script body).

    Numeric arrays are nested lists, outermost axis first.  The values of
    the raw series are read as exact rationals ([Q]): rounding of the
    binary64 arithmetic inside numpy is not modelled.  Engineered features
    may be non-finite, so they live in [float64], which adds the three
    special values to the rationals.  A Python exception is a failed
    result: [None] where only failure matters, [Raise e] where the kind of
    exception decides the control flow. *)

From Stdlib Require Import String.
From Stdlib Require Import List ZArith QArith Qround Qminmax Lia Lqa Bool.
From Stdlib Require Import Permutation DecimalString DecimalZ DecimalPos.
From Stdlib Require Import SpecFloat Zpower.
Import ListNotations.

Set Implicit Arguments.

(** ** Failure as [option] *)

Module OptionMonad.

Definition bind {A B : Type} (m : option A) (f : A -> option B) : option B :=
  match m with
  | Some a => f a
  | None => None
  end.

(** [mapM f l]: run [f] on every element, left to right; the first
    failure aborts the whole traversal. *)
Fixpoint mapM {A B : Type} (f : A -> option B) (l : list A) : option (list B) :=
  match l with
  | [] => Some []
  | x :: r =>
      match f x with
      | None => None
      | Some y =>
          match mapM f r with
          | None => None
          | Some ys => Some (y :: ys)
          end
      end
  end.

End OptionMonad.

Notation "x <- m ;; k" := (OptionMonad.bind m (fun x => k))
  (at level 61, m at next level, right associativity).

(** ** The numpy calls of [HistogramTransformer] *)

Module Numpy.

(** [a > b] on rationals, as a boolean. *)
Definition Qgt_bool (a b : Q) : bool := negb (Qle_bool a b).

(** [a < b] on rationals, as a boolean. *)
Definition Qlt_bool (a b : Q) : bool := negb (Qle_bool b a).

(** [np.min(array)]: the array is flattened by the caller; a zero-size
    array raises [ValueError]. *)
Definition np_min (a : list Q) : option Q :=
  match a with
  | [] => None
  | x :: r => Some (fold_left Qmin r x)
  end.

(** [np.max(array)], likewise. *)
Definition np_max (a : list Q) : option Q :=
  match a with
  | [] => None
  | x :: r => Some (fold_left Qmax r x)
  end.

(** [ndarray.astype(np.intp)] on one value: truncation towards zero. *)
Definition astype_intp (x : Q) : Z := Z.quot (Qnum x) (Zpos (Qden x)).

(** [_get_outer_edges(a, range)] with [range] given: a reversed range
    raises [ValueError]; an empty range is widened by one half on each
    side "to avoid divide by zero". *)
Definition _get_outer_edges (range : Q * Q) : option (Q * Q) :=
  let (first_edge, last_edge) := range in
  if Qgt_bool first_edge last_edge then None
  else if Qeq_bool first_edge last_edge
       then Some (first_edge - (1 # 2), last_edge + (1 # 2))
       else Some (first_edge, last_edge).

(** [np.linspace(start, stop, num, endpoint=True)]:
    [arange(0, num) * step + start] with [step = (stop - start) / (num - 1)],
    and the last point overwritten by [stop] when [num > 1]. *)
Definition linspace (start stop : Q) (num : nat) : list Q :=
  let div := (num - 1)%nat in
  let step := (stop - start) / inject_Z (Z.of_nat div) in
  map (fun i : nat =>
         if ((1 <? num)%nat && (i =? div)%nat)%bool then stop
         else inject_Z (Z.of_nat i) * step + start)
      (seq 0 num).

(** [bin_edges[i]] for an index the algorithm keeps inside the array. *)
Definition edge_at (bin_edges : list Q) (i : Z) : Q :=
  nth (Z.to_nat i) bin_edges 0.

(** The index of the bin of one value [x], as the fast path of
    [np.histogram] computes it for equal-width bins: scale, truncate, pull
    the right edge into the last bin, then the two corrections against
    [bin_edges]. *)
Definition bin_index (first_edge last_edge : Q) (n_equal_bins : Z)
    (bin_edges : list Q) (x : Q) : Z :=
  let norm_numerator := inject_Z n_equal_bins in
  let norm_denom := last_edge - first_edge in
  let f_index := ((x - first_edge) / norm_denom) * norm_numerator in
  let index := astype_intp f_index in
  let index := if (index =? n_equal_bins)%Z then (index - 1)%Z else index in
  let decrement := Qlt_bool x (edge_at bin_edges index) in
  let index := if decrement then (index - 1)%Z else index in
  let increment :=
    (Qle_bool (edge_at bin_edges (index + 1)) x
     && negb (index =? n_equal_bins - 1)%Z)%bool in
  if increment then (index + 1)%Z else index.

(** [np.bincount(x, minlength=m)]: a negative entry raises [ValueError];
    the result has [max(m, max(x) + 1)] counts. *)
Definition bincount (x : list Z) (minlength : nat) : option (list nat) :=
  if existsb (fun i => (i <? 0)%Z) x then None
  else
    let top := fold_right (fun i m => Nat.max (S (Z.to_nat i)) m) 0%nat x in
    Some (map (fun b : nat => count_occ Z.eq_dec x (Z.of_nat b))
              (seq 0 (Nat.max minlength top))).

(** [np.histogram(a, bins=bins, range=range)[0]] for an integer [bins]:
    [bins < 1] raises [ValueError]; values outside the outer edges are
    dropped; [n += np.bincount(...)] needs the two shapes to agree. *)
Definition histogram (a : list Q) (bins : Z) (range : Q * Q) : option (list nat) :=
  if (bins <? 1)%Z then None
  else
    edges <- _get_outer_edges range ;;
    let (first_edge, last_edge) := edges : Q * Q in
    let n_equal_bins := bins in
    let bin_edges :=
      linspace first_edge last_edge (Z.to_nat (n_equal_bins + 1)) in
    let keep :=
      fun x => (Qle_bool first_edge x && Qle_bool x last_edge)%bool in
    let tmp_a := filter keep a in
    let indices :=
      map (bin_index first_edge last_edge n_equal_bins bin_edges) tmp_a in
    n <- bincount indices (Z.to_nat n_equal_bins) ;;
    if (length n =? Z.to_nat n_equal_bins)%nat then Some n else None.

(** [np.apply_along_axis(func1d, axis=1, arr=arr)] on a 2-D array: [func1d]
    runs on every row; with no row at all numpy raises [ValueError]
    ("Cannot apply_along_axis when any iteration dimensions are 0"). *)
Definition apply_along_axis1 {A B : Type} (func1d : list A -> option B)
    (arr : list (list A)) : option (list B) :=
  match arr with
  | [] => None
  | _ :: _ => OptionMonad.mapM func1d arr
  end.

(** [np.swapaxes(result, 0, 1)] on the array built from a list of equally
    shaped 2-D arrays; an empty list gives a 1-D array, for which axis 1
    is out of bounds. *)
Definition swapaxes01 {A : Type} (result : list (list (list A)))
  : option (list (list (list A))) :=
  match result with
  | [] => None
  | r0 :: _ =>
      Some (map (fun s : nat => map (fun rv => nth s rv []) result)
                (seq 0 (length r0)))
  end.

(** [np.reshape(h, (h.shape[0], -1))] on a 3-D array: each sample's rows are
    laid end to end. *)
Definition reshape_rows {A : Type} (h : list (list (list A))) : list (list A) :=
  map (@concat A) h.

End Numpy.

(** ** [HistogramTransformer] *)

Module Histogram.
Import Numpy.

(** A raw series tensor, axes (sample, variable, day). *)
Definition tensor := list (list (list Q)).

(** The tensor has shape [(N, V, D)]. *)
Definition has_shape (X : tensor) (N V D : nat) : Prop :=
  length X = N /\
  Forall (fun sample => length sample = V /\
                        Forall (fun series => length series = D) sample) X.

(** [data.shape[1]] *)
Definition shape1 (data : tensor) : nat :=
  match data with
  | [] => 0%nat
  | sample :: _ => length sample
  end.

(** [data[:, i, :]] *)
Definition variable_slice (data : tensor) (i : nat) : list (list Q) :=
  map (fun sample => nth i sample []) data.

Record HistogramTransformer := { n_bins : Z }.

(** [HistogramTransformer._histograms_for_variable(array, n_bins)] with
    [array] of shape [(n_samples, n_days)]. *)
Definition _histograms_for_variable (array : list (list Q)) (n_bins : Z)
  : option (list (list nat)) :=
  lo <- np_min (concat array) ;;
  hi <- np_max (concat array) ;;
  let hist_range := (lo, hi) in
  apply_along_axis1 (fun a => histogram a n_bins hist_range) array.

(** [HistogramTransformer._histograms(data, n_bins)] *)
Definition _histograms (data : tensor) (n_bins : Z)
  : option (list (list (list nat))) :=
  let n_features := shape1 data in
  result <- OptionMonad.mapM
              (fun i => _histograms_for_variable (variable_slice data i) n_bins)
              (seq 0 n_features) ;;
  swapaxes01 result.

(** [HistogramTransformer.transform(X)]: the object is passed in and handed
    back, so that a sequence of calls threads it. *)
Definition transform (self : HistogramTransformer) (X : tensor)
  : HistogramTransformer * option (list (list nat)) :=
  (self,
   histogram_features <- _histograms X (n_bins self) ;;
   Some (reshape_rows histogram_features)).

(** [HistogramTransformer.fit(X, y)]: "No fitting required". *)
Definition fit (self : HistogramTransformer) (X : tensor) (y : list Z)
  : HistogramTransformer := self.

(** Entry [(s, c)] of a feature matrix. *)
Definition at2 (M : list (list nat)) (s c : nat) : nat := nth c (nth s M []) 0%nat.

End Histogram.

(** ** The histogram features in the words of the specification *)

Module HistogramSpec.
Import Numpy Histogram.

(** All values of variable [v] in the batch, over samples and days. *)
Definition batch_values (X : tensor) (v : nat) : list Q :=
  flat_map (fun sample => nth v sample []) X.

(** [m] is a value of [l] and no value of [l] is smaller. *)
Definition is_minimum (m : Q) (l : list Q) : Prop :=
  In m l /\ Forall (fun x => m <= x) l.

(** [m] is a value of [l] and no value of [l] is larger. *)
Definition is_maximum (m : Q) (l : list Q) : Prop :=
  In m l /\ Forall (fun x => x <= m) l.

(** Left edge of bin [b] when [[lo, hi]] is cut into [B] bins of one
    width. *)
Definition bin_left (lo hi : Q) (B : Z) (b : Z) : Q :=
  lo + inject_Z b * ((hi - lo) / inject_Z B).

(** [x] falls into bin [b]: bins are closed on the left and open on the
    right, except the last one, which contains its right edge. *)
Definition in_bin (lo hi : Q) (B : Z) (b : Z) (x : Q) : bool :=
  Qle_bool (bin_left lo hi B b) x &&
  (if (b =? B - 1)%Z then Qle_bool x (bin_left lo hi B (b + 1))
   else Qlt_bool x (bin_left lo hi B (b + 1))).

(** The number of days of a series that fall into bin [b]. *)
Definition days_in_bin (range : Q * Q) (B : Z) (b : Z) (series : list Q) : nat :=
  length (filter (in_bin (fst range) (snd range) B b) series).

(** The length-[B] count vector of one series. *)
Definition bin_counts (range : Q * Q) (B : Z) (series : list Q) : list nat :=
  map (fun b : nat => days_in_bin range B (Z.of_nat b) series)
      (seq 0 (Z.to_nat B)).

(** The range the bins are laid over, as the specification words it: the
    batch minimum and maximum themselves. *)
Definition plain_range (lo hi : Q) : Q * Q := (lo, hi).

(** The same, except that a range of width zero is widened by one half on
    each side. *)
Definition widened_range (lo hi : Q) : Q * Q :=
  if Qeq_bool lo hi then (lo - (1 # 2), hi + (1 # 2)) else (lo, hi).

(** The two definitions below name intermediate results of [transform];
    the lemmas on the pipeline are stated with them. *)

(** The widened range of the minimum and maximum of a 2-D array, when it
    has any value. *)
Definition array_range (array : list (list Q)) : Q * Q :=
  match np_min (concat array), np_max (concat array) with
  | Some lo, Some hi => widened_range lo hi
  | _, _ => (0, 0)
  end.

(** The count vectors of sample [s], one per variable. *)
Definition sample_histograms (X : tensor) (V : nat) (B : Z) (s : nat)
  : list (list nat) :=
  map (fun v : nat =>
         bin_counts (array_range (variable_slice X v)) B (nth v (nth s X []) []))
      (seq 0 V).

(** [M] is the [(N, V*B)] matrix whose entry [(s, v*B + b)] counts the days
    of sample [s] on which variable [v] falls into bin [b] of the [B]-bin
    partition of [range min_v max_v]. *)
Definition histogram_layout (range : Q -> Q -> Q * Q) (X : tensor)
    (N V : nat) (B : Z) (M : list (list nat)) : Prop :=
  length M = N /\
  Forall (fun row => length row = (V * Z.to_nat B)%nat) M /\
  forall v : nat, (v < V)%nat ->
    exists lo hi : Q,
      is_minimum lo (batch_values X v) /\
      is_maximum hi (batch_values X v) /\
      forall s b : nat, (s < N)%nat -> (b < Z.to_nat B)%nat ->
        at2 M s (v * Z.to_nat B + b) =
        days_in_bin (range lo hi) B (Z.of_nat b) (nth v (nth s X []) []).

(** Sum of the [B] counts of the block of variable [v] in row [s]. *)
Definition block_sum (M : list (list nat)) (B : nat) (s v : nat) : nat :=
  list_sum (firstn B (skipn (v * B) (nth s M []))).

(** A batch of two samples, two variables and three days; the second
    variable is constant. *)
Definition X_demo : tensor :=
  [ [ [0; 1; 2]; [5; 5; 5] ];
    [ [3; 3; 0]; [5; 5; 5] ] ].

End HistogramSpec.

(** ** [RandomForestClassification._get_labels] *)

Module Labels.
Import Numpy.

(** [RandomForestClassification._get_labels]: [raw_labels] is what the data
    manager returns for the definition, one row of day values per sample;
    the lambda is [1 if 1 in a else 0]. *)
Definition _get_labels (raw_labels : list (list Z)) : option (list Z) :=
  apply_along_axis1
    (fun a => Some (if existsb (Z.eqb 1) a then 1%Z else 0%Z))
    raw_labels.

(** Every day value of the tensor is a 0/1 indicator. *)
Definition binary_tensor (raw_labels : list (list Z)) : Prop :=
  Forall (Forall (fun d => d = 0%Z \/ d = 1%Z)) raw_labels.

(** Some day of the series is positive. *)
Definition any_positive_day (a : list Z) : Prop := exists d, In d a /\ (0 < d)%Z.

(** The three samples of four days used as an example in the
    specification. *)
Definition raw_labels_demo : list (list Z) :=
  [ [0; 0; 1; 0]; [0; 0; 0; 0]; [1; 1; 1; 1] ]%Z.

End Labels.

(** ** [XGBoostPredict.preprocess_as_prediction] *)

Module Prediction.

(** A binary64 value of an engineered feature: a finite number or one of
    the three special values. *)
Inductive float64 : Type :=
| Finite (q : Q)
| PosInf
| NegInf
| NaN.

Definition matrix := list (list float64).
Definition key := String.string.

(** [np.finfo(np.float64).max] *)
Definition DBL_MAX : Q := inject_Z (2 ^ 1024 - 2 ^ 971).

(** [np.nan_to_num(x)] on one value, with numpy's defaults [nan=0.0],
    [posinf=None], [neginf=None]: the infinities become the largest and the
    most negative finite binary64 value. *)
Definition nan_to_num1 (x : float64) : float64 :=
  match x with
  | NaN => Finite 0
  | PosInf => Finite DBL_MAX
  | NegInf => Finite (- DBL_MAX)
  | Finite q => Finite q
  end.

(** [np.nan_to_num(features)] *)
Definition nan_to_num (features : matrix) : matrix := map (map nan_to_num1) features.

Definition is_finite (x : float64) : bool :=
  match x with
  | Finite _ => true
  | _ => false
  end.

(** The value is a finite zero. *)
Definition is_zero (x : float64) : bool :=
  match x with
  | Finite q => Qeq_bool q 0
  | _ => false
  end.

(** Python exceptions, as far as the control flow tells them apart. *)
Inductive exn : Type :=
| FileNotFoundError
| AttributeError
| OtherError (name : String.string).

Definition is_FileNotFoundError (e : exn) : bool :=
  match e with
  | FileNotFoundError => true
  | _ => false
  end.

Inductive result (A : Type) : Type :=
| Ok (a : A)
| Raise (e : exn).
Arguments Ok {A} a.
Arguments Raise {A} e.

(** What is stored under [pickle_path]: nothing, something that cannot be
    opened or unpickled into a pair (the exception it raises is recorded),
    or a pickled [[features, feature_keys]]. *)
Inductive file : Type :=
| Absent
| Unreadable (e : exn)
| Pickled (features : matrix) (feature_keys : list key).

(** The part of the file system the method touches. [write_error] is the
    exception that opening [pickle_path] for writing raises, if any. *)
Record world := {
  pickle_file : file;
  write_error : option exn
}.

(** The attribute of the object the method assigns; [None] is "not set". *)
Record XGBoostPredict := { feature_keys : option (list key) }.

Definition state : Type := XGBoostPredict * world.

(** Statements that may raise and that update the object and the world. A
    raise keeps the updates made so far. *)
Definition M (A : Type) : Type := state -> result A * state.

Definition ret {A : Type} (a : A) : M A := fun st => (Ok a, st).

Definition raise {A : Type} (e : exn) : M A := fun st => (Raise e, st).

Definition bind {A B : Type} (m : M A) (k : A -> M B) : M B :=
  fun st =>
    match m st with
    | (Ok a, st') => k a st'
    | (Raise e, st') => (Raise e, st')
    end.

(** A call that may raise and touches no state. *)
Definition call {A : Type} (r : result A) : M A := fun st => (r, st).

(** A method of the object that may raise and may assign attributes. *)
Definition method {A : Type}
    (f : XGBoostPredict -> result A * XGBoostPredict) : M A :=
  fun st => let (r, self) := f (fst st) in (r, (self, snd st)).

(** [try: body  except <catches>: handler] *)
Definition try_except {A : Type} (body : M A) (catches : exn -> bool)
    (handler : M A) : M A :=
  fun st =>
    match body st with
    | (Ok a, st') => (Ok a, st')
    | (Raise e, st') => if catches e then handler st' else (Raise e, st')
    end.

(** [self.feature_keys = keys] *)
Definition set_feature_keys (keys : list key) : M unit :=
  fun st => (Ok tt, ({| feature_keys := Some keys |}, snd st)).

(** [self.feature_keys]; an attribute that was never set raises. *)
Definition get_feature_keys : M (list key) :=
  fun st =>
    match feature_keys (fst st) with
    | Some keys => (Ok keys, st)
    | None => (Raise AttributeError, st)
    end.

(** [with open(str(self.pickle_path), 'rb') as f: ... pickle.load(f)] *)
Definition pickle_load : M (matrix * list key) :=
  fun st =>
    match pickle_file (snd st) with
    | Absent => (Raise FileNotFoundError, st)
    | Unreadable e => (Raise e, st)
    | Pickled features keys => (Ok (features, keys), st)
    end.

(** What reading a file of length zero raises: [pickle.load] runs out of
    input. *)
Definition empty_file : file := Unreadable (OtherError "EOFError"%string).

(** [open(str(self.pickle_path), 'wb')]: it raises and leaves the file
    system alone, or it creates the file, cutting an existing one down to
    length zero. *)
Definition open_for_writing : M unit :=
  fun st =>
    match write_error (snd st) with
    | Some e => (Raise e, st)
    | None =>
        (Ok tt,
         (fst st, {| pickle_file := empty_file;
                     write_error := write_error (snd st) |}))
    end.

(** [pickle.dump([features, keys], f)] on the file just opened, and the
    close at the end of the [with] block. Pickling an array and a list of
    strings does not fail; an input/output error after a successful [open]
    is not modelled. *)
Definition pickle_dump (features : matrix) (keys : list key) : M unit :=
  fun st =>
    (Ok tt,
     (fst st, {| pickle_file := Pickled features keys;
                 write_error := write_error (snd st) |})).

Notation "x <-- m ;;; k" := (bind m (fun x => k))
  (at level 61, m at next level, right associativity).
Notation "m ;;; k" := (bind m (fun _ => k))
  (at level 61, right associativity).

(** [XGBoostPredict._bring_data_to_format(temp_data)]: the rows of an
    [(N, FC, D)] array, sample by sample. *)
Definition _bring_data_to_format (temp_data : list matrix) : matrix :=
  let feature_count :=
    match temp_data with
    | [] => 0%nat
    | sample :: _ => length sample
    end in
  flat_map
    (fun i : nat =>
       map (fun j : nat => nth j (nth i temp_data []) []) (seq 0 feature_count))
    (seq 0 (length temp_data)).

Definition split : Type := matrix * matrix * list Z * list Z.

Section Collaborators.

(** The code this method calls and that lies outside the two files: the
    prediction set, the inherited feature engineering, scikit-learn's
    [train_test_split] and imbalanced-learn's [SMOTE]. *)

(** [np.ravel(self.prediction_set.get_labels_for_prediction())] *)
Variable get_labels_for_prediction : result (list Z).

(** [self.prediction_set.cutoff_for_prediction()] *)
Variable cutoff_for_prediction : result (list matrix).

(** [self._produce_features(data)], inherited from [ManualAndXGBoost]: it
    returns the features (or raises) and may assign attributes of [self],
    [feature_keys] among them. *)
Variable _produce_features :
  matrix -> XGBoostPredict -> result matrix * XGBoostPredict.

(** [train_test_split(features, labels, test_size=0.2, stratify=labels,
    random_state=42)] *)
Variable train_test_split : matrix -> list Z -> result split.

(** [SMOTE().fit_resample(X_train, y_train)] *)
Variable fit_resample : matrix -> list Z -> result (matrix * list Z).

(** The [try] block of [preprocess_as_prediction]. *)
Definition load_features : M matrix :=
  loaded <-- pickle_load ;;;
  set_feature_keys (snd loaded) ;;;
  ret (fst loaded).

(** Its [except FileNotFoundError] block. The file is opened for writing
    before the list [[features, self.feature_keys]] is built, so a missing
    attribute is met with the file already cut down. *)
Definition produce_and_store_features : M matrix :=
  data <-- call cutoff_for_prediction ;;;
  let data := _bring_data_to_format data in
  features <-- method (_produce_features data) ;;;
  open_for_writing ;;;
  keys <-- get_feature_keys ;;;
  pickle_dump features keys ;;;
  ret features.

(** The whole [try ... except FileNotFoundError ...] statement; its value
    is the variable [features] after it. *)
Definition cached_or_fresh_features : M matrix :=
  try_except load_features is_FileNotFoundError produce_and_store_features.

(** [features] after [features = np.nan_to_num(features)]. *)
Definition cleaned_features : M matrix :=
  features <-- cached_or_fresh_features ;;;
  ret (nan_to_num features).

(** [XGBoostPredict.preprocess_as_prediction(self)] *)
Definition preprocess_as_prediction : M split :=
  labels <-- call get_labels_for_prediction ;;;
  features <-- cleaned_features ;;;
  parts <-- call (train_test_split features labels) ;;;
  let '(X_train, X_test, y_train, y_test) := parts in
  resampled <-- call (fit_resample X_train y_train) ;;;
  let '(X_train, y_train) := resampled in
  ret (X_train, X_test, y_train, y_test).

End Collaborators.

(** Class counts and the gap between them, as a share of the vector. *)
Definition count_label (c : Z) (y : list Z) : nat := count_occ Z.eq_dec y c.

Definition imbalance (y : list Z) : Q :=
  let n1 := Z.of_nat (count_label 1 y) in
  let n0 := Z.of_nat (count_label 0 y) in
  inject_Z (Z.abs (n1 - n0)) / inject_Z (n1 + n0).

(** The number of columns of a matrix. *)
Definition n_columns (features : matrix) : nat :=
  match features with
  | [] => 0%nat
  | row :: _ => length row
  end.

(** *** Simple collaborators for concrete runs

    They stand for the library calls when a run is evaluated on concrete
    data: none of them looks at the feature keys, and the oversampler
    leaves the two classes equally frequent, as [SMOTE] with its default
    [sampling_strategy] does. *)

(** A hold-out split: the last fifth of the rows (rounded up) is the test
    partition; arrays of different lengths are refused. *)
Definition holdout_split (features : matrix) (labels : list Z) : result split :=
  if negb (length features =? length labels)%nat
  then Raise (OtherError "ValueError"%string)
  else
    let n := length labels in
    let n_train := (n - (n + 4) / 5)%nat in
    Ok (firstn n_train features, skipn n_train features,
        firstn n_train labels, skipn n_train labels).

(** An oversampler: the rarer class is filled up with copies of the first
    row until both classes have the same number of rows; a class without
    any row is refused. *)
Definition repeat_minority (X : matrix) (y : list Z) : result (matrix * list Z) :=
  let n1 := count_label 1 y in
  let n0 := count_label 0 y in
  if ((n1 =? 0)%nat || (n0 =? 0)%nat)%bool
  then Raise (OtherError "ValueError"%string)
  else
    let minority := if (n1 <? n0)%nat then 1%Z else 0%Z in
    let missing := (Nat.max n0 n1 - Nat.min n0 n1)%nat in
    Ok (X ++ repeat (hd [] X) missing, y ++ repeat minority missing).

(** Feature engineering that keeps the table and names two columns. *)
Definition keep_table (data : matrix) (self : XGBoostPredict)
  : result matrix * XGBoostPredict :=
  (Ok data, {| feature_keys := Some ["f0"%string; "f1"%string] |}).

Definition labels_demo : list Z := [0; 0; 0; 1; 0; 0; 0; 1; 0; 1]%Z.

(** Ten labels with as many events as non-events. *)
Definition labels_even : list Z := [0; 1; 0; 1; 0; 1; 0; 1; 0; 1]%Z.

Definition features_demo : matrix :=
  [ [Finite 1; Finite 2]; [Finite 3; NaN]; [Finite 5; Finite 6];
    [Finite 7; Finite 8]; [NegInf; Finite 1]; [Finite 2; Finite 3];
    [Finite 4; Finite 5]; [Finite 6; Finite 7]; [Finite 8; Finite 9];
    [PosInf; Finite 0] ].

(** The same table as the [(N, FC, D)] array it is cut from: [FC = 1]. *)
Definition series_demo : list matrix := map (fun row => [row]) features_demo.

(** An object on which no attribute has been assigned yet. *)
Definition fresh_object : XGBoostPredict := {| feature_keys := None |}.

(** [preprocess_as_prediction] with the simple collaborators. *)
Definition preprocess_demo : M split :=
  preprocess_as_prediction (Ok labels_demo) (Ok series_demo) keep_table
    holdout_split repeat_minority.

(** Every non-finite entry of [before] is a zero in [after]. *)
Definition nonfinite_zeroed (before after : matrix) : Prop :=
  forall i j : nat,
    (i < length before)%nat -> (j < length (nth i before []))%nat ->
    is_finite (nth j (nth i before []) NaN) = false ->
    is_zero (nth j (nth i after []) NaN) = true.

(** What became of one entry. *)
Definition replaced (x y : float64) : Prop :=
  match x with
  | NaN => y = Finite 0
  | PosInf => y = Finite DBL_MAX
  | NegInf => y = Finite (- DBL_MAX)
  | Finite q => y = Finite q
  end.

(** [after] has the shape of [before], holds finite values only, and each
    entry is the replacement of the entry of [before]. *)
Definition nonfinite_replaced (before after : matrix) : Prop :=
  length after = length before /\
  forall i j : nat,
    (i < length before)%nat -> (j < length (nth i before []))%nat ->
    is_finite (nth j (nth i after []) NaN) = true /\
    replaced (nth j (nth i before []) NaN) (nth j (nth i after []) NaN).

(** The cache holds [features] with the given keys. *)
Definition cached (features : matrix) (keys : list key) : state :=
  (fresh_object,
   {| pickle_file := Pickled features keys; write_error := None |}).

(** There is no cache file. *)
Definition no_cache : state :=
  (fresh_object, {| pickle_file := Absent; write_error := None |}).

(** The rest of the method once [features] has its value [F]. *)
Definition split_and_oversample
    (train_test_split : matrix -> list Z -> result split)
    (fit_resample : matrix -> list Z -> result (matrix * list Z))
    (F : matrix) (labels : list Z) (st : state) : result split * state :=
  match train_test_split F labels with
  | Raise e => (Raise e, st)
  | Ok (X_train0, X_test, y_train0, y_test) =>
      match fit_resample X_train0 y_train0 with
      | Raise e => (Raise e, st)
      | Ok (X_train, y_train) => (Ok (X_train, X_test, y_train, y_test), st)
      end
  end.

End Prediction.

(** ** Batches that should give the same histograms *)

Unset Implicit Arguments.

Module Invariance.
Import Numpy Histogram HistogramSpec.

(** [X'] is [X] with the days of every series put in another order. *)
Definition days_reordered (X X' : tensor) : Prop :=
  Forall2 (Forall2 (@Permutation Q)) X X'.

(** Two ranges with equal ends (as rationals). *)
Definition same_range (r r' : Q * Q) : Prop :=
  fst r == fst r' /\ snd r == snd r'.

(** [X_demo] with the days of two series swapped around. *)
Definition X_demo_reordered : tensor :=
  [ [ [1; 0; 2]; [5; 5; 5] ];
    [ [3; 0; 3]; [5; 5; 5] ] ].

End Invariance.

(** ** binary64 *)

Module Binary64.

(** A binary64 value, in the representation of the IEEE 754 reference
    model [SpecFloat]; the values of the format are the valid ones, with a
    mantissa of at most 53 bits and the exponent of a normal or subnormal
    number. *)
Definition float64 : Type := spec_float.
Definition prec : Z := 53.
Definition emax : Z := 1024.

Definition valid (x : float64) : bool := valid_binary prec emax x.

(** The arithmetic of the format, rounding to nearest, ties to even. *)
Definition add : float64 -> float64 -> float64 := SFadd prec emax.
Definition sub : float64 -> float64 -> float64 := SFsub prec emax.
Definition mul : float64 -> float64 -> float64 := SFmul prec emax.
Definition div : float64 -> float64 -> float64 := SFdiv prec emax.

(** [x < y], [x <= y], [x == y]: false as soon as one side is NaN. *)
Definition ltb : float64 -> float64 -> bool := SFltb.
Definition leb : float64 -> float64 -> bool := SFleb.
Definition eqb : float64 -> float64 -> bool := SFeqb.

(** The binary64 value nearest to an integer. *)
Definition of_Z (z : Z) : float64 := binary_normalize prec emax z 0 false.

(** [0.5] *)
Definition half : float64 := S754_finite false (2 ^ 52) (-53).

Definition isnan (x : float64) : bool :=
  match x with
  | S754_nan => true
  | _ => false
  end.

(** [np.isfinite] *)
Definition isfinite (x : float64) : bool :=
  match x with
  | S754_zero _ | S754_finite _ _ _ => true
  | _ => false
  end.

(** The exact value of a finite number, as a rational. *)
Definition to_Q (x : float64) : Q :=
  match x with
  | S754_finite s m e =>
      let magnitude :=
        match e with
        | Z0 => inject_Z (Zpos m)
        | Zpos p => inject_Z (Zpos m * 2 ^ Zpos p)
        | Zneg p => Zpos m # (2 ^ p)
        end in
      if s then - magnitude else magnitude
  | _ => 0
  end.

(** The least value of [np.intp] on a 64-bit platform. *)
Definition INTP_MIN : Z := - 2 ^ 63.

(** [astype(np.intp)] on one value: truncation towards zero. The cast of
    NaN, of an infinity or of a value outside the range of [np.intp] is
    left open by C; the result here is the one of x86-64, the least
    integer. No lemma below depends on that choice. *)
Definition astype_intp (x : float64) : Z :=
  match x with
  | S754_zero _ => 0
  | S754_finite s m e =>
      let magnitude :=
        match e with
        | Z0 => Zpos m
        | Zpos p => Z.shiftl (Zpos m) (Zpos p)
        | Zneg p => Z.shiftr (Zpos m) (Zpos p)
        end in
      let z := if s then (- magnitude)%Z else magnitude in
      if ((INTP_MIN <=? z)%Z && (z <? 2 ^ 63)%Z)%bool then z else INTP_MIN
  | _ => INTP_MIN
  end.

(** The place of a value in the order: its class, then exponent and
    mantissa, counted downwards for negative numbers. *)
Definition key (x : float64) : Z * Z * Z :=
  match x with
  | S754_nan => (0, 0, 0)%Z
  | S754_infinity true => (-2, 0, 0)%Z
  | S754_infinity false => (2, 0, 0)%Z
  | S754_zero _ => (0, 0, 0)%Z
  | S754_finite true m e => (-1, - e, - Zpos m)%Z
  | S754_finite false m e => (1, e, Zpos m)%Z
  end.

Definition key_le (a b : Z * Z * Z) : Prop :=
  let '(a1, a2, a3) := a in
  let '(b1, b2, b3) := b in
  (a1 < b1 \/ (a1 = b1 /\ (a2 < b2 \/ (a2 = b2 /\ a3 <= b3))))%Z.

(** The outcome of a rounding, given the mantissa [m] it settles on at the
    exponent [t]. *)
Definition settled (s : bool) (m t : Z) : float64 :=
  if (m =? 2 ^ 53)%Z then
    if (t + 1 <=? 971)%Z then S754_finite s (2 ^ 52) (t + 1) else S754_infinity s
  else
    match m with
    | Z0 => S754_zero s
    | Zpos p => if (t <=? 971)%Z then S754_finite s p t else S754_infinity s
    | Zneg _ => S754_nan
    end.

End Binary64.

(** ** The numpy calls of [HistogramTransformer], in binary64

    [np.histogram] as numpy 2 runs it for an integer number of bins and a
    given range. *)

Module Numpy64.
Import Binary64.

(** The scalar loops of [np.minimum] and [np.maximum]: a NaN on either
    side is the result. *)
Definition scalar_min (a b : float64) : float64 :=
  if (leb a b || isnan a)%bool then a else b.
Definition scalar_max (a b : float64) : float64 :=
  if (leb b a || isnan a)%bool then a else b.

(** [np.min(array)]: the array is flattened by the caller; a zero-size
    array raises [ValueError]; the reduction runs from the first element
    on. *)
Definition np_min (a : list float64) : option float64 :=
  match a with
  | [] => None
  | x :: r => Some (fold_left scalar_min r x)
  end.

(** [np.max(array)], likewise. *)
Definition np_max (a : list float64) : option float64 :=
  match a with
  | [] => None
  | x :: r => Some (fold_left scalar_max r x)
  end.

(** [_get_outer_edges(a, range)] with [range] given: a reversed range and
    a range that is not finite raise [ValueError]; an empty range is
    widened by one half on each side "to avoid divide by zero". *)
Definition _get_outer_edges (range : float64 * float64) : option (float64 * float64) :=
  let (first_edge, last_edge) := range in
  if ltb last_edge first_edge then None
  else if negb (isfinite first_edge && isfinite last_edge) then None
  else if eqb first_edge last_edge
       then Some (sub first_edge half, add last_edge half)
       else Some (first_edge, last_edge).

(** [np.linspace(start, stop, num, endpoint=True)] for [num >= 1]:
    [arange(0, num) * step + start] with [step = (stop - start) / (num - 1)]
    (for a step that rounds to zero, [arange(0, num) / (num - 1) *
    (stop - start) + start]), and the last point overwritten by [stop]
    when [num > 1]. *)
Definition linspace (start stop : float64) (num : nat) : list float64 :=
  let div_ := (num - 1)%nat in
  let delta := sub stop start in
  let y := map (fun i : nat => of_Z (Z.of_nat i)) (seq 0 num) in
  let y :=
    if (0 <? div_)%nat then
      let step := div delta (of_Z (Z.of_nat div_)) in
      if eqb step (of_Z 0)
      then map (fun v => mul (div v (of_Z (Z.of_nat div_))) delta) y
      else map (fun v => mul v step) y
    else map (fun v => mul v delta) y in
  let y := map (fun v => add v start) y in
  if (1 <? num)%nat then firstn div_ y ++ [stop] else y.

(** [np.any(bin_edges[:-1] >= bin_edges[1:])] *)
Definition any_edge_not_below_next (bin_edges : list float64) : bool :=
  existsb (fun pair : float64 * float64 => leb (snd pair) (fst pair))
          (combine bin_edges (tl bin_edges)).

(** [bin_edges[i]]: a negative index counts from the end; an index
    outside the array raises [IndexError]. *)
Definition getitem (bin_edges : list float64) (i : Z) : option float64 :=
  let n := Z.of_nat (length bin_edges) in
  if ((0 <=? i)%Z && (i <? n)%Z)%bool then nth_error bin_edges (Z.to_nat i)
  else if ((- n <=? i)%Z && (i <? 0)%Z)%bool then nth_error bin_edges (Z.to_nat (n + i))
  else None.

(** The index of the bin of one value [x], as the fast path of
    [np.histogram] computes it for equal-width bins: scale, truncate, pull
    the right edge into the last bin, then the two corrections against
    [bin_edges]. *)
Definition bin_index (first_edge last_edge : float64) (n_equal_bins : Z)
    (bin_edges : list float64) (x : float64) : option Z :=
  let norm_numerator := of_Z n_equal_bins in
  let norm_denom := sub last_edge first_edge in
  let f_index := mul (div (sub x first_edge) norm_denom) norm_numerator in
  let index := astype_intp f_index in
  let index := if (index =? n_equal_bins)%Z then (index - 1)%Z else index in
  edge <- getitem bin_edges index ;;
  let decrement := ltb x edge in
  let index := if decrement then (index - 1)%Z else index in
  next_edge <- getitem bin_edges (index + 1) ;;
  let increment := (leb next_edge x && negb (index =? n_equal_bins - 1)%Z)%bool in
  Some (if increment then (index + 1)%Z else index).

(** The values of [a] inside the outer edges: [tmp_a[keep]]. *)
Definition keep (first_edge last_edge : float64) (x : float64) : bool :=
  (leb first_edge x && leb x last_edge)%bool.

(** [np.histogram(a, bins=bins, range=range)[0]] for an integer [bins]:
    [bins < 1] raises [ValueError]; so do edges that are not strictly
    increasing ("Too many bins for data range"); values outside the outer
    edges are dropped; [n += np.bincount(...)] needs the two shapes to
    agree. *)
Definition histogram (a : list float64) (bins : Z) (range : float64 * float64)
  : option (list nat) :=
  if (bins <? 1)%Z then None
  else
    edges <- _get_outer_edges range ;;
    let (first_edge, last_edge) := edges : float64 * float64 in
    let n_equal_bins := bins in
    let bin_edges :=
      linspace first_edge last_edge (Z.to_nat (n_equal_bins + 1)) in
    if any_edge_not_below_next bin_edges then None
    else
      let tmp_a := filter (keep first_edge last_edge) a in
      indices <- OptionMonad.mapM
                   (bin_index first_edge last_edge n_equal_bins bin_edges) tmp_a ;;
      n <- Numpy.bincount indices (Z.to_nat n_equal_bins) ;;
      if (length n =? Z.to_nat n_equal_bins)%nat then Some n else None.

End Numpy64.

(** ** [HistogramTransformer] on binary64 arrays *)

Module Histogram64.
Import Binary64 Numpy64.
Import Histogram (HistogramTransformer, n_bins, at2).

(** A raw series tensor of binary64 values, axes (sample, variable, day). *)
Definition tensor := list (list (list float64)).

(** The tensor has shape [(N, V, D)]. *)
Definition has_shape (X : tensor) (N V D : nat) : Prop :=
  length X = N /\
  Forall (fun sample => length sample = V /\
                        Forall (fun series => length series = D) sample) X.

(** [data.shape[1]] *)
Definition shape1 (data : tensor) : nat :=
  match data with
  | [] => 0%nat
  | sample :: _ => length sample
  end.

(** [data[:, i, :]] *)
Definition variable_slice (data : tensor) (i : nat) : list (list float64) :=
  map (fun sample => nth i sample []) data.

(** [HistogramTransformer._histograms_for_variable(array, n_bins)] with
    [array] of shape [(n_samples, n_days)]. *)
Definition _histograms_for_variable (array : list (list float64)) (n_bins : Z)
  : option (list (list nat)) :=
  lo <- np_min (concat array) ;;
  hi <- np_max (concat array) ;;
  let hist_range := (lo, hi) in
  Numpy.apply_along_axis1 (fun a => histogram a n_bins hist_range) array.

(** [HistogramTransformer._histograms(data, n_bins)] *)
Definition _histograms (data : tensor) (n_bins : Z)
  : option (list (list (list nat))) :=
  let n_features := shape1 data in
  result <- OptionMonad.mapM
              (fun i => _histograms_for_variable (variable_slice data i) n_bins)
              (seq 0 n_features) ;;
  Numpy.swapaxes01 result.

(** [HistogramTransformer.transform(X)] *)
Definition transform (self : HistogramTransformer) (X : tensor)
  : option (list (list nat)) :=
  histogram_features <- _histograms X (n_bins self) ;;
  Some (Numpy.reshape_rows histogram_features).

(** All values of variable [v] in the batch, over samples and days. *)
Definition batch_values (X : tensor) (v : nat) : list float64 :=
  flat_map (fun sample => nth v sample []) X.

(** Every entry is a number of the format. *)
Definition valid_tensor (X : tensor) : Prop :=
  Forall (Forall (Forall (fun x => valid x = true))) X.

(** A tensor of integers. *)
Definition of_integers (X : list (list (list Z))) : tensor :=
  map (map (map of_Z)) X.

(** A batch of two samples, two variables and three days; the second
    variable is constant. *)
Definition X_demo : tensor :=
  of_integers [ [ [0; 1; 2]; [5; 5; 5] ];
                [ [3; 3; 0]; [5; 5; 5] ] ]%Z.

(** A batch of three samples whose variables have the extremes of
    [X_demo]; its second sample is the first sample of [X_demo]. *)
Definition X_demo_more : tensor :=
  of_integers [ [ [3; 3; 0]; [5; 5; 5] ];
                [ [0; 1; 2]; [5; 5; 5] ];
                [ [1; 1; 1]; [5; 5; 5] ] ]%Z.

(** One sample of one variable with the values 0, 29 and 58. *)
Definition X_thirds : tensor := of_integers [ [ [0; 29; 58] ] ]%Z.

(** One sample of one variable that spans the whole finite range: the
    most negative and the largest number of the format. *)
Definition X_wide : tensor :=
  [ [ [S754_finite true (2 ^ 53 - 1) 971; S754_finite false (2 ^ 53 - 1) 971] ] ].

(** One sample of one variable, constant at [2^53]. *)
Definition X_large : tensor := of_integers [ [ [2 ^ 53; 2 ^ 53] ] ]%Z.

End Histogram64.

(** ** Arrays of shape [(N, FC, D)] *)

Module DataFormat.
Import Prediction.

(** The array has shape [(N, FC, D)]. *)
Definition has_shape3 (temp_data : list matrix) (N FC D : nat) : Prop :=
  length temp_data = N /\
  Forall (fun sample => length sample = FC /\
                        Forall (fun series => length series = D) sample)
         temp_data.

(** An [(N, FC, D)] array with [N = 2], [FC = 3], [D = 2]. *)
Definition temp_data_demo : list matrix :=
  [ [ [Finite 1; Finite 2]; [Finite 3; Finite 4]; [Finite 5; NaN] ];
    [ [Finite 7; Finite 8]; [PosInf; Finite 10]; [Finite 11; Finite 12] ] ].

End DataFormat.

(** ** The prediction script: the path of the cache file *)

Module PredictionScript.

(** [str(n)] on an [int]: the decimal digits, with a minus sign for negative numbers. *)
Definition str (n : Z) : string := NilZero.string_of_int (Z.to_int n).

(** The parsed command line of the prediction script. *)
Record Args : Type := {
  definition : string;
  input_path : string;
  output_path : string;
  cutoff_point : Z;
  prediction_interval : Z
}.

(** The path of the feature file the script hands to [XGBoostPredict]. *)
Definition pickle_path (args : Args) : string :=
  (output_path args ++ "features" ++ str (cutoff_point args) ++ ".pkl")%string.

Definition args_demo (definition : string) (prediction_interval : Z) : Args :=
  {| definition := definition;
     input_path := "data/data_labeled.h5";
     output_path := "data/";
     cutoff_point := 60;
     prediction_interval := prediction_interval |}.

End PredictionScript.

(** ** [RandomForestClassification]: the two evaluations

    The data manager, the metric functions, the random forest, the
    stratified splitter, [cross_validate], the plot and the output writer
    are collaborators: the methods are embedded over arbitrary ones.  The
    records written by [Output.write_output] are collected in a sink;
    logging is left out except where the log line itself can raise. *)

Module Evaluation.
Import Histogram.
Import Prediction (result, Ok, Raise, exn, AttributeError, OtherError).

(** [preprocessing.dataset.DatapointKey], as far as this file names it. *)
Inductive DatapointKey : Type :=
| TEMP_60_90 | WIND_60 | WIND_65 | CP07 | UT | U65.

(** [utils.enums], as far as this file names them. *)
Inductive Classifier : Type := randomforest.
Inductive Task : Type := classification.
Inductive DataType : Type := simulated | real.
Inductive Metric : Type := f1 | auroc | accuracy.

(** A list comprehension whose body may raise: the first exception aborts
    it. *)
Fixpoint mapM {A B : Type} (f : A -> result B) (l : list A) : result (list B) :=
  match l with
  | [] => Ok []
  | x :: r =>
      match f x with
      | Raise e => Raise e
      | Ok y =>
          match mapM f r with
          | Raise e => Raise e
          | Ok ys => Ok (y :: ys)
          end
      end
  end.

(** [l[i]] on a Python list, for [i >= 0]. *)
Definition getitem {A : Type} (l : list A) (i : nat) : result A :=
  match nth_error l i with
  | Some x => Ok x
  | None => Raise (OtherError "IndexError"%string)
  end.

(** [d[key]] on a dict with string keys. *)
Fixpoint dict_getitem {A : Type} (d : list (string * A)) (key : string) : result A :=
  match d with
  | [] => Raise (OtherError "KeyError"%string)
  | (k, v) :: r => if String.eqb k key then Ok v else dict_getitem r key
  end.

(** The truth value of an optional path: [None] and the empty string are
    false. *)
Definition truthy (path : option string) : bool :=
  match path with
  | None => false
  | Some p => negb (String.eqb p ""%string)
  end.

Section Collaborators.

(** A score as the metric functions return it. *)
Variable score : Type.

(** A fitted random forest. *)
Variable forest : Type.

(** [core.data_manager.DataManager]: the two accessors of an instance. *)
Record DataManager : Type := {
  get_data_for_variables : list DatapointKey -> result tensor;
  get_data_for_variable : DatapointKey -> result (list (list Z))
}.

(** [DataManager(path)] *)
Variable DataManager_new : option string -> result DataManager.

(** [f1_score], [roc_auc_score], [accuracy_score], called as
    [metric(y_true, y_pred)]. *)
Definition metric_function : Type := list Z -> list Z -> result score.
Variables f1_score roc_auc_score accuracy_score : metric_function.

(** [RandomForestClassifier(n_estimators=n, n_jobs=4)]: [fit] on a feature
    matrix and labels, [predict] on a feature matrix. *)
Variable forest_fit : Z -> list (list nat) -> list Z -> result forest.
Variable forest_predict : forest -> list (list nat) -> result (list Z).

(** [StratifiedKFold(n_splits, shuffle=True)] and the object it builds. *)
Variable splitter : Type.
Variable StratifiedKFold : Z -> result splitter.

(** [np.mean], [np.std] *)
Variables np_mean np_std : list score -> score.

(** [utils.output_class.Output]: the record and its [write_output]. *)
Record Output : Type := {
  out_classifier : Classifier;
  out_task : Task;
  out_data_type : DataType;
  out_definition : DatapointKey;
  out_metric : Metric;
  out_scores : list score
}.
Variable write_output_ok : Output -> result unit.

(** The records written so far. *)
Definition sink : Type := list Output.

(** Statements that may raise and that may write records. *)
Definition W (A : Type) : Type := sink -> result A * sink.

Definition ret {A : Type} (a : A) : W A := fun s => (Ok a, s).

Definition bind {A B : Type} (m : W A) (k : A -> W B) : W B :=
  fun s =>
    match m s with
    | (Ok a, s') => k a s'
    | (Raise e, s') => (Raise e, s')
    end.

Definition call {A : Type} (r : result A) : W A := fun s => (r, s).

(** [Output(...).write_output()]: the record is in the sink once the call
    has returned. *)
Definition write_output (o : Output) : W unit :=
  fun s =>
    match write_output_ok o with
    | Ok _ => (Ok tt, s ++ [o])
    | Raise e => (Raise e, s)
    end.

Notation "x <~ m ;; k" := (bind m (fun x => k))
  (at level 61, m at next level, right associativity).
Notation "m ;;; k" := (bind m (fun _ => k))
  (at level 61, right associativity).

Record RandomForestClassification : Type := {
  data_manager_train : DataManager;
  data_manager_test : option DataManager;
  definition : DatapointKey;
  cv_folds : Z;
  rf_n_bins : Z;
  metric_txt : list string;
  metrics : list metric_function;
  classifier : Z
}.

(** [RandomForestClassification.__init__] *)
Definition __init__ (definition : DatapointKey) (path_train : option string)
    (n_bins n_estimators cv_folds : Z) (path_test : option string)
  : result RandomForestClassification :=
  match DataManager_new path_train with
  | Raise e => Raise e
  | Ok manager_train =>
      let build := fun manager_test =>
        Ok {| data_manager_train := manager_train;
              data_manager_test := manager_test;
              definition := definition;
              cv_folds := cv_folds;
              rf_n_bins := n_bins;
              metric_txt := ["F1"%string; "ROCAUC"%string; "Accuracy"%string];
              metrics := [f1_score; roc_auc_score; accuracy_score];
              classifier := n_estimators |} in
      if truthy path_test then
        match DataManager_new path_test with
        | Raise e => Raise e
        | Ok manager_test => build (Some manager_test)
        end
      else build None
  end.

(** [self.data_manager_test]: the attribute exists only when [path_test]
    was given. *)
Definition test_manager (self : RandomForestClassification) : result DataManager :=
  match data_manager_test self with
  | Some manager => Ok manager
  | None => Raise AttributeError
  end.

(** [RandomForestClassification._get_raw_data] *)
Definition _get_raw_data (self : RandomForestClassification) (train : bool)
  : result tensor :=
  let variables := [TEMP_60_90; WIND_60; WIND_65] in
  if train then get_data_for_variables (data_manager_train self) variables
  else
    match test_manager self with
    | Raise e => Raise e
    | Ok manager => get_data_for_variables manager variables
    end.

(** [RandomForestClassification._get_labels]: the raw labels come from the
    data manager and go through the reduction of [Labels._get_labels]. *)
Definition _get_labels (self : RandomForestClassification) (train : bool)
  : result (list Z) :=
  let raw :=
    if train then get_data_for_variable (data_manager_train self) (definition self)
    else
      match test_manager self with
      | Raise e => Raise e
      | Ok manager => get_data_for_variable manager (definition self)
      end in
  match raw with
  | Raise e => Raise e
  | Ok raw_labels =>
      match Labels._get_labels raw_labels with
      | Some binary_label => Ok binary_label
      | None => Raise (OtherError "ValueError"%string)
      end
  end.

(** The pipeline of [_get_pipeline]: the feature extraction and the
    classifier. *)
Record Pipeline : Type := {
  feature_extraction : HistogramTransformer;
  model : Z
}.

(** [RandomForestClassification._get_pipeline] *)
Definition _get_pipeline (self : RandomForestClassification) : Pipeline :=
  {| feature_extraction := {| n_bins := rf_n_bins self |};
     model := classifier self |}.

(** The features the pipeline hands to its last step: [fit_transform] on
    fitting ([fit], then [transform]), [transform] on predicting. *)
Definition extract (feature_extraction : HistogramTransformer) (X : tensor)
  : result (list (list nat)) :=
  match snd (transform feature_extraction X) with
  | Some features => Ok features
  | None => Raise (OtherError "ValueError"%string)
  end.

(** [pipeline.fit(X, y)] *)
Definition pipeline_fit (pipeline : Pipeline) (X : tensor) (y : list Z)
  : result forest :=
  match extract (fit (feature_extraction pipeline) X y) X with
  | Raise e => Raise e
  | Ok features => forest_fit (model pipeline) features y
  end.

(** [pipeline.predict(X)] on the fitted pipeline. *)
Definition pipeline_predict (pipeline : Pipeline) (fitted : forest) (X : tensor)
  : result (list Z) :=
  match extract (feature_extraction pipeline) X with
  | Raise e => Raise e
  | Ok features => forest_predict fitted features
  end.

(** [cross_validate(pipeline, X, y, cv=cv, scoring=scorers)]: the dict it
    returns. *)
Variable cross_validate :
  Pipeline -> tensor -> list Z -> splitter -> list (string * metric_function) ->
  result (list (string * list score)).

(** [self.plot(scores_means, scores_std)] *)
Variable plot : list score -> list score -> result unit.

(** The record of one metric: [Output] with the default arguments of the
    method, the metric and its scores. *)
Definition output_for (self : RandomForestClassification) (data_type : DataType)
    (metric : Metric) (scores : list score) : Output :=
  {| out_classifier := randomforest;
     out_task := classification;
     out_data_type := data_type;
     out_definition := definition self;
     out_metric := metric;
     out_scores := scores |}.

(** The [for i, metric in enumerate(self.metrics)] loop that logs
    [self.metric_txt[i]], [scores_means[i]] and [scores_std[i]]. *)
Definition log_scores (self : RandomForestClassification)
    (scores_means scores_std : list score) : result unit :=
  match
    mapM (fun i =>
            match getitem (metric_txt self) i with
            | Raise e => Raise e
            | Ok _ =>
                match getitem scores_means i with
                | Raise e => Raise e
                | Ok _ => getitem scores_std i
                end
            end)
         (seq 0 (length (metrics self)))
  with
  | Raise e => Raise e
  | Ok _ => Ok tt
  end.

(** The log line of [evaluate_real], a format string with six fields
    filled from [*self.metric_txt, *scores]: too few arguments raise. *)
Definition log_real_scores (self : RandomForestClassification)
    (scores : list score) : result unit :=
  if (length (metric_txt self) + length scores <? 6)%nat
  then Raise (OtherError "IndexError"%string)
  else Ok tt.

(** [RandomForestClassification.evaluate_simulated(plot)] *)
Definition evaluate_simulated (self : RandomForestClassification) (with_plot : bool)
  : W (list score * list score) :=
  let pipeline := _get_pipeline self in
  raw_data_train <~ call (_get_raw_data self true) ;;
  labels_train <~ call (_get_labels self true) ;;
  cv <~ call (StratifiedKFold (cv_folds self)) ;;
  let scorers := combine (metric_txt self) (metrics self) in
  scores <~ call (cross_validate pipeline raw_data_train labels_train cv scorers) ;;
  scores <~ call (mapM (fun txt => dict_getitem scores ("test_" ++ txt)%string)
                       (metric_txt self)) ;;
  let scores_means := map np_mean scores in
  let scores_std := map np_std scores in
  call (log_scores self scores_means scores_std) ;;;
  (if with_plot then call (plot scores_means scores_std) else ret tt) ;;;
  score0 <~ call (getitem scores 0) ;;
  score1 <~ call (getitem scores 1) ;;
  score2 <~ call (getitem scores 2) ;;
  write_output (output_for self simulated f1 score0) ;;;
  write_output (output_for self simulated auroc score1) ;;;
  write_output (output_for self simulated accuracy score2) ;;;
  ret (scores_means, scores_std).

(** [RandomForestClassification.evaluate_real()] *)
Definition evaluate_real (self : RandomForestClassification) : W (list score) :=
  let pipeline := _get_pipeline self in
  raw_data_train <~ call (_get_raw_data self true) ;;
  labels_train <~ call (_get_labels self true) ;;
  fitted <~ call (pipeline_fit pipeline raw_data_train labels_train) ;;
  raw_data_test <~ call (_get_raw_data self false) ;;
  labels_test <~ call (_get_labels self false) ;;
  pred_test <~ call (pipeline_predict pipeline fitted raw_data_test) ;;
  scores <~ call (mapM (fun metric : metric_function => metric labels_test pred_test)
                       (metrics self)) ;;
  call (log_real_scores self scores) ;;;
  score0 <~ call (getitem scores 0) ;;
  score1 <~ call (getitem scores 1) ;;
  score2 <~ call (getitem scores 2) ;;
  write_output (output_for self real f1 [score0]) ;;;
  write_output (output_for self real auroc [score1]) ;;;
  write_output (output_for self real accuracy [score2]) ;;;
  ret scores.

(** The command-line arguments of the script. *)
Record Args : Type := {
  args_definition : DatapointKey;
  input_path_train : option string;
  input_path_test : option string;
  dataset : string
}.

(** The script body under [if __name__ == '__main__'], after the arguments
    are parsed. *)
Definition main (args : Args) : W unit :=
  let n_bins := 20%Z in
  let n_estimators := 1000%Z in
  if String.eqb (dataset args) "real" then
    model <~ call (__init__ (args_definition args) (input_path_train args)
                            n_bins n_estimators 5%Z (input_path_test args)) ;;
    evaluate_real model ;;;
    ret tt
  else
    model <~ call (__init__ (args_definition args) (input_path_train args)
                            n_bins n_estimators 5%Z None) ;;
    evaluate_simulated model false ;;;
    ret tt.

(** *** The two methods up to their first write

    Everything [evaluate_real] and [evaluate_simulated] compute before the
    first record is written touches no record; the lemmas on the two
    methods are stated with these two values. *)

Definition rbind {A B : Type} (r : result A) (k : A -> result B) : result B :=
  match r with
  | Ok a => k a
  | Raise e => Raise e
  end.

(** [evaluate_real] before its writes: the labels and predictions of the
    test set, the list of scores and its first three items. *)
Definition real_scores (self : RandomForestClassification)
  : result (list Z * list Z * list score * (score * score * score)) :=
  let pipeline := _get_pipeline self in
  rbind (_get_raw_data self true) (fun raw_data_train =>
  rbind (_get_labels self true) (fun labels_train =>
  rbind (pipeline_fit pipeline raw_data_train labels_train) (fun fitted =>
  rbind (_get_raw_data self false) (fun raw_data_test =>
  rbind (_get_labels self false) (fun labels_test =>
  rbind (pipeline_predict pipeline fitted raw_data_test) (fun pred_test =>
  rbind (mapM (fun metric : metric_function => metric labels_test pred_test)
              (metrics self)) (fun scores =>
  rbind (log_real_scores self scores) (fun _ =>
  rbind (getitem scores 0) (fun score0 =>
  rbind (getitem scores 1) (fun score1 =>
  rbind (getitem scores 2) (fun score2 =>
  Ok (labels_test, pred_test, scores, (score0, score1, score2))))))))))))).

(** [evaluate_simulated] before its writes: the per-fold scores of the
    three metrics. *)
Definition simulated_scores (self : RandomForestClassification) (with_plot : bool)
  : result (list (list score) * (list score * list score * list score)) :=
  let pipeline := _get_pipeline self in
  rbind (_get_raw_data self true) (fun raw_data_train =>
  rbind (_get_labels self true) (fun labels_train =>
  rbind (StratifiedKFold (cv_folds self)) (fun cv =>
  rbind (cross_validate pipeline raw_data_train labels_train cv
           (combine (metric_txt self) (metrics self))) (fun scores_dict =>
  rbind (mapM (fun txt => dict_getitem scores_dict ("test_" ++ txt)%string)
              (metric_txt self)) (fun scores =>
  rbind (log_scores self (map np_mean scores) (map np_std scores)) (fun _ =>
  rbind (if with_plot then plot (map np_mean scores) (map np_std scores)
         else Ok tt) (fun _ =>
  rbind (getitem scores 0) (fun score0 =>
  rbind (getitem scores 1) (fun score1 =>
  rbind (getitem scores 2) (fun score2 =>
  Ok (scores, (score0, score1, score2)))))))))))).

(** The three writes of a method. *)
Definition write_three (self : RandomForestClassification) (data_type : DataType)
    (s0 s1 s2 : list score) : W unit :=
  write_output (output_for self data_type f1 s0) ;;;
  write_output (output_for self data_type auroc s1) ;;;
  write_output (output_for self data_type accuracy s2).

End Collaborators.

Arguments data_manager_train {score}.
Arguments data_manager_test {score}.
Arguments definition {score}.
Arguments cv_folds {score}.
Arguments rf_n_bins {score}.
Arguments metric_txt {score}.
Arguments metrics {score}.
Arguments classifier {score}.
Arguments out_classifier {score}.
Arguments out_task {score}.
Arguments out_data_type {score}.
Arguments out_definition {score}.
Arguments out_metric {score}.
Arguments out_scores {score}.
Arguments _get_pipeline {score}.
Arguments __init__ {score}.
Arguments test_manager {score}.
Arguments _get_raw_data {score}.
Arguments _get_labels {score}.
Arguments pipeline_fit {forest}.
Arguments pipeline_predict {forest}.
Arguments write_output {score}.
Arguments output_for {score}.
Arguments log_scores {score}.
Arguments log_real_scores {score}.
Arguments evaluate_simulated {score splitter}.
Arguments evaluate_real {score forest}.
Arguments main {score forest} _ _ _ _ _ _ {splitter}.
Arguments real_scores {score forest}.
Arguments simulated_scores {score splitter}.
Arguments write_three {score}.

(** *** Simple collaborators for concrete runs *)

(** A data manager over the demo batch: two samples, the second without
    any event day. *)
Definition manager_demo : DataManager :=
  {| get_data_for_variables := fun _ => Ok HistogramSpec.X_demo;
     get_data_for_variable := fun _ => Ok [[0; 1; 0]; [0; 0; 0]]%Z |}.

(** [DataManager(path)]: a path is needed. *)
Definition DataManager_demo (path : option string) : result DataManager :=
  match path with
  | Some _ => Ok manager_demo
  | None => Raise (OtherError "TypeError"%string)
  end.

(** The share of positions on which two label vectors agree. *)
Definition agreement : metric_function Q :=
  fun y_true y_pred =>
    Ok (inject_Z (Z.of_nat (length (filter (fun p => Z.eqb (fst p) (snd p))
                                           (combine y_true y_pred))))
        / inject_Z (Z.of_nat (length y_true))).

(** Two metrics that always return the same score. *)
Definition half : metric_function Q := fun _ _ => Ok (1 # 2).
Definition three_quarters : metric_function Q := fun _ _ => Ok (3 # 4).

(** A classifier that remembers its training labels and predicts the
    first of them for every row. *)
Definition remember_labels (n_estimators : Z) (features : list (list nat))
    (y : list Z) : result (list Z) := Ok y.
Definition predict_first (fitted : list Z) (features : list (list nat))
  : result (list Z) := Ok (map (fun _ => hd 0%Z fitted) features).

(** A splitter is its number of folds; fewer than two folds are refused. *)
Definition folds_demo (n_splits : Z) : result Z :=
  if (n_splits <? 2)%Z then Raise (OtherError "ValueError"%string) else Ok n_splits.

(** Cross-validation that returns the same two fold scores under every
    [test_] key, and one that raises. *)
Definition cross_validate_demo (pipeline : Pipeline) (X : tensor) (y : list Z)
    (cv : Z) (scorers : list (string * metric_function Q))
  : result (list (string * list Q)) :=
  Ok (("fit_time"%string, [1; 1]) ::
      map (fun scorer => (("test_" ++ fst scorer)%string, [1 # 2; 3 # 4])) scorers).
Definition cross_validate_raises (pipeline : Pipeline) (X : tensor) (y : list Z)
    (cv : Z) (scorers : list (string * metric_function Q))
  : result (list (string * list Q)) :=
  Raise (OtherError "ValueError"%string).

(** The mean of a list of scores; the spread of the demo is not needed and
    is reported as zero. *)
Definition mean_demo (l : list Q) : Q :=
  fold_right Qplus 0 l / inject_Z (Z.of_nat (length l)).
Definition spread_demo (l : list Q) : Q := 0.

Definition plot_demo (means stds : list Q) : result unit := Ok tt.

(** A sink that takes every record, and one that refuses the AUROC
    record. *)
Definition writer_demo (o : Output Q) : result unit := Ok tt.
Definition writer_refuses_auroc (o : Output Q) : result unit :=
  match out_metric o with
  | auroc => Raise (OtherError "OSError"%string)
  | _ => Ok tt
  end.

(** The object the script builds with and without a test path. *)
Definition init_demo (path_test : option string)
  : result (RandomForestClassification Q) :=
  __init__ DataManager_demo half three_quarters agreement CP07
    (Some "train.h5"%string) 20 1000 5 path_test.

Definition object_demo (with_test : bool) : RandomForestClassification Q :=
  {| data_manager_train := manager_demo;
     data_manager_test := if with_test then Some manager_demo else None;
     definition := CP07;
     cv_folds := 5;
     rf_n_bins := 20;
     metric_txt := ["F1"%string; "ROCAUC"%string; "Accuracy"%string];
     metrics := [half; three_quarters; agreement];
     classifier := 1000 |}.

Definition args_demo (dataset : string) (path_test : option string) : Args :=
  {| args_definition := CP07;
     input_path_train := Some "train.h5"%string;
     input_path_test := path_test;
     dataset := dataset |}.

End Evaluation.

Set Implicit Arguments.

(** * Facts *)

(** ** Lists and traversals *)

Module ListFacts.

Lemma nth_map_seq {A} (f : nat -> A) (n i : nat) (d : A) :
  (i < n)%nat -> nth i (map f (seq 0 n)) d = f i.
Proof.
  intros H. rewrite nth_indep with (d' := f 0%nat) by (now rewrite length_map, length_seq).
  rewrite map_nth, seq_nth by exact H. reflexivity.
Qed.

Lemma mapM_map {A B : Type} (f : A -> option B) (g : A -> B) (l : list A) :
  (forall x, In x l -> f x = Some (g x)) ->
  OptionMonad.mapM f l = Some (map g l).
Proof.
  induction l as [|x l IH]; intros H; simpl; [reflexivity |].
  rewrite (H x) by now left. rewrite IH; [reflexivity |].
  intros y Hy. apply H. now right.
Qed.

Lemma nth_map_in {A B : Type} (f : A -> B) (l : list A) (i : nat) (dA : A) (dB : B) :
  (i < length l)%nat -> nth i (map f l) dB = f (nth i l dA).
Proof.
  intros H. rewrite nth_indep with (d' := f dA) by now rewrite length_map.
  apply map_nth.
Qed.

End ListFacts.

(** ** Minimum and maximum of a batch *)

Module MinMaxFacts.
Import Numpy.

Lemma Qmin_cases (x y : Q) : Qmin x y = x \/ Qmin x y = y.
Proof.
  unfold Qmin, GenericMinMax.gmin. destruct (x ?= y); auto.
Qed.

Lemma Qmax_cases (x y : Q) : Qmax x y = x \/ Qmax x y = y.
Proof.
  unfold Qmax, GenericMinMax.gmax. destruct (x ?= y); auto.
Qed.

Lemma fold_min_in (r : list Q) : forall x, In (fold_left Qmin r x) (x :: r).
Proof.
  induction r as [|y r IH]; intros x; simpl.
  - now left.
  - destruct (IH (Qmin x y)) as [H|H].
    + rewrite <- H. destruct (Qmin_cases x y) as [E|E]; rewrite E; auto.
    + auto.
Qed.

Lemma fold_max_in (r : list Q) : forall x, In (fold_left Qmax r x) (x :: r).
Proof.
  induction r as [|y r IH]; intros x; simpl.
  - now left.
  - destruct (IH (Qmax x y)) as [H|H].
    + rewrite <- H. destruct (Qmax_cases x y) as [E|E]; rewrite E; auto.
    + auto.
Qed.

Lemma fold_min_le (r : list Q) :
  forall x, fold_left Qmin r x <= x /\ Forall (fun y => fold_left Qmin r x <= y) r.
Proof.
  induction r as [|y r IH]; intros x; simpl.
  - split; [apply Qle_refl | constructor].
  - destruct (IH (Qmin x y)) as [H1 H2]. split.
    + eapply Qle_trans; [exact H1 | apply Q.le_min_l].
    + constructor; [| exact H2].
      eapply Qle_trans; [exact H1 | apply Q.le_min_r].
Qed.

Lemma fold_max_ge (r : list Q) :
  forall x, x <= fold_left Qmax r x /\ Forall (fun y => y <= fold_left Qmax r x) r.
Proof.
  induction r as [|y r IH]; intros x; simpl.
  - split; [apply Qle_refl | constructor].
  - destruct (IH (Qmax x y)) as [H1 H2]. split.
    + eapply Qle_trans; [apply Q.le_max_l | exact H1].
    + constructor; [| exact H2].
      eapply Qle_trans; [apply Q.le_max_r | exact H1].
Qed.

Lemma np_min_spec (a : list Q) :
  a <> [] ->
  exists m, np_min a = Some m /\ In m a /\ Forall (fun x => m <= x) a.
Proof.
  destruct a as [|x r]; [congruence | intros _].
  exists (fold_left Qmin r x). split; [reflexivity | split].
  - apply fold_min_in.
  - destruct (fold_min_le r x). now constructor.
Qed.

Lemma np_max_spec (a : list Q) :
  a <> [] ->
  exists m, np_max a = Some m /\ In m a /\ Forall (fun x => x <= m) a.
Proof.
  destruct a as [|x r]; [congruence | intros _].
  exists (fold_left Qmax r x). split; [reflexivity | split].
  - apply fold_max_in.
  - destruct (fold_max_ge r x). now constructor.
Qed.

End MinMaxFacts.

(** ** The histogram of one series *)

Module HistogramFacts.
Import Numpy Histogram HistogramSpec ListFacts MinMaxFacts.

Lemma Qlt_bool_iff a b : Qlt_bool a b = true <-> a < b.
Proof.
  unfold Qlt_bool. rewrite negb_true_iff, <- not_true_iff_false, Qle_bool_iff.
  split; [apply Qnot_le_lt | apply Qlt_not_le].
Qed.

Lemma Qlt_bool_false a b : Qlt_bool a b = false <-> b <= a.
Proof.
  unfold Qlt_bool. rewrite negb_false_iff. apply Qle_bool_iff.
Qed.

Lemma Qle_bool_false a b : Qle_bool a b = false <-> b < a.
Proof.
  rewrite <- not_true_iff_false, Qle_bool_iff.
  split; [apply Qnot_le_lt | apply Qlt_not_le].
Qed.

Lemma astype_intp_floor (q : Q) : 0 <= q -> astype_intp q = Qfloor q.
Proof.
  destruct q as [n d]. unfold Qle, astype_intp, Qfloor. simpl. intros H.
  apply Z.quot_div_nonneg; lia.
Qed.

Lemma inject_Z_pos (B : Z) : (1 <= B)%Z -> 0 < inject_Z B.
Proof.
  intros HB. change 0 with (inject_Z 0). rewrite <- Zlt_Qlt. lia.
Qed.

Lemma step_pos lo hi B : lo < hi -> (1 <= B)%Z -> 0 < (hi - lo) / inject_Z B.
Proof.
  intros Hlt HB.
  pose proof (inject_Z_pos HB).
  apply Qlt_shift_div_l; [assumption | lra].
Qed.

Lemma width_steps lo hi B : (1 <= B)%Z -> hi - lo == inject_Z B * ((hi - lo) / inject_Z B).
Proof.
  intros HB.
  pose proof (inject_Z_pos HB).
  field. lra.
Qed.

Lemma edge_at_linspace lo hi B i :
  (1 <= B)%Z -> (0 <= i <= B)%Z ->
  edge_at (linspace lo hi (Z.to_nat (B + 1))) i == bin_left lo hi B i.
Proof.
  intros HB Hi. unfold edge_at, linspace, bin_left.
  rewrite nth_map_seq by lia.
  replace (Z.to_nat (B + 1) - 1)%nat with (Z.to_nat B) by lia.
  rewrite !Z2Nat.id by lia.
  destruct (Nat.ltb_spec 1 (Z.to_nat (B + 1))); [| lia]. simpl andb.
  destruct (Nat.eqb_spec (Z.to_nat i) (Z.to_nat B)) as [E|E].
  - assert (i = B) by lia. subst i.
    pose proof (width_steps lo hi HB). lra.
  - ring.
Qed.

Lemma inject_Z_succ (z : Z) : inject_Z (z + 1) == inject_Z z + 1.
Proof. rewrite inject_Z_plus. reflexivity. Qed.

Lemma inject_Z_pred (z : Z) : inject_Z (z - 1) == inject_Z z - 1.
Proof. unfold Z.sub. rewrite inject_Z_plus. reflexivity. Qed.

Lemma bin_index_spec lo hi B x :
  lo < hi -> (1 <= B)%Z -> lo <= x -> x <= hi ->
  let i := bin_index lo hi B (linspace lo hi (Z.to_nat (B + 1))) x in
  (0 <= i < B)%Z /\ in_bin lo hi B i x = true.
Proof.
  intros Hlt HB Hlo Hhi.
  pose proof (inject_Z_pos HB) as HBq.
  pose proof (step_pos Hlt HB) as Hs.
  pose proof (width_steps lo hi HB) as Hw.
  assert (Hedge : forall j, (0 <= j <= B)%Z ->
            edge_at (linspace lo hi (Z.to_nat (B + 1))) j
            == lo + inject_Z j * ((hi - lo) / inject_Z B)).
  { intros j Hj. rewrite edge_at_linspace by lia. reflexivity. }
  assert (Hleft : forall j, bin_left lo hi B j == lo + inject_Z j * ((hi - lo) / inject_Z B))
    by (intros; reflexivity).
  set (s := (hi - lo) / inject_Z B) in *.
  set (f := (x - lo) / (hi - lo) * inject_Z B).
  assert (Hf : x - lo == f * s) by (unfold f, s; field; split; lra).
  assert (Hf0 : 0 <= f) by nra.
  assert (HfB : f <= inject_Z B) by nra.
  set (i0 := astype_intp f).
  assert (Ei0 : i0 = Qfloor f) by (apply astype_intp_floor; exact Hf0).
  assert (Hi0 : (0 <= i0 <= B)%Z).
  { rewrite Ei0. split.
    - change 0%Z with (Qfloor 0). apply Qfloor_resp_le; exact Hf0.
    - rewrite <- (Qfloor_Z B). apply Qfloor_resp_le; exact HfB. }
  assert (Hfl : inject_Z i0 <= f) by (rewrite Ei0; apply Qfloor_le).
  assert (Hfu : f < inject_Z i0 + 1).
  { rewrite Ei0. pose proof (Qlt_floor f) as L.
    rewrite inject_Z_plus in L. exact L. }
  intros i. subst i. unfold bin_index. cbv zeta. fold f. fold i0.
  set (i1 := if (i0 =? B)%Z then (i0 - 1)%Z else i0).
  assert (Hi1 : (0 <= i1 < B)%Z).
  { unfold i1. destruct (Z.eqb_spec i0 B); lia. }
  assert (Hl0 : lo + inject_Z i0 * s <= x) by nra.
  assert (Hr0 : x < lo + (inject_Z i0 + 1) * s) by nra.
  assert (Hl1 : lo + inject_Z i1 * s <= x).
  { unfold i1. destruct (Z.eqb_spec i0 B).
    - rewrite inject_Z_pred. nra.
    - exact Hl0. }
  assert (Hr1 : i1 <> (B - 1)%Z -> x < lo + inject_Z (i1 + 1) * s).
  { unfold i1. destruct (Z.eqb_spec i0 B); intros Hne; [lia |].
    rewrite inject_Z_succ. exact Hr0. }
  assert (Hr2 : x <= lo + inject_Z B * s) by lra.
  assert (Hdec : Qlt_bool x (edge_at (linspace lo hi (Z.to_nat (B + 1))) i1) = false).
  { apply Qlt_bool_false. rewrite Hedge by lia. exact Hl1. }
  rewrite Hdec.
  assert (Hinc : (Qle_bool (edge_at (linspace lo hi (Z.to_nat (B + 1))) (i1 + 1)) x
                  && negb (i1 =? B - 1)%Z)%bool = false).
  { destruct (Z.eqb_spec i1 (B - 1)) as [E|E]; simpl.
    - apply andb_false_r.
    - rewrite andb_true_r. apply Qle_bool_false. rewrite Hedge by lia.
      apply Hr1, E. }
  rewrite Hinc. split; [exact Hi1 |].
  unfold in_bin. apply andb_true_iff. split.
  - apply Qle_bool_iff. rewrite Hleft. exact Hl1.
  - destruct (Z.eqb_spec i1 (B - 1)) as [E|E].
    + apply Qle_bool_iff. rewrite Hleft. rewrite E.
      replace (B - 1 + 1)%Z with B by lia. exact Hr2.
    + apply Qlt_bool_iff. rewrite Hleft. apply Hr1, E.
Qed.

Lemma bin_left_mono lo hi B b b' :
  lo < hi -> (1 <= B)%Z -> (b <= b')%Z ->
  bin_left lo hi B b <= bin_left lo hi B b'.
Proof.
  intros Hlt HB Hb. unfold bin_left.
  pose proof (step_pos Hlt HB) as Hs.
  rewrite Zle_Qle in Hb.
  set (s := (hi - lo) / inject_Z B) in *. nra.
Qed.

Lemma bin_left_0 lo hi B : bin_left lo hi B 0 == lo.
Proof. unfold bin_left. simpl (inject_Z 0). ring. Qed.

Lemma bin_left_last lo hi B : (1 <= B)%Z -> bin_left lo hi B B == hi.
Proof.
  intros HB. unfold bin_left. pose proof (width_steps lo hi HB). lra.
Qed.

Lemma in_bin_true lo hi B b x :
  in_bin lo hi B b x = true ->
  bin_left lo hi B b <= x /\
  x <= bin_left lo hi B (b + 1) /\
  (b <> (B - 1)%Z -> x < bin_left lo hi B (b + 1)).
Proof.
  unfold in_bin. rewrite andb_true_iff. intros [H1 H2].
  apply Qle_bool_iff in H1. split; [exact H1 |].
  destruct (Z.eqb_spec b (B - 1)) as [E|E].
  - apply Qle_bool_iff in H2. split; [exact H2 | congruence].
  - apply Qlt_bool_iff in H2. split; [apply Qlt_le_weak, H2 | intros _; exact H2].
Qed.

Lemma in_bin_range lo hi B b x :
  lo < hi -> (1 <= B)%Z -> (0 <= b < B)%Z ->
  in_bin lo hi B b x = true -> lo <= x /\ x <= hi.
Proof.
  intros Hlt HB Hb H. apply in_bin_true in H. destruct H as (H1 & H2 & _).
  pose proof (@bin_left_mono lo hi B 0 b Hlt HB ltac:(lia)) as M1.
  pose proof (@bin_left_mono lo hi B (b + 1) B Hlt HB ltac:(lia)) as M2.
  rewrite bin_left_0 in M1. rewrite bin_left_last in M2 by exact HB.
  split; lra.
Qed.

Lemma in_bin_unique lo hi B b b' x :
  lo < hi -> (1 <= B)%Z -> (0 <= b < B)%Z -> (0 <= b' < B)%Z ->
  in_bin lo hi B b x = true -> in_bin lo hi B b' x = true -> b = b'.
Proof.
  intros Hlt HB Hb Hb' H H'.
  apply in_bin_true in H. apply in_bin_true in H'.
  destruct H as (L & _ & R). destruct H' as (L' & _ & R').
  destruct (Z.lt_total b b') as [C|[C|C]]; [| exact C |].
  - pose proof (@bin_left_mono lo hi B (b + 1) b' Hlt HB ltac:(lia)).
    assert (b <> (B - 1)%Z) by lia. specialize (R H0). lra.
  - pose proof (@bin_left_mono lo hi B (b' + 1) b Hlt HB ltac:(lia)).
    assert (b' <> (B - 1)%Z) by lia. specialize (R' H0). lra.
Qed.

(** The filter and the index computed by [np.histogram] agree with bin
    membership. *)
Lemma in_bin_index lo hi B b x :
  lo < hi -> (1 <= B)%Z -> (0 <= b < B)%Z ->
  in_bin lo hi B b x =
  (Qle_bool lo x && Qle_bool x hi)%bool &&
  (bin_index lo hi B (linspace lo hi (Z.to_nat (B + 1))) x =? b)%Z.
Proof.
  intros Hlt HB Hb.
  destruct (Qle_bool lo x && Qle_bool x hi)%bool eqn:K; simpl.
  - apply andb_true_iff in K. destruct K as [K1 K2].
    apply Qle_bool_iff in K1. apply Qle_bool_iff in K2.
    destruct (bin_index_spec Hlt HB K1 K2) as [Hi Hin].
    destruct (Z.eqb_spec (bin_index lo hi B (linspace lo hi (Z.to_nat (B + 1))) x) b)
      as [E|E].
    + rewrite <- E. exact Hin.
    + apply not_true_is_false. intros H. apply E.
      eapply in_bin_unique; eauto.
  - apply not_true_is_false. intros H.
    destruct (in_bin_range x Hlt HB Hb H) as [K1 K2].
    apply Qle_bool_iff in K1. apply Qle_bool_iff in K2.
    rewrite K1, K2 in K. discriminate.
Qed.

Lemma count_indices (idx : Q -> Z) (keep : Q -> bool) (b : Z) (a : list Q) :
  count_occ Z.eq_dec (map idx (filter keep a)) b =
  length (filter (fun x => keep x && (idx x =? b)%Z)%bool a).
Proof.
  induction a as [|x a IH]; simpl; [reflexivity |].
  destruct (keep x); simpl; [| exact IH].
  destruct (Z.eq_dec (idx x) b) as [E|E].
  - rewrite (proj2 (Z.eqb_eq _ _) E). simpl. now rewrite IH.
  - rewrite (proj2 (Z.eqb_neq _ _) E). exact IH.
Qed.

Lemma bincount_in_range (x : list Z) (n : nat) :
  Forall (fun i => (0 <= i < Z.of_nat n)%Z) x ->
  bincount x n =
  Some (map (fun b : nat => count_occ Z.eq_dec x (Z.of_nat b)) (seq 0 n)).
Proof.
  intros H. unfold bincount.
  assert (E : existsb (fun i => (i <? 0)%Z) x = false).
  { apply not_true_is_false. intros C. apply existsb_exists in C.
    destruct C as (i & Hi & Hneg). rewrite Forall_forall in H.
    specialize (H i Hi). lia. }
  rewrite E.
  assert (T : (fold_right (fun i m => Nat.max (S (Z.to_nat i)) m) 0 x <= n)%nat).
  { clear E. induction H as [|i x Hi Hx IH]; cbn [fold_right]; [lia |].
    apply Nat.max_lub; [lia | exact IH]. }
  now rewrite Nat.max_l by exact T.
Qed.

Lemma widened_range_lt lo hi :
  lo <= hi -> fst (widened_range lo hi) < snd (widened_range lo hi).
Proof.
  intros H. unfold widened_range. destruct (Qeq_bool lo hi) eqn:E; simpl.
  - apply Qeq_bool_iff in E. lra.
  - apply Qeq_bool_neq in E. destruct (Qle_lt_or_eq _ _ H); [assumption | contradiction].
Qed.

Lemma outer_edges_widened lo hi :
  lo <= hi -> _get_outer_edges (lo, hi) = Some (widened_range lo hi).
Proof.
  intros H. unfold _get_outer_edges, widened_range, Qgt_bool.
  rewrite (proj2 (Qle_bool_iff lo hi) H). simpl.
  destruct (Qeq_bool lo hi); reflexivity.
Qed.

(** [np.histogram] counts, bin by bin, the values that fall into the bin. *)
Lemma histogram_spec (a : list Q) (B : Z) (lo hi : Q) :
  (1 <= B)%Z -> lo <= hi ->
  histogram a B (lo, hi) =
  Some (map (fun b : nat => days_in_bin (widened_range lo hi) B (Z.of_nat b) a)
            (seq 0 (Z.to_nat B))).
Proof.
  intros HB Hle. unfold histogram.
  destruct (Z.ltb_spec B 1) as [C|_]; [lia |].
  rewrite (outer_edges_widened Hle). simpl OptionMonad.bind.
  pose proof (widened_range_lt Hle) as Hlt.
  destruct (widened_range lo hi) as [lo' hi']. simpl in Hlt.
  rewrite bincount_in_range.
  - simpl OptionMonad.bind. rewrite length_map, length_seq, Nat.eqb_refl.
    f_equal. apply map_ext_in. intros b Hb. apply in_seq in Hb.
    rewrite count_indices. unfold days_in_bin. simpl fst. simpl snd.
    f_equal. apply filter_ext. intros x.
    symmetry. apply in_bin_index; [exact Hlt | exact HB | lia].
  - apply Forall_forall. intros i Hi. apply in_map_iff in Hi.
    destruct Hi as (x & <- & Hx). apply filter_In in Hx. destruct Hx as [_ K].
    apply andb_true_iff in K. destruct K as [K1 K2].
    apply Qle_bool_iff in K1. apply Qle_bool_iff in K2.
    destruct (bin_index_spec Hlt HB K1 K2) as [Hi _]. lia.
Qed.

Lemma array_range_spec (array : list (list Q)) :
  concat array <> [] ->
  exists lo hi,
    np_min (concat array) = Some lo /\ np_max (concat array) = Some hi /\
    is_minimum lo (concat array) /\ is_maximum hi (concat array) /\
    lo <= hi /\ array_range array = widened_range lo hi.
Proof.
  intros H.
  destruct (np_min_spec H) as (lo & Elo & Ilo & Flo).
  destruct (np_max_spec H) as (hi & Ehi & Ihi & Fhi).
  exists lo, hi. unfold array_range, is_minimum, is_maximum.
  rewrite Elo, Ehi. repeat split; auto.
  rewrite Forall_forall in Fhi. apply Fhi, Ilo.
Qed.

Lemma histograms_for_variable_spec (array : list (list Q)) (B : Z) :
  (1 <= B)%Z -> concat array <> [] ->
  _histograms_for_variable array B =
  Some (map (bin_counts (array_range array) B) array).
Proof.
  intros HB H.
  destruct (array_range_spec array H) as (lo & hi & Elo & Ehi & _ & _ & Hle & ER).
  unfold _histograms_for_variable. rewrite Elo, Ehi. simpl OptionMonad.bind.
  unfold apply_along_axis1. destruct array as [|a0 array]; [now elim H |].
  apply mapM_map. intros a _. rewrite ER. apply histogram_spec; assumption.
Qed.

Lemma swapaxes01_map {A : Type} (g : nat -> list (list A)) (V N : nat) :
  (1 <= V)%nat -> (forall v, (v < V)%nat -> length (g v) = N) ->
  swapaxes01 (map g (seq 0 V)) =
  Some (map (fun s : nat => map (fun v : nat => nth s (g v) []) (seq 0 V))
            (seq 0 N)).
Proof.
  intros HV Hg. unfold swapaxes01.
  destruct V as [|V']; [lia |]. simpl.
  rewrite (Hg 0%nat) by lia. f_equal.
  apply map_ext. intros s. f_equal. apply map_map.
Qed.

Section Shape.

Variables (X : tensor) (N V D : nat).
Hypothesis HX : has_shape X N V D.

Lemma shape_sample (s : nat) : (s < N)%nat -> length (nth s X []) = V.
Proof.
  destruct HX as [HN HF]. intros Hs. rewrite Forall_forall in HF.
  apply HF, nth_In. lia.
Qed.

Lemma shape_series (s v : nat) :
  (s < N)%nat -> (v < V)%nat -> length (nth v (nth s X []) []) = D.
Proof.
  destruct HX as [HN HF]. intros Hs Hv. rewrite Forall_forall in HF.
  destruct (HF (nth s X [])) as [HV HD]; [apply nth_In; lia |].
  rewrite Forall_forall in HD. apply HD, nth_In. lia.
Qed.

Lemma shape1_eq : (1 <= N)%nat -> shape1 X = V.
Proof.
  intros H. pose proof (@shape_sample 0%nat ltac:(lia)) as E.
  destruct HX as [HN _]. destruct X; simpl in *; [lia | exact E].
Qed.

Lemma length_variable_slice (v : nat) : length (variable_slice X v) = N.
Proof. unfold variable_slice. rewrite length_map. apply HX. Qed.

Lemma nth_variable_slice (s v : nat) :
  (s < N)%nat -> nth s (variable_slice X v) [] = nth v (nth s X []) [].
Proof.
  intros Hs. unfold variable_slice. destruct HX as [HN _].
  apply nth_map_in with (f := fun sample : list (list Q) => nth v sample []). lia.
Qed.

Lemma batch_values_slice (v : nat) : batch_values X v = concat (variable_slice X v).
Proof. unfold batch_values, variable_slice. apply flat_map_concat_map. Qed.

Lemma series_in_batch (s v : nat) (x : Q) :
  (s < N)%nat -> In x (nth v (nth s X []) []) -> In x (batch_values X v).
Proof.
  intros Hs Hx. unfold batch_values. apply in_flat_map.
  exists (nth s X []). split; [| exact Hx].
  apply nth_In. destruct HX. lia.
Qed.

Lemma batch_values_nonempty (v : nat) :
  (1 <= N)%nat -> (v < V)%nat -> (1 <= D)%nat -> concat (variable_slice X v) <> [].
Proof.
  intros HN Hv HD E. rewrite <- batch_values_slice in E.
  pose proof (@shape_series 0%nat v ltac:(lia) Hv) as L.
  destruct (nth v (nth 0 X []) []) as [|x r] eqn:Er; [simpl in L; lia |].
  assert (In x (batch_values X v)).
  { apply series_in_batch with (s := 0%nat); [lia |]. rewrite Er. now left. }
  rewrite E in H. contradiction.
Qed.

(** The histogram tensor, axes (sample, variable, bin). *)
Lemma histograms_spec (B : Z) :
  (1 <= N)%nat -> (1 <= V)%nat -> (1 <= D)%nat -> (1 <= B)%Z ->
  _histograms X B =
  Some (map (fun s : nat =>
               map (fun v : nat =>
                      bin_counts (array_range (variable_slice X v)) B
                                 (nth v (nth s X []) []))
                   (seq 0 V))
            (seq 0 N)).
Proof.
  intros HN HV HD HB. unfold _histograms. rewrite (shape1_eq HN).
  rewrite mapM_map with
    (g := fun v => map (bin_counts (array_range (variable_slice X v)) B)
                       (variable_slice X v)).
  2:{ intros v Hv. apply in_seq in Hv.
      apply histograms_for_variable_spec; [exact HB |].
      apply batch_values_nonempty; [exact HN | lia | exact HD]. }
  simpl OptionMonad.bind.
  rewrite swapaxes01_map with (N := N);
    [| exact HV | intros v _; rewrite length_map; apply length_variable_slice].
  f_equal. apply map_ext_in. intros s Hs. apply in_seq in Hs.
  apply map_ext. intros v.
  rewrite nth_map_in with (dA := []) by (rewrite length_variable_slice; lia).
  rewrite nth_variable_slice by lia. reflexivity.
Qed.

End Shape.

Lemma length_concat_uniform {A : Type} (L : list (list A)) (n : nat) :
  Forall (fun l => length l = n) L -> length (concat L) = (length L * n)%nat.
Proof.
  induction 1 as [|l L Hl _ IH]; simpl; [reflexivity |].
  rewrite length_app, IH, Hl. reflexivity.
Qed.

Lemma nth_concat_uniform {A : Type} (L : list (list A)) (n : nat) (d : A) :
  Forall (fun l => length l = n) L ->
  forall v b, (v < length L)%nat -> (b < n)%nat ->
    nth (v * n + b) (concat L) d = nth b (nth v L []) d.
Proof.
  induction 1 as [|l L Hl _ IH]; intros v b Hv Hb; simpl in Hv; [lia |].
  destruct v as [|v]; simpl.
  - apply app_nth1. lia.
  - rewrite app_nth2 by lia.
    replace (n + v * n + b - length l)%nat with (v * n + b)%nat by lia.
    apply IH; lia.
Qed.

Lemma block_concat_uniform {A : Type} (L : list (list A)) (n : nat) :
  Forall (fun l => length l = n) L ->
  forall v, (v < length L)%nat ->
    firstn n (skipn (v * n) (concat L)) = nth v L [].
Proof.
  induction 1 as [|l L Hl _ IH]; intros v Hv; simpl in Hv; [lia |].
  destruct v as [|v]; simpl.
  - rewrite firstn_app, <- Hl, firstn_all, Nat.sub_diag. simpl. apply app_nil_r.
  - rewrite skipn_app.
    rewrite (skipn_all2 l) by lia. simpl.
    replace (n + v * n - length l)%nat with (v * n)%nat by lia.
    apply IH. lia.
Qed.

Lemma length_bin_counts (range : Q * Q) (B : Z) (series : list Q) :
  length (bin_counts range B series) = Z.to_nat B.
Proof. unfold bin_counts. now rewrite length_map, length_seq. Qed.

Lemma nth_bin_counts (range : Q * Q) (B : Z) (series : list Q) (b : nat) :
  (b < Z.to_nat B)%nat ->
  nth b (bin_counts range B series) 0%nat = days_in_bin range B (Z.of_nat b) series.
Proof. intros H. unfold bin_counts. now rewrite nth_map_seq. Qed.

Section Transform.

Variables (self : HistogramTransformer) (X : tensor) (N V D : nat).
Hypothesis HX : has_shape X N V D.
Hypothesis HN : (1 <= N)%nat.
Hypothesis HV : (1 <= V)%nat.
Hypothesis HD : (1 <= D)%nat.
Hypothesis HB : (1 <= n_bins self)%Z.

Let B := n_bins self.
Let row := sample_histograms X V B.

Lemma transform_eq :
  snd (transform self X) = Some (map (fun s => concat (row s)) (seq 0 N)).
Proof.
  unfold transform. simpl snd.
  rewrite (histograms_spec HX HN HV HD HB). simpl OptionMonad.bind.
  unfold reshape_rows. now rewrite map_map.
Qed.

Lemma row_uniform (s : nat) : Forall (fun l => length l = Z.to_nat B) (row s).
Proof.
  apply Forall_forall. intros l Hl. unfold row, sample_histograms in Hl.
  apply in_map_iff in Hl.
  destruct Hl as (v & <- & _). apply length_bin_counts.
Qed.

Lemma length_row (s : nat) : length (row s) = V.
Proof. unfold row, sample_histograms. now rewrite length_map, length_seq. Qed.

Lemma nth_row (s v : nat) :
  (v < V)%nat ->
  nth v (row s) [] =
  bin_counts (array_range (variable_slice X v)) B (nth v (nth s X []) []).
Proof. intros Hv. unfold row, sample_histograms. now rewrite nth_map_seq. Qed.

Lemma transform_entry (s v b : nat) :
  (s < N)%nat -> (v < V)%nat -> (b < Z.to_nat B)%nat ->
  at2 (map (fun s => concat (row s)) (seq 0 N)) s (v * Z.to_nat B + b) =
  days_in_bin (array_range (variable_slice X v)) B (Z.of_nat b)
              (nth v (nth s X []) []).
Proof.
  intros Hs Hv Hb. unfold at2. rewrite nth_map_seq by exact Hs.
  rewrite nth_concat_uniform with (n := Z.to_nat B);
    [| apply row_uniform | now rewrite length_row | exact Hb].
  rewrite nth_row by exact Hv. now apply nth_bin_counts.
Qed.

Lemma transform_block (s v : nat) :
  (s < N)%nat -> (v < V)%nat ->
  block_sum (map (fun s => concat (row s)) (seq 0 N)) (Z.to_nat B) s v =
  list_sum (bin_counts (array_range (variable_slice X v)) B (nth v (nth s X []) [])).
Proof.
  intros Hs Hv. unfold block_sum. rewrite nth_map_seq by exact Hs.
  rewrite block_concat_uniform; [| apply row_uniform | now rewrite length_row].
  now rewrite nth_row.
Qed.

End Transform.

Lemma list_sum_map_add {A : Type} (f g : A -> nat) (l : list A) :
  list_sum (map (fun x => (f x + g x)%nat) l) =
  (list_sum (map f l) + list_sum (map g l))%nat.
Proof. induction l as [|x l IH]; simpl; lia. Qed.

Lemma list_sum_indicator (i : Z) (n : nat) :
  list_sum (map (fun b : nat => if (i =? Z.of_nat b)%Z then 1%nat else 0%nat) (seq 0 n)) =
  if ((0 <=? i)%Z && (i <? Z.of_nat n)%Z)%bool then 1%nat else 0%nat.
Proof.
  induction n as [|n IH].
  - change (Z.of_nat 0) with 0%Z.
    destruct (Z.leb_spec 0 i), (Z.ltb_spec i 0); simpl; lia.
  - rewrite seq_S, map_app, list_sum_app, IH. cbn [map list_sum Nat.add].
    destruct (Z.eqb_spec i (Z.of_nat n)), (Z.leb_spec 0 i),
      (Z.ltb_spec i (Z.of_nat n)), (Z.ltb_spec i (Z.of_nat (S n))); simpl; lia.
Qed.

(** Every value of a series inside the range is counted in exactly one
    bin. *)
Lemma bin_counts_sum (lo hi : Q) (B : Z) (series : list Q) :
  lo < hi -> (1 <= B)%Z ->
  Forall (fun x => lo <= x /\ x <= hi) series ->
  list_sum (bin_counts (lo, hi) B series) = length series.
Proof.
  intros Hlt HB. unfold bin_counts, days_in_bin. simpl fst. simpl snd.
  induction 1 as [|x series [Hx1 Hx2] _ IH]; simpl.
  - induction (seq 0 (Z.to_nat B)); simpl; auto.
  - rewrite <- IH.
    destruct (bin_index_spec Hlt HB Hx1 Hx2) as [Hi _].
    set (i := bin_index lo hi B (linspace lo hi (Z.to_nat (B + 1))) x) in *.
    transitivity
      (list_sum (map (fun b : nat =>
                        ((if (i =? Z.of_nat b)%Z then 1 else 0) +
                         length (filter (in_bin lo hi B (Z.of_nat b)) series))%nat)
                     (seq 0 (Z.to_nat B)))).
    + f_equal. apply map_ext_in. intros b Hb. apply in_seq in Hb.
      rewrite (@in_bin_index lo hi B (Z.of_nat b) x Hlt HB) by lia.
      apply Qle_bool_iff in Hx1. apply Qle_bool_iff in Hx2.
      rewrite Hx1, Hx2. simpl andb. fold i.
      destruct (i =? Z.of_nat b)%Z; reflexivity.
    + rewrite list_sum_map_add, list_sum_indicator.
      destruct (Z.leb_spec 0 i), (Z.ltb_spec i (Z.of_nat (Z.to_nat B)));
        simpl; lia.
Qed.

Lemma widened_range_covers (lo hi x : Q) :
  lo <= x -> x <= hi ->
  fst (widened_range lo hi) <= x /\ x <= snd (widened_range lo hi).
Proof.
  intros H1 H2. unfold widened_range.
  destruct (Qeq_bool lo hi); cbn [fst snd]; split; lra.
Qed.

Lemma filter_const {A : Type} (p : A -> bool) (c : bool) (l : list A) :
  Forall (fun x => p x = c) l ->
  length (filter p l) = if c then length l else 0%nat.
Proof.
  induction 1 as [|x l Hx _ IH]; simpl; [now destruct c |].
  rewrite Hx. destruct c; simpl; now rewrite IH.
Qed.

Lemma in_bin_Qeq (lo hi : Q) (B b : Z) (x y : Q) :
  x == y -> in_bin lo hi B b x = in_bin lo hi B b y.
Proof.
  intros E.
  assert (L : forall a, Qle_bool a x = Qle_bool a y) by (intros; now rewrite E).
  assert (R : forall a, Qle_bool x a = Qle_bool y a) by (intros; now rewrite E).
  unfold in_bin, Qlt_bool. now rewrite !L, !R.
Qed.

(** With an empty range all values sit in the middle of the widened range,
    in bin [B / 2]. *)
Lemma in_bin_degenerate (lo hi : Q) (B b : Z) (x : Q) :
  lo == hi -> x == lo -> (1 <= B)%Z -> (0 <= b < B)%Z ->
  in_bin (lo - (1 # 2)) (hi + (1 # 2)) B b x = (b =? B / 2)%Z.
Proof.
  intros E Ex HB Hb.
  assert (Hlt : lo - (1 # 2) < hi + (1 # 2)) by lra.
  assert (Hmid : in_bin (lo - (1 # 2)) (hi + (1 # 2)) B (B / 2) x = true).
  { pose proof (step_pos Hlt HB) as Hs.
    pose proof (width_steps (lo - (1 # 2)) (hi + (1 # 2)) HB) as Hw.
    assert (H2 : (2 * (B / 2) <= B < 2 * (B / 2) + 2)%Z).
    { pose proof (Z.mul_div_le B 2 ltac:(lia)).
      pose proof (Z.mul_succ_div_gt B 2 ltac:(lia)). lia. }
    destruct H2 as [H2 H3].
    rewrite Zle_Qle, inject_Z_mult in H2.
    rewrite Zlt_Qlt, inject_Z_plus, inject_Z_mult in H3.
    change (inject_Z 2) with 2 in *.
    unfold in_bin. apply andb_true_iff. split.
    - apply Qle_bool_iff. unfold bin_left.
      set (s := (hi + (1 # 2) - (lo - (1 # 2))) / inject_Z B) in *. nra.
    - assert (x < bin_left (lo - (1 # 2)) (hi + (1 # 2)) B (B / 2 + 1)).
      { unfold bin_left. rewrite inject_Z_succ.
        set (s := (hi + (1 # 2) - (lo - (1 # 2))) / inject_Z B) in *. nra. }
      destruct (B / 2 =? B - 1)%Z.
      + apply Qle_bool_iff. now apply Qlt_le_weak.
      + now apply Qlt_bool_iff. }
  destruct (Z.eqb_spec b (B / 2)) as [->|Hne]; [exact Hmid |].
  apply not_true_is_false. intros H. apply Hne.
  assert (0 <= B / 2 < B)%Z.
  { split; [apply Z.div_pos; lia | apply Z.div_lt_upper_bound; lia]. }
  eapply in_bin_unique; eauto.
Qed.

(** *** Concrete runs *)

Example histogram_example :
  histogram [0; 1; 2; 3; 4; 5; 6; 7; 8; 9; 10] 4 (0, 10) =
  Some [3; 2; 3; 3]%nat.
Proof. vm_compute. reflexivity. Qed.

Example histogram_narrow_range_example :
  histogram [0; 1; 2; 3; 4; 5; 6; 7; 8; 9; 10] 4 (2, 7) =
  Some [2; 1; 1; 2]%nat.
Proof. vm_compute. reflexivity. Qed.

Example transform_example :
  snd (transform {| n_bins := 3 |} X_demo) =
  Some [ [1; 1; 1; 0; 3; 0]; [1; 0; 2; 0; 3; 0] ]%nat.
Proof. vm_compute. reflexivity. Qed.

Example transform_no_sample_example :
  snd (transform {| n_bins := 3 |} []) = None.
Proof. reflexivity. Qed.

Example transform_no_bin_example :
  snd (transform {| n_bins := 0 |} X_demo) = None.
Proof. reflexivity. Qed.

Lemma X_demo_shape : has_shape X_demo 2 2 3.
Proof. split; [reflexivity | repeat constructor]. Defined.

End HistogramFacts.

(** ** The label reduction *)

Module LabelsFacts.
Import Numpy Labels ListFacts.

Lemma existsb_one_iff (a : list Z) : existsb (Z.eqb 1) a = true <-> In 1%Z a.
Proof.
  rewrite existsb_exists. split.
  - intros (d & Hd & E). apply Z.eqb_eq in E. now subst d.
  - intros H. exists 1%Z. split; [exact H | reflexivity].
Qed.

Lemma binary_positive_iff (a : list Z) :
  Forall (fun d => d = 0%Z \/ d = 1%Z) a ->
  (any_positive_day a <-> In 1%Z a).
Proof.
  intros Hb. rewrite Forall_forall in Hb. split.
  - intros (d & Hd & Hpos). destruct (Hb d Hd) as [E|E]; [lia | now subst d].
  - intros H. exists 1%Z. split; [exact H | lia].
Qed.

(** Claim C3, as amended. [_get_labels] raises on a label tensor without
    samples. On every other tensor it returns a vector with one 0/1 entry
    per sample: the entry is 1 exactly when the value 1 occurs among the
    days of the sample, and 0 otherwise, so that a positive day value
    other than 1 does not count; on a series of 0/1 day values this is
    the any-positive-day reduction. *)
Theorem get_labels_one_occurs (raw_labels : list (list Z)) :
  (raw_labels = [] -> _get_labels raw_labels = None) /\
  (raw_labels <> [] ->
   exists y,
     _get_labels raw_labels = Some y /\
     length y = length raw_labels /\
     Forall (fun l => l = 0%Z \/ l = 1%Z) y /\
     forall s, (s < length raw_labels)%nat ->
       (nth s y 0%Z = 1%Z <-> In 1%Z (nth s raw_labels [])) /\
       (nth s y 0%Z = 0%Z <-> ~ In 1%Z (nth s raw_labels [])) /\
       (Forall (fun d => d = 0%Z \/ d = 1%Z) (nth s raw_labels []) ->
        (nth s y 0%Z = 1%Z <-> any_positive_day (nth s raw_labels [])))).
Proof.
  split; [intros ->; reflexivity |]. intros Hne.
  set (g := fun a : list Z => if existsb (Z.eqb 1) a then 1%Z else 0%Z).
  exists (map g raw_labels). split; [| split; [| split]].
  - unfold _get_labels, apply_along_axis1.
    destruct raw_labels as [|a0 r]; [now elim Hne |].
    now apply mapM_map.
  - apply length_map.
  - apply Forall_forall. intros l Hl. apply in_map_iff in Hl.
    destruct Hl as (a & <- & _). unfold g. destruct (existsb _ a); auto.
  - intros s Hs. rewrite nth_map_in with (dA := []) by exact Hs.
    assert (H1 : g (nth s raw_labels []) = 1%Z <-> In 1%Z (nth s raw_labels [])).
    { rewrite <- existsb_one_iff. unfold g.
      destruct (existsb (Z.eqb 1) (nth s raw_labels [])); split; intros H;
        (reflexivity || discriminate H). }
    assert (H0 : g (nth s raw_labels []) = 0%Z <-> ~ In 1%Z (nth s raw_labels [])).
    { rewrite <- existsb_one_iff. unfold g.
      destruct (existsb (Z.eqb 1) (nth s raw_labels [])); split; intros H;
        try reflexivity; try discriminate H; try congruence. }
    split; [exact H1 | split; [exact H0 |]].
    intros Hb. rewrite H1. symmetry. now apply binary_positive_iff.
Qed.

Lemma get_labels_one_occurs_witness :
  exists y,
    _get_labels raw_labels_demo = Some y /\
    length y = length raw_labels_demo /\
    Forall (fun l => l = 0%Z \/ l = 1%Z) y /\
    forall s, (s < length raw_labels_demo)%nat ->
      (nth s y 0%Z = 1%Z <-> In 1%Z (nth s raw_labels_demo [])) /\
      (nth s y 0%Z = 0%Z <-> ~ In 1%Z (nth s raw_labels_demo [])) /\
      (Forall (fun d => d = 0%Z \/ d = 1%Z) (nth s raw_labels_demo []) ->
       (nth s y 0%Z = 1%Z <-> any_positive_day (nth s raw_labels_demo []))).
Proof.
  apply (proj2 (get_labels_one_occurs raw_labels_demo)). discriminate.
Defined.

(** A sample with a positive day that is not marked 1 is labelled 0. *)
Lemma positive_day_marked_two_counterexample :
  any_positive_day [0; 2; 0]%Z /\ _get_labels [[0; 2; 0]]%Z = Some [0%Z].
Proof.
  split; [| reflexivity]. exists 2%Z. split; [simpl; auto | lia].
Qed.

Example get_labels_example : _get_labels raw_labels_demo = Some [1; 0; 1]%Z.
Proof. reflexivity. Qed.

End LabelsFacts.

(** ** The forecasting split *)

Unset Implicit Arguments.

Module PredictionFacts.
Import Prediction.

(** *** [np.nan_to_num] *)

Lemma nan_to_num1_finite (x : float64) : is_finite (nan_to_num1 x) = true.
Proof. destruct x; reflexivity. Qed.

Lemma nan_to_num_finite (features : matrix) :
  Forall (Forall (fun x => is_finite x = true)) (nan_to_num features).
Proof.
  unfold nan_to_num. apply Forall_forall. intros row Hrow.
  apply in_map_iff in Hrow. destruct Hrow as (r & <- & _).
  apply Forall_forall. intros x Hx. apply in_map_iff in Hx.
  destruct Hx as (x0 & <- & _). apply nan_to_num1_finite.
Qed.

Lemma DBL_MAX_pos : 0 < DBL_MAX.
Proof. unfold DBL_MAX. change 0 with (inject_Z 0). rewrite <- Zlt_Qlt. reflexivity. Qed.

Lemma nth_nan_to_num (features : matrix) (i j : nat) :
  (i < length features)%nat -> (j < length (nth i features []))%nat ->
  nth j (nth i (nan_to_num features) []) NaN =
  nan_to_num1 (nth j (nth i features []) NaN).
Proof.
  intros Hi Hj. unfold nan_to_num.
  rewrite nth_indep with (d' := map nan_to_num1 []) by now rewrite length_map.
  rewrite map_nth.
  rewrite nth_indep with (d' := nan_to_num1 NaN) by now rewrite length_map.
  apply map_nth.
Qed.

(** *** Class counts *)

Lemma imbalance_balanced (y : list Z) :
  count_label 1 y = count_label 0 y -> imbalance y == 0.
Proof.
  intros E. unfold imbalance. rewrite E, Z.sub_diag. simpl Z.abs.
  unfold Qdiv. change (inject_Z 0) with 0. ring.
Qed.

Lemma imbalance_pos (y : list Z) :
  count_label 1 y <> count_label 0 y -> 0 < imbalance y.
Proof.
  intros Hne. unfold imbalance.
  set (n1 := Z.of_nat (count_label 1 y)). set (n0 := Z.of_nat (count_label 0 y)).
  assert (H1 : (0 < Z.abs (n1 - n0))%Z) by (unfold n1, n0; lia).
  assert (H2 : (0 < n1 + n0)%Z) by (unfold n1, n0; lia).
  rewrite Zlt_Qlt in H1, H2. change (inject_Z 0) with 0 in *.
  apply Qlt_shift_div_l; [exact H2 | lra].
Qed.

Lemma repeat_minority_balanced (X : matrix) (y : list Z) (X' : matrix) (y' : list Z) :
  repeat_minority X y = Ok (X', y') -> count_label 1 y' = count_label 0 y'.
Proof.
  unfold repeat_minority.
  destruct ((count_label 1 y =? 0)%nat || (count_label 0 y =? 0)%nat)%bool;
    [discriminate |].
  intros H. injection H as _ <-. unfold count_label.
  rewrite !count_occ_app.
  fold (count_label 1 y). fold (count_label 0 y).
  destruct (Nat.ltb_spec (count_label 1 y) (count_label 0 y)).
  - rewrite count_occ_repeat_eq by reflexivity.
    rewrite count_occ_repeat_neq by discriminate. lia.
  - rewrite count_occ_repeat_neq by discriminate.
    rewrite count_occ_repeat_eq by reflexivity. lia.
Qed.

Lemma nan_to_num_replaced (F : matrix) : nonfinite_replaced F (nan_to_num F).
Proof.
  split; [apply length_map |]. intros i j Hi Hj.
  rewrite (nth_nan_to_num F i j Hi Hj). split; [apply nan_to_num1_finite |].
  destruct (nth j (nth i F []) NaN); reflexivity.
Qed.

Lemma result_cases {A : Type} (r : result A) :
  (exists a, r = Ok a) \/ (exists e, r = Raise e).
Proof. destruct r; eauto. Qed.

Section Collaborators.

Variable get_labels_for_prediction : result (list Z).
Variable cutoff_for_prediction : result (list matrix).
Variable _produce_features :
  matrix -> XGBoostPredict -> result matrix * XGBoostPredict.
Variable train_test_split : matrix -> list Z -> result split.
Variable fit_resample : matrix -> list Z -> result (matrix * list Z).

Let acquire : M matrix :=
  cached_or_fresh_features cutoff_for_prediction _produce_features.
Let fresh : M matrix :=
  produce_and_store_features cutoff_for_prediction _produce_features.
Let preprocess : M split :=
  preprocess_as_prediction get_labels_for_prediction cutoff_for_prediction
    _produce_features train_test_split fit_resample.

(** What the method does once [features] has a value: clean, split,
    oversample the training part. *)
Lemma preprocess_after_features (labels : list Z) (st st1 : state) (F : matrix) :
  get_labels_for_prediction = Ok labels ->
  acquire st = (Ok F, st1) ->
  preprocess st =
  split_and_oversample train_test_split fit_resample (nan_to_num F) labels st1.
Proof.
  intros HL HA. unfold split_and_oversample.
  unfold preprocess, preprocess_as_prediction, cleaned_features.
  unfold acquire in HA. unfold bind, call, ret. rewrite HL, HA.
  destruct (train_test_split (nan_to_num F) labels) as [[[[a b] c] d]|e];
    [| reflexivity].
  destruct (fit_resample a c) as [[a' c']|e]; reflexivity.
Qed.

Lemma preprocess_features_raise (labels : list Z) (st st1 : state) (e : exn) :
  get_labels_for_prediction = Ok labels ->
  acquire st = (Raise e, st1) ->
  preprocess st = (Raise e, st1).
Proof.
  intros HL HA. unfold preprocess, preprocess_as_prediction, cleaned_features.
  unfold acquire in HA. unfold bind, call, ret. now rewrite HL, HA.
Qed.

Lemma preprocess_labels_raise (st : state) (e : exn) :
  get_labels_for_prediction = Raise e -> preprocess st = (Raise e, st).
Proof.
  intros HL. unfold preprocess, preprocess_as_prediction, bind, call.
  now rewrite HL.
Qed.

Lemma preprocess_inv (st st' : state) (X_train X_test : matrix) (y_train y_test : list Z) :
  preprocess st = (Ok (X_train, X_test, y_train, y_test), st') ->
  exists labels F X_train0 y_train0,
    get_labels_for_prediction = Ok labels /\
    acquire st = (Ok F, st') /\
    train_test_split (nan_to_num F) labels = Ok (X_train0, X_test, y_train0, y_test) /\
    fit_resample X_train0 y_train0 = Ok (X_train, y_train).
Proof.
  intros H.
  destruct (result_cases get_labels_for_prediction) as [[labels HL]|[e HL]].
  2:{ rewrite (preprocess_labels_raise _ _ HL) in H. discriminate. }
  destruct (acquire st) as [[F|e] st1] eqn:HA.
  2:{ rewrite (preprocess_features_raise _ _ _ _ HL HA) in H. discriminate. }
  rewrite (preprocess_after_features _ _ _ _ HL HA) in H.
  unfold split_and_oversample in H.
  destruct (train_test_split (nan_to_num F) labels) as [[[[a b] c] d]|e] eqn:HS;
    [| discriminate].
  destruct (fit_resample a c) as [[a' c']|e] eqn:HR; [| discriminate].
  injection H as -> -> -> -> ->.
  exists labels, F, a, c. repeat split; auto.
Qed.

(** The three ways the [try] statement can go. *)
Lemma acquire_hit (self : XGBoostPredict) (w : world) (F : matrix) (keys : list key) :
  pickle_file w = Pickled F keys ->
  acquire (self, w) = (Ok F, ({| feature_keys := Some keys |}, w)).
Proof.
  intros H. unfold acquire, cached_or_fresh_features, try_except, load_features.
  unfold bind, pickle_load, set_feature_keys, ret. simpl. rewrite H. reflexivity.
Qed.

Lemma acquire_absent (self : XGBoostPredict) (w : world) :
  pickle_file w = Absent -> acquire (self, w) = fresh (self, w).
Proof.
  intros H. unfold acquire, cached_or_fresh_features, try_except, load_features.
  unfold bind, pickle_load. simpl. rewrite H. reflexivity.
Qed.

Lemma acquire_unreadable (self : XGBoostPredict) (w : world) (e : exn) :
  pickle_file w = Unreadable e -> is_FileNotFoundError e = false ->
  acquire (self, w) = (Raise e, (self, w)).
Proof.
  intros H He. unfold acquire, cached_or_fresh_features, try_except, load_features.
  unfold bind, pickle_load. simpl. rewrite H, He. reflexivity.
Qed.

Lemma fresh_persists (st st1 : state) (F : matrix) :
  fresh st = (Ok F, st1) ->
  exists keys,
    feature_keys (fst st1) = Some keys /\
    pickle_file (snd st1) = Pickled F keys.
Proof.
  unfold fresh, produce_and_store_features, bind, call, method, open_for_writing,
    get_feature_keys, pickle_dump, ret.
  destruct (result_cases cutoff_for_prediction) as [[data HC]|[e HC]];
    rewrite HC; cbn.
  2:{ intros H. discriminate H. }
  destruct (_produce_features (_bring_data_to_format data) (fst st))
    as [[F'|e] self']; cbn.
  2:{ intros H. discriminate H. }
  destruct (write_error (snd st)); cbn.
  1:{ intros H. discriminate H. }
  destruct (feature_keys self') as [keys|] eqn:K; cbn.
  2:{ intros H. discriminate H. }
  intros H. injection H as <- <-. exists keys. cbn. auto.
Qed.

Lemma imbalance_nonneg (y : list Z) : 0 <= imbalance y.
Proof.
  unfold imbalance.
  set (n1 := Z.of_nat (count_label 1 y)). set (n0 := Z.of_nat (count_label 0 y)).
  destruct (Z.eq_dec (n1 + n0) 0) as [E|E].
  - rewrite E. unfold Qdiv. change (/ inject_Z 0) with 0. rewrite Qmult_0_r.
    apply Qle_refl.
  - assert (H1 : (0 <= Z.abs (n1 - n0))%Z) by lia.
    assert (H2 : (0 < n1 + n0)%Z) by (unfold n1, n0 in *; lia).
    rewrite Zle_Qle in H1. rewrite Zlt_Qlt in H2. change (inject_Z 0) with 0 in *.
    apply Qle_shift_div_l; [exact H2 | lra].
Qed.

(** Claim C4, as amended. Provided the oversampler returns both classes
    equally frequent (what [SMOTE] with its default strategy does):
    whenever [preprocess_as_prediction] returns, the test features and
    test labels are exactly the test part of [train_test_split] on the
    cleaned features and the original labels, only the training part of
    that split went through the oversampler, and the returned training
    labels are balanced: never less balanced than the original label
    vector, and strictly more balanced when the original labels are not
    balanced already. *)
Theorem oversampling_train_only
    (balanced : forall X y X' y',
        fit_resample X y = Ok (X', y') -> count_label 1 y' = count_label 0 y')
    (st st' : state) (labels : list Z)
    (X_train X_test : matrix) (y_train y_test : list Z) :
  get_labels_for_prediction = Ok labels ->
  preprocess st = (Ok (X_train, X_test, y_train, y_test), st') ->
  exists F X_train0 y_train0,
    acquire st = (Ok F, st') /\
    train_test_split (nan_to_num F) labels =
      Ok (X_train0, X_test, y_train0, y_test) /\
    fit_resample X_train0 y_train0 = Ok (X_train, y_train) /\
    count_label 1 y_train = count_label 0 y_train /\
    imbalance y_train <= imbalance labels /\
    (count_label 1 labels <> count_label 0 labels ->
     imbalance y_train < imbalance labels).
Proof.
  intros HL H.
  destruct (preprocess_inv _ _ _ _ _ _ H)
    as (labels' & F & X0 & y0 & HL' & HA & HS & HR).
  rewrite HL in HL'. injection HL' as <-.
  exists F, X0, y0.
  pose proof (balanced X0 y0 X_train y_train HR) as HB.
  repeat split; auto.
  - rewrite (imbalance_balanced _ HB). apply imbalance_nonneg.
  - intros Hne. rewrite (imbalance_balanced _ HB). now apply imbalance_pos.
Qed.

(** Claim C6, as amended. Whether the features come from the cache or
    are freshly computed, they pass through [np.nan_to_num] before
    [train_test_split] and the oversampler see them: every NaN becomes
    zero, every positive infinity the largest finite binary64 value, every
    negative infinity the most negative one, and finite values are kept,
    so that the matrix that is split holds finite values only. *)
Theorem features_cleaned_before_split (labels : list Z) (st st1 : state) (F : matrix) :
  get_labels_for_prediction = Ok labels ->
  acquire st = (Ok F, st1) ->
  exists cleaned,
    nonfinite_replaced F cleaned /\
    cleaned_features cutoff_for_prediction _produce_features st = (Ok cleaned, st1) /\
    preprocess st =
      split_and_oversample train_test_split fit_resample cleaned labels st1.
Proof.
  intros HL HA. exists (nan_to_num F). split; [apply nan_to_num_replaced | split].
  - unfold cleaned_features, bind, ret. unfold acquire in HA. now rewrite HA.
  - now apply preprocess_after_features.
Qed.

(** Claim C7, as amended. On a cache hit the cached key list is not
    checked against anything: the result of [preprocess_as_prediction]
    (the split or the exception) is the same for every key list stored
    with the same matrix, and the list is assigned to [self.feature_keys]
    as it was loaded. *)
Theorem cached_keys_unchecked (self : XGBoostPredict) (we : option exn)
    (F : matrix) (keys keys' : list key) :
  let run := fun k =>
    preprocess (self, {| pickle_file := Pickled F k; write_error := we |}) in
  fst (run keys) = fst (run keys') /\
  forall labels, get_labels_for_prediction = Ok labels ->
    feature_keys (fst (snd (run keys))) = Some keys.
Proof.
  intros run. unfold run.
  destruct (result_cases get_labels_for_prediction) as [[labels HL]|[e HL]].
  - rewrite (preprocess_after_features labels _ _ F HL
               (acquire_hit self {| pickle_file := Pickled F keys; write_error := we |}
                            F keys eq_refl)).
    rewrite (preprocess_after_features labels _ _ F HL
               (acquire_hit self {| pickle_file := Pickled F keys'; write_error := we |}
                            F keys' eq_refl)).
    unfold split_and_oversample. split.
    + destruct (train_test_split (nan_to_num F) labels) as [[[[a b] c] d]|e];
        [| reflexivity].
      destruct (fit_resample a c) as [[a' c']|e]; reflexivity.
    + intros labels' _.
      destruct (train_test_split (nan_to_num F) labels) as [[[[a b] c] d]|e];
        [| reflexivity].
      destruct (fit_resample a c) as [[a' c']|e]; reflexivity.
  - rewrite !(preprocess_labels_raise _ _ HL). split; [reflexivity |].
    intros labels HL'. rewrite HL in HL'. discriminate HL'.
Qed.

(** The [except] block, case by case. *)
Lemma fresh_stored (self self' : XGBoostPredict) (w : world) (data : list matrix)
    (F : matrix) (keys : list key) :
  cutoff_for_prediction = Ok data ->
  _produce_features (_bring_data_to_format data) self = (Ok F, self') ->
  write_error w = None ->
  feature_keys self' = Some keys ->
  fresh (self, w) =
  (Ok F, (self', {| pickle_file := Pickled F keys; write_error := None |})).
Proof.
  intros HC HP HW HK.
  unfold fresh, produce_and_store_features, bind, call, method, open_for_writing,
    get_feature_keys, pickle_dump, ret.
  rewrite HC. cbn. rewrite HP. cbn. rewrite HW. cbn. rewrite HK. reflexivity.
Qed.

Lemma fresh_no_data (self : XGBoostPredict) (w : world) (e : exn) :
  cutoff_for_prediction = Raise e -> fresh (self, w) = (Raise e, (self, w)).
Proof.
  intros HC. unfold fresh, produce_and_store_features, bind, call.
  rewrite HC. reflexivity.
Qed.

Lemma fresh_no_features (self self' : XGBoostPredict) (w : world)
    (data : list matrix) (e : exn) :
  cutoff_for_prediction = Ok data ->
  _produce_features (_bring_data_to_format data) self = (Raise e, self') ->
  fresh (self, w) = (Raise e, (self', w)).
Proof.
  intros HC HP. unfold fresh, produce_and_store_features, bind, call, method.
  rewrite HC. cbn. rewrite HP. reflexivity.
Qed.

Lemma fresh_not_opened (self self' : XGBoostPredict) (w : world)
    (data : list matrix) (F : matrix) (e : exn) :
  cutoff_for_prediction = Ok data ->
  _produce_features (_bring_data_to_format data) self = (Ok F, self') ->
  write_error w = Some e ->
  fresh (self, w) = (Raise e, (self', w)).
Proof.
  intros HC HP HW.
  unfold fresh, produce_and_store_features, bind, call, method, open_for_writing.
  rewrite HC. cbn. rewrite HP. cbn. rewrite HW. reflexivity.
Qed.

Lemma fresh_no_keys (self self' : XGBoostPredict) (w : world)
    (data : list matrix) (F : matrix) :
  cutoff_for_prediction = Ok data ->
  _produce_features (_bring_data_to_format data) self = (Ok F, self') ->
  write_error w = None ->
  feature_keys self' = None ->
  fresh (self, w) =
  (Raise AttributeError,
   (self', {| pickle_file := empty_file; write_error := None |})).
Proof.
  intros HC HP HW HK.
  unfold fresh, produce_and_store_features, bind, call, method, open_for_writing,
    get_feature_keys.
  rewrite HC. cbn. rewrite HP. cbn. rewrite HW. cbn. rewrite HK. reflexivity.
Qed.

(** Claim C10. With the labels available. When the cache file is absent
    the features are recomputed and stored: the raw series of
    [cutoff_for_prediction] go through [_bring_data_to_format] and
    [_produce_features], the file then holds the features with the keys
    the feature engineering has set, and these features are cleaned and
    split; an exception of the raw data, of the feature engineering or of
    opening the file for writing reaches the caller with the file still
    absent, and a missing [feature_keys] raises [AttributeError] with the
    file created but empty. When opening or unpickling fails with any
    exception other than [FileNotFoundError], that exception reaches the
    caller and the object and the file are left as they were. When the
    file unpickles, its matrix goes to [np.nan_to_num] and
    [train_test_split] whatever its shape, with no comparison against the
    label vector. *)
Theorem cache_miss_only_when_absent
    (self : XGBoostPredict) (w : world) (labels : list Z) :
  get_labels_for_prediction = Ok labels ->
  (pickle_file w = Absent ->
     (forall data F self' keys,
        cutoff_for_prediction = Ok data ->
        _produce_features (_bring_data_to_format data) self = (Ok F, self') ->
        write_error w = None ->
        feature_keys self' = Some keys ->
        preprocess (self, w) =
          split_and_oversample train_test_split fit_resample (nan_to_num F) labels
            (self', {| pickle_file := Pickled F keys; write_error := None |})) /\
     (forall e, cutoff_for_prediction = Raise e ->
        preprocess (self, w) = (Raise e, (self, w))) /\
     (forall data e self',
        cutoff_for_prediction = Ok data ->
        _produce_features (_bring_data_to_format data) self = (Raise e, self') ->
        preprocess (self, w) = (Raise e, (self', w))) /\
     (forall data F self' e,
        cutoff_for_prediction = Ok data ->
        _produce_features (_bring_data_to_format data) self = (Ok F, self') ->
        write_error w = Some e ->
        preprocess (self, w) = (Raise e, (self', w))) /\
     (forall data F self',
        cutoff_for_prediction = Ok data ->
        _produce_features (_bring_data_to_format data) self = (Ok F, self') ->
        write_error w = None ->
        feature_keys self' = None ->
        preprocess (self, w) =
          (Raise AttributeError,
           (self', {| pickle_file := empty_file; write_error := None |})))) /\
  (forall e, pickle_file w = Unreadable e -> is_FileNotFoundError e = false ->
     preprocess (self, w) = (Raise e, (self, w))) /\
  (forall F keys, pickle_file w = Pickled F keys ->
     preprocess (self, w) =
       split_and_oversample train_test_split fit_resample (nan_to_num F) labels
         ({| feature_keys := Some keys |}, w)).
Proof.
  intros HL. split; [| split].
  - intros HA. pose proof (acquire_absent self w HA) as E.
    split; [| split; [| split; [| split]]].
    + intros data F self' keys HC HP HW HK.
      apply preprocess_after_features; [exact HL |].
      rewrite E. now apply fresh_stored with (data := data).
    + intros e HC. apply preprocess_features_raise with (labels := labels);
        [exact HL |]. rewrite E. now apply fresh_no_data.
    + intros data e self' HC HP.
      apply preprocess_features_raise with (labels := labels); [exact HL |].
      rewrite E. now apply fresh_no_features with (data := data).
    + intros data F self' e HC HP HW.
      apply preprocess_features_raise with (labels := labels); [exact HL |].
      rewrite E. now apply fresh_not_opened with (data := data) (F := F).
    + intros data F self' HC HP HW HK.
      apply preprocess_features_raise with (labels := labels); [exact HL |].
      rewrite E. now apply fresh_no_keys with (data := data) (F := F).
  - intros e HU He. apply preprocess_features_raise with (labels := labels); [exact HL |].
    now apply acquire_unreadable.
  - intros F keys HP. apply preprocess_after_features; [exact HL |].
    now apply acquire_hit.
Qed.

End Collaborators.

(** *** Concrete runs *)

Lemma oversampling_train_only_witness :
  exists st' X_train X_test y_train y_test,
    preprocess_demo (cached features_demo ["f0"%string; "f1"%string]) =
      (Ok (X_train, X_test, y_train, y_test), st') /\
    exists F X_train0 y_train0,
      cached_or_fresh_features (Ok series_demo) keep_table
        (cached features_demo ["f0"%string; "f1"%string]) = (Ok F, st') /\
      holdout_split (nan_to_num F) labels_demo =
        Ok (X_train0, X_test, y_train0, y_test) /\
      repeat_minority X_train0 y_train0 = Ok (X_train, y_train) /\
      count_label 1 y_train = count_label 0 y_train /\
      imbalance y_train <= imbalance labels_demo /\
      (count_label 1 labels_demo <> count_label 0 labels_demo ->
       imbalance y_train < imbalance labels_demo).
Proof.
  do 5 eexists. split; [reflexivity |].
  apply (oversampling_train_only (Ok labels_demo) (Ok series_demo) keep_table
           holdout_split repeat_minority repeat_minority_balanced).
  - reflexivity.
  - reflexivity.
Defined.

(** On labels that are balanced already, the returned training labels are
    not strictly more balanced than the original ones. *)
Lemma even_labels_counterexample :
  exists st' X_train X_test y_train y_test,
    preprocess_as_prediction (Ok labels_even) (Ok series_demo) keep_table
      holdout_split repeat_minority no_cache =
      (Ok (X_train, X_test, y_train, y_test), st') /\
    ~ imbalance y_train < imbalance labels_even.
Proof.
  do 5 eexists. split; [reflexivity |].
  vm_compute. intros H. discriminate H.
Qed.

Lemma nonfinite_zeroed_counterexample :
  exists cleaned st1,
    cached_or_fresh_features (Ok series_demo) keep_table
      (cached features_demo ["f0"%string; "f1"%string]) = (Ok features_demo, st1) /\
    cleaned_features (Ok series_demo) keep_table
      (cached features_demo ["f0"%string; "f1"%string]) = (Ok cleaned, st1) /\
    ~ nonfinite_zeroed features_demo cleaned.
Proof.
  do 2 eexists. split; [reflexivity | split; [reflexivity |]].
  intros H.
  specialize (H 9%nat 0%nat ltac:(simpl; lia) ltac:(simpl; lia) eq_refl).
  vm_compute in H. discriminate H.
Qed.

Lemma features_cleaned_before_split_witness :
  exists cleaned,
    nonfinite_replaced features_demo cleaned /\
    cleaned_features (Ok series_demo) keep_table no_cache =
      (Ok cleaned,
       ({| feature_keys := Some ["f0"%string; "f1"%string] |},
        {| pickle_file := Pickled features_demo ["f0"%string; "f1"%string];
           write_error := None |})) /\
    preprocess_demo no_cache =
      split_and_oversample holdout_split repeat_minority cleaned labels_demo
        ({| feature_keys := Some ["f0"%string; "f1"%string] |},
         {| pickle_file := Pickled features_demo ["f0"%string; "f1"%string];
            write_error := None |}).
Proof.
  apply (features_cleaned_before_split (Ok labels_demo) (Ok series_demo) keep_table
           holdout_split repeat_minority labels_demo no_cache);
    reflexivity.
Defined.

Lemma incompatible_keys_counterexample :
  length ["only"%string] <> n_columns features_demo /\
  exists parts st',
    preprocess_demo (cached features_demo ["only"%string]) = (Ok parts, st') /\
    feature_keys (fst st') = Some ["only"%string].
Proof.
  split; [simpl; discriminate |].
  do 2 eexists. split; reflexivity.
Qed.

Lemma cached_keys_unchecked_witness :
  fst (preprocess_demo (cached features_demo ["only"%string])) =
  fst (preprocess_demo (cached features_demo ["f0"%string; "f1"%string])) /\
  feature_keys (fst (snd (preprocess_demo (cached features_demo ["only"%string])))) =
  Some ["only"%string].
Proof.
  destruct (cached_keys_unchecked (Ok labels_demo) (Ok series_demo) keep_table
              holdout_split repeat_minority fresh_object None features_demo
              ["only"%string] ["f0"%string; "f1"%string]) as [H1 H2].
  split; [exact H1 | exact (H2 labels_demo eq_refl)].
Defined.

Lemma cache_miss_only_when_absent_witness :
  preprocess_demo no_cache =
  split_and_oversample holdout_split repeat_minority (nan_to_num features_demo)
    labels_demo
    ({| feature_keys := Some ["f0"%string; "f1"%string] |},
     {| pickle_file := Pickled features_demo ["f0"%string; "f1"%string];
        write_error := None |}).
Proof.
  destruct (cache_miss_only_when_absent (Ok labels_demo) (Ok series_demo)
              keep_table holdout_split repeat_minority fresh_object
              {| pickle_file := Absent; write_error := None |} labels_demo eq_refl)
    as [H _].
  destruct (H eq_refl) as [Hstore _].
  apply (Hstore series_demo features_demo
           {| feature_keys := Some ["f0"%string; "f1"%string] |}
           ["f0"%string; "f1"%string]);
    reflexivity.
Defined.

End PredictionFacts.

(** ** Histograms: failure, and what the rows do not depend on *)

Module InvarianceFacts.
Import Numpy Histogram HistogramSpec ListFacts MinMaxFacts HistogramFacts Invariance.

(** *** Ranges with equal ends *)

Lemma minimum_unique (m m' : Q) (l : list Q) :
  is_minimum m l -> is_minimum m' l -> m == m'.
Proof.
  intros [I F] [I' F']. rewrite Forall_forall in F, F'.
  apply Qle_antisym; auto.
Qed.

Lemma maximum_unique (m m' : Q) (l : list Q) :
  is_maximum m l -> is_maximum m' l -> m == m'.
Proof.
  intros [I F] [I' F']. rewrite Forall_forall in F, F'.
  apply Qle_antisym; auto.
Qed.

Lemma same_range_refl (r : Q * Q) : same_range r r.
Proof. split; reflexivity. Qed.

Lemma same_range_sym (r r' : Q * Q) : same_range r r' -> same_range r' r.
Proof. intros [H1 H2]. split; symmetry; assumption. Qed.

Lemma same_range_trans (r1 r2 r3 : Q * Q) :
  same_range r1 r2 -> same_range r2 r3 -> same_range r1 r3.
Proof.
  intros [H1 H2] [H3 H4]. split; [now rewrite H1 | now rewrite H2].
Qed.

Lemma widened_range_Qeq (lo hi lo' hi' : Q) :
  lo == lo' -> hi == hi' ->
  same_range (widened_range lo hi) (widened_range lo' hi').
Proof.
  intros E1 E2. unfold widened_range.
  assert (E : Qeq_bool lo hi = Qeq_bool lo' hi') by now rewrite E1, E2.
  rewrite E. destruct (Qeq_bool lo' hi'); split; cbn [fst snd];
    rewrite ?E1, ?E2; reflexivity.
Qed.

Lemma bin_left_Qeq (lo hi lo' hi' : Q) (B b : Z) :
  lo == lo' -> hi == hi' -> bin_left lo hi B b == bin_left lo' hi' B b.
Proof. intros E1 E2. unfold bin_left. now rewrite E1, E2. Qed.

Lemma in_bin_same_range (lo hi lo' hi' : Q) (B b : Z) (x : Q) :
  lo == lo' -> hi == hi' -> in_bin lo hi B b x = in_bin lo' hi' B b x.
Proof.
  intros E1 E2.
  assert (L : forall j, Qle_bool (bin_left lo hi B j) x =
                        Qle_bool (bin_left lo' hi' B j) x).
  { intros j. now rewrite (bin_left_Qeq lo hi lo' hi' B j E1 E2). }
  assert (R : forall j, Qle_bool x (bin_left lo hi B j) =
                        Qle_bool x (bin_left lo' hi' B j)).
  { intros j. now rewrite (bin_left_Qeq lo hi lo' hi' B j E1 E2). }
  unfold in_bin, Qlt_bool. now rewrite !L, !R.
Qed.

Lemma bin_counts_same_range (r r' : Q * Q) (B : Z) (series : list Q) :
  same_range r r' -> bin_counts r B series = bin_counts r' B series.
Proof.
  intros [E1 E2]. unfold bin_counts, days_in_bin.
  apply map_ext. intros b. f_equal. apply filter_ext. intros x.
  now apply in_bin_same_range.
Qed.

Lemma array_range_determined (array : list (list Q)) (lo hi : Q) :
  is_minimum lo (concat array) -> is_maximum hi (concat array) ->
  same_range (array_range array) (widened_range lo hi).
Proof.
  intros Hmin Hmax.
  assert (Hne : concat array <> []).
  { destruct Hmin as [I _]. intros E. rewrite E in I. contradiction. }
  destruct (array_range_spec array Hne)
    as (lo0 & hi0 & _ & _ & Hmin0 & Hmax0 & _ & ER).
  rewrite ER. apply widened_range_Qeq.
  - now apply minimum_unique with (l := concat array).
  - now apply maximum_unique with (l := concat array).
Qed.

(** *** The order of the days does not matter *)

Lemma mapM_ext {A B : Type} (f g : A -> option B) (l : list A) :
  (forall x, In x l -> f x = g x) -> OptionMonad.mapM f l = OptionMonad.mapM g l.
Proof.
  induction l as [|x l IH]; intros H; simpl; [reflexivity |].
  rewrite (H x) by now left. rewrite IH; [reflexivity |].
  intros y Hy. apply H. now right.
Qed.

Lemma filter_length_Permutation {A : Type} (p : A -> bool) (l l' : list A) :
  Permutation l l' -> length (filter p l) = length (filter p l').
Proof.
  induction 1 as [| x l l' _ IH | x y l | l1 l2 l3 _ IH1 _ IH2]; simpl.
  - reflexivity.
  - destruct (p x); simpl; now rewrite IH.
  - destruct (p x), (p y); reflexivity.
  - now rewrite IH1.
Qed.

Lemma bin_counts_Permutation (r : Q * Q) (B : Z) (a a' : list Q) :
  Permutation a a' -> bin_counts r B a = bin_counts r B a'.
Proof.
  intros HP. unfold bin_counts, days_in_bin. apply map_ext. intros b.
  now apply filter_length_Permutation.
Qed.

Lemma concat_Permutation (l l' : list (list Q)) :
  Forall2 (@Permutation Q) l l' -> Permutation (concat l) (concat l').
Proof.
  induction 1 as [| a a' l l' Ha _ IH]; simpl; [constructor |].
  now apply Permutation_app.
Qed.

Lemma is_minimum_Permutation (m : Q) (l l' : list Q) :
  Permutation l l' -> is_minimum m l -> is_minimum m l'.
Proof.
  intros HP [I F]. split; [now apply (Permutation_in _ HP) |].
  rewrite Forall_forall in *. intros x Hx. apply F.
  apply (Permutation_in _ (Permutation_sym HP)), Hx.
Qed.

Lemma is_maximum_Permutation (m : Q) (l l' : list Q) :
  Permutation l l' -> is_maximum m l -> is_maximum m l'.
Proof.
  intros HP [I F]. split; [now apply (Permutation_in _ HP) |].
  rewrite Forall_forall in *. intros x Hx. apply F.
  apply (Permutation_in _ (Permutation_sym HP)), Hx.
Qed.

Lemma array_range_Permutation (array array' : list (list Q)) :
  concat array <> [] ->
  Forall2 (@Permutation Q) array array' ->
  same_range (array_range array') (array_range array).
Proof.
  intros Hne HP.
  destruct (array_range_spec array Hne)
    as (lo & hi & _ & _ & Hmin & Hmax & _ & ER).
  rewrite ER. apply array_range_determined.
  - apply (is_minimum_Permutation lo _ _ (concat_Permutation _ _ HP) Hmin).
  - apply (is_maximum_Permutation hi _ _ (concat_Permutation _ _ HP) Hmax).
Qed.

(** [_histograms_for_variable] raises on a bin count below one. *)
Lemma histograms_for_variable_no_bin (array : list (list Q)) (B : Z) :
  (B < 1)%Z -> _histograms_for_variable array B = None.
Proof.
  intros HB. unfold _histograms_for_variable.
  destruct (np_min (concat array)) as [lo|]; [| reflexivity].
  destruct (np_max (concat array)) as [hi|]; [| reflexivity].
  cbn [OptionMonad.bind]. destruct array as [|a0 array]; [reflexivity |].
  cbn [apply_along_axis1 OptionMonad.mapM]. unfold histogram.
  destruct (Z.ltb_spec B 1) as [_|C]; [reflexivity | lia].
Qed.

(** ... and on an array without any value. *)
Lemma histograms_for_variable_no_value (array : list (list Q)) (B : Z) :
  concat array = [] -> _histograms_for_variable array B = None.
Proof. intros E. unfold _histograms_for_variable. now rewrite E. Qed.

Lemma histograms_for_variable_reordered (array array' : list (list Q)) (B : Z) :
  Forall2 (@Permutation Q) array array' ->
  _histograms_for_variable array' B = _histograms_for_variable array B.
Proof.
  intros HP.
  destruct (Z_lt_le_dec B 1) as [HB|HB].
  { now rewrite !histograms_for_variable_no_bin. }
  pose proof (concat_Permutation _ _ HP) as HC.
  destruct (concat array) as [|x r] eqn:E.
  { apply Permutation_nil in HC.
    now rewrite !histograms_for_variable_no_value. }
  assert (Hne : concat array <> []) by (rewrite E; discriminate).
  assert (Hne' : concat array' <> []).
  { intros E'. rewrite E' in HC. apply Permutation_sym, Permutation_nil in HC.
    discriminate. }
  rewrite !histograms_for_variable_spec by assumption. f_equal.
  pose proof (array_range_Permutation array array' Hne HP) as HR.
  clear E HC Hne Hne'. revert HR.
  generalize (array_range array') (array_range array). intros r' r0 HR.
  induction HP as [| a a' l l' Ha _ IH]; simpl; [reflexivity |].
  rewrite IH. f_equal.
  rewrite (bin_counts_same_range r' r0 B a' HR).
  symmetry. now apply bin_counts_Permutation.
Qed.

Lemma Forall2_nth {A : Type} (P : A -> A -> Prop) (l l' : list A) (d d' : A) (i : nat) :
  Forall2 P l l' -> P d d' -> P (nth i l d) (nth i l' d').
Proof.
  intros H Hd. revert i. induction H as [| x y l l' Hxy _ IH]; intros [|i]; simpl; auto.
Qed.

Lemma variable_slice_reordered (X X' : tensor) (i : nat) :
  days_reordered X X' ->
  Forall2 (@Permutation Q) (variable_slice X i) (variable_slice X' i).
Proof.
  unfold days_reordered, variable_slice.
  induction 1 as [| smp smp' X X' Hs _ IH]; simpl; constructor; [| exact IH].
  apply Forall2_nth; [exact Hs | constructor].
Qed.

Lemma shape1_reordered (X X' : tensor) :
  days_reordered X X' -> shape1 X' = shape1 X.
Proof.
  unfold days_reordered. destruct 1 as [| smp smp' X X' Hs _]; simpl; [reflexivity |].
  symmetry. now apply Forall2_length with (R := @Permutation Q).
Qed.


(** *** Concrete runs *)

Lemma X_demo_days_reordered : days_reordered X_demo X_demo_reordered.
Proof.
  unfold days_reordered, X_demo, X_demo_reordered.
  repeat (apply Forall2_cons || apply Forall2_nil);
    first [apply Permutation_refl | apply perm_swap
          | apply perm_skip; apply perm_swap].
Defined.


End InvarianceFacts.

(** ** Labels from raw values of any kind *)

Module RawLabelsFacts.
Import Numpy Labels ListFacts LabelsFacts.

(** X5. [_get_labels] raises on an array without samples.  On any other
    array it returns one label per sample, [1] when the value [1] occurs
    among the days of the sample and [0] otherwise, whatever other values
    the raw labels hold: a day marked [2] or [-1] counts as no event. *)
Theorem get_labels_counts_ones_only (raw_labels : list (list Z)) :
  (raw_labels = [] -> _get_labels raw_labels = None) /\
  (raw_labels <> [] ->
   exists y,
     _get_labels raw_labels = Some y /\
     length y = length raw_labels /\
     forall s, (s < length raw_labels)%nat ->
       (In 1%Z (nth s raw_labels []) -> nth s y 0%Z = 1%Z) /\
       (~ In 1%Z (nth s raw_labels []) -> nth s y 0%Z = 0%Z)).
Proof.
  split; [intros ->; reflexivity |]. intros Hne.
  set (g := fun a : list Z => if existsb (Z.eqb 1) a then 1%Z else 0%Z).
  exists (map g raw_labels). split; [| split].
  - unfold _get_labels, apply_along_axis1.
    destruct raw_labels as [|a0 r]; [now elim Hne |].
    now apply mapM_map.
  - apply length_map.
  - intros s Hs. rewrite nth_map_in with (dA := []) by exact Hs.
    unfold g. destruct (existsb (Z.eqb 1) (nth s raw_labels [])) eqn:E.
    + split; [reflexivity |]. intros Hn. elim Hn. now apply existsb_one_iff.
    + split; [| reflexivity]. intros Hp. apply existsb_one_iff in Hp. congruence.
Qed.

Lemma get_labels_counts_ones_only_witness :
  exists y,
    _get_labels [[2; 0]; [0; 1]; [-1; 3]]%Z = Some y /\
    length y = 3%nat /\
    forall s, (s < 3)%nat ->
      (In 1%Z (nth s [[2; 0]; [0; 1]; [-1; 3]]%Z []) -> nth s y 0%Z = 1%Z) /\
      (~ In 1%Z (nth s [[2; 0]; [0; 1]; [-1; 3]]%Z []) -> nth s y 0%Z = 0%Z).
Proof.
  apply (proj2 (get_labels_counts_ones_only [[2; 0]; [0; 1]; [-1; 3]]%Z)).
  discriminate.
Defined.

End RawLabelsFacts.

(** ** Preprocessing: the row layout and the cache across runs *)

Module PreprocessingFacts.
Import Prediction PredictionFacts DataFormat ListFacts.

(** *** [_bring_data_to_format] *)

Lemma map_nth_seq {A : Type} (l : list A) (d : A) :
  map (fun j => nth j l d) (seq 0 (length l)) = l.
Proof.
  induction l as [|x l IH]; simpl; [reflexivity |].
  f_equal. rewrite <- seq_shift, map_map. exact IH.
Qed.

Lemma flat_map_ext_in {A B : Type} (f g : A -> list B) (l : list A) :
  (forall x, In x l -> f x = g x) -> flat_map f l = flat_map g l.
Proof.
  induction l as [|x l IH]; intros H; simpl; [reflexivity |].
  rewrite (H x) by now left. rewrite IH; [reflexivity |].
  intros y Hy. apply H. now right.
Qed.

Lemma rows_by_index (T : list matrix) (FC : nat) :
  Forall (fun smp : matrix => length smp = FC) T ->
  flat_map (fun i : nat => map (fun j : nat => nth j (nth i T []) []) (seq 0 FC))
           (seq 0 (length T)) =
  concat T.
Proof.
  intros HU. rewrite Forall_forall in HU.
  rewrite flat_map_ext_in with (g := fun i => nth i T []).
  - rewrite flat_map_concat_map. f_equal. apply map_nth_seq.
  - intros i Hi. apply in_seq in Hi.
    rewrite <- (HU (nth i T [])) by (apply nth_In; lia). apply map_nth_seq.
Qed.

Lemma bring_data_to_format_concat (temp_data : list matrix) (N FC D : nat) :
  has_shape3 temp_data N FC D -> _bring_data_to_format temp_data = concat temp_data.
Proof.
  intros [HN HF].
  assert (HU : Forall (fun smp : matrix => length smp = FC) temp_data).
  { eapply Forall_impl; [| exact HF]. intros smp [Hl _]. exact Hl. }
  unfold _bring_data_to_format.
  destruct temp_data as [|s0 rest]; [reflexivity |].
  assert (E0 : length s0 = FC) by (inversion HU; assumption).
  rewrite E0. now apply rows_by_index.
Qed.

(** X6. On an array of shape [(N, FC, D)], [_bring_data_to_format]
    returns [N * FC] rows of length [D], sample-major and feature-minor:
    row [i * FC + j] is the series of feature [j] of sample [i]. *)
Theorem bring_data_to_format_layout (temp_data : list matrix) (N FC D : nat) :
  has_shape3 temp_data N FC D ->
  length (_bring_data_to_format temp_data) = (N * FC)%nat /\
  Forall (fun row => length row = D) (_bring_data_to_format temp_data) /\
  forall i j, (i < N)%nat -> (j < FC)%nat ->
    nth (i * FC + j) (_bring_data_to_format temp_data) [] =
    nth j (nth i temp_data []) [].
Proof.
  intros H. rewrite (bring_data_to_format_concat temp_data N FC D H).
  destruct H as [HN HF].
  assert (HU : Forall (fun smp : matrix => length smp = FC) temp_data).
  { eapply Forall_impl; [| exact HF]. intros smp [Hl _]. exact Hl. }
  split; [| split].
  - rewrite (HistogramFacts.length_concat_uniform HU). f_equal. exact HN.
  - apply Forall_forall. intros row Hrow. apply in_concat in Hrow.
    destruct Hrow as (smp & Hs & Hr). rewrite Forall_forall in HF.
    destruct (HF smp Hs) as [_ HD]. rewrite Forall_forall in HD. now apply HD.
  - intros i j Hi Hj.
    apply HistogramFacts.nth_concat_uniform; [exact HU | unfold matrix in *; lia | exact Hj].
Qed.

Lemma temp_data_demo_shape : has_shape3 temp_data_demo 2 3 2.
Proof. split; [reflexivity | repeat constructor]. Defined.

Lemma bring_data_to_format_layout_witness :
  length (_bring_data_to_format temp_data_demo) = (2 * 3)%nat /\
  Forall (fun row => length row = 2%nat) (_bring_data_to_format temp_data_demo) /\
  forall i j, (i < 2)%nat -> (j < 3)%nat ->
    nth (i * 3 + j) (_bring_data_to_format temp_data_demo) [] =
    nth j (nth i temp_data_demo []) [].
Proof.
  exact (bring_data_to_format_layout temp_data_demo 2 3 2 temp_data_demo_shape).
Defined.

(** *** The feature cache across runs *)

Section Cache.

Variable get_labels_for_prediction : result (list Z).
Variable train_test_split : matrix -> list Z -> result split.
Variable fit_resample : matrix -> list Z -> result (matrix * list Z).

(** The raw data and the feature engineering of a first and of a later
    run. *)
Variables cutoff_for_prediction cutoff_for_prediction' : result (list matrix).
Variables _produce_features _produce_features' :
  matrix -> XGBoostPredict -> result matrix * XGBoostPredict.

Let preprocess : M split :=
  preprocess_as_prediction get_labels_for_prediction cutoff_for_prediction
    _produce_features train_test_split fit_resample.
Let preprocess' : M split :=
  preprocess_as_prediction get_labels_for_prediction cutoff_for_prediction'
    _produce_features' train_test_split fit_resample.

Lemma split_and_oversample_state (F : matrix) (labels : list Z) (st : state) :
  snd (split_and_oversample train_test_split fit_resample F labels st) = st.
Proof.
  unfold split_and_oversample.
  destruct (train_test_split F labels) as [[[[a b] c] d]|e]; [| reflexivity].
  destruct (fit_resample a c) as [[a' c']|e]; reflexivity.
Qed.

(** X7. What a run without a cache file stores is what the next run
    reads: when the first run has produced and stored the features [F],
    a later run on the state it left loads [F] from the file, leaves the
    state as it is, and returns the split the first run returned, whatever
    the raw data and the feature engineering of the later run would
    give. *)
Theorem cache_round_trip (labels : list Z) (st st1 : state) (F : matrix) :
  get_labels_for_prediction = Ok labels ->
  pickle_file (snd st) = Absent ->
  produce_and_store_features cutoff_for_prediction _produce_features st = (Ok F, st1) ->
  cached_or_fresh_features cutoff_for_prediction' _produce_features' st1 = (Ok F, st1) /\
  preprocess' st1 = preprocess st.
Proof.
  intros HL HA HF.
  destruct (fresh_persists _ _ _ _ _ HF) as (keys & HK & HP).
  assert (Hhit : cached_or_fresh_features cutoff_for_prediction' _produce_features' st1 =
                 (Ok F, st1)).
  { destruct st1 as [[k1] w1]. cbn in HK, HP. subst k1.
    exact (acquire_hit cutoff_for_prediction' _produce_features'
             {| feature_keys := Some keys |} w1 F keys HP). }
  split; [exact Hhit |].
  unfold preprocess, preprocess'.
  rewrite (preprocess_after_features _ _ _ _ _ labels st1 st1 F HL Hhit).
  destruct st as [self w]. cbn [snd] in HA.
  rewrite (preprocess_after_features _ _ _ _ _ labels (self, w) st1 F HL).
  - reflexivity.
  - rewrite (acquire_absent _ _ self w HA). exact HF.
Qed.

(** X8. With a cache file that unpickles, the result of
    [preprocess_as_prediction] does not depend on the raw series or on the
    feature engineering, which are not consulted, and the file is left as
    it is. *)
Theorem cache_hit_ignores_raw_data
    (self : XGBoostPredict) (w : world) (F : matrix) (keys : list key) :
  pickle_file w = Pickled F keys ->
  preprocess' (self, w) = preprocess (self, w) /\
  snd (snd (preprocess (self, w))) = w.
Proof.
  intros HP.
  destruct (result_cases get_labels_for_prediction) as [[labels HL]|[e HL]].
  - unfold preprocess, preprocess'.
    rewrite (preprocess_after_features _ _ _ _ _ labels _ _ F HL
               (acquire_hit cutoff_for_prediction _produce_features self w F keys HP)).
    rewrite (preprocess_after_features _ _ _ _ _ labels _ _ F HL
               (acquire_hit cutoff_for_prediction' _produce_features' self w F keys HP)).
    split; [reflexivity |]. now rewrite split_and_oversample_state.
  - unfold preprocess, preprocess'.
    rewrite !(preprocess_labels_raise _ _ _ _ _ _ e HL). split; reflexivity.
Qed.

(** The file after the [except] block: untouched, or opened for writing
    and then filled with the new features, or left empty. *)
Lemma fresh_file (st : state) :
  let out := produce_and_store_features cutoff_for_prediction _produce_features st in
  write_error (snd (snd out)) = write_error (snd st) /\
  (pickle_file (snd (snd out)) = pickle_file (snd st) \/
   (write_error (snd st) = None /\
    ((exists F keys, fst out = Ok F /\ pickle_file (snd (snd out)) = Pickled F keys) \/
     (fst out = Raise AttributeError /\
      pickle_file (snd (snd out)) = empty_file)))).
Proof.
  unfold produce_and_store_features, bind, call, method, open_for_writing,
    get_feature_keys, pickle_dump, ret.
  destruct (result_cases cutoff_for_prediction) as [[data HC]|[e HC]];
    rewrite HC; cbn; [| auto].
  destruct (_produce_features (_bring_data_to_format data) (fst st))
    as [[F'|e] self']; cbn; [| auto].
  destruct (write_error (snd st)) eqn:W; cbn; [auto |].
  destruct (feature_keys self') as [keys|]; cbn.
  - split; [auto |]. right. split; [reflexivity |]. left. exists F', keys. auto.
  - split; [auto |]. right. split; [reflexivity |]. right. auto.
Qed.


End Cache.

Lemma cache_round_trip_witness :
  exists F st1,
    produce_and_store_features (Ok series_demo) keep_table no_cache = (Ok F, st1) /\
    cached_or_fresh_features (Raise AttributeError)
      (fun _ self => (Raise AttributeError, self)) st1 = (Ok F, st1) /\
    preprocess_as_prediction (Ok labels_demo) (Raise AttributeError)
      (fun _ self => (Raise AttributeError, self)) holdout_split repeat_minority st1 =
    preprocess_demo no_cache.
Proof.
  exists features_demo.
  exists ({| feature_keys := Some ["f0"%string; "f1"%string] |},
          {| pickle_file := Pickled features_demo ["f0"%string; "f1"%string];
             write_error := None |}).
  split; [reflexivity |].
  apply (cache_round_trip (Ok labels_demo) holdout_split repeat_minority
           (Ok series_demo) (Raise AttributeError) keep_table
           (fun _ self => (Raise AttributeError, self)) labels_demo no_cache);
    reflexivity.
Defined.

Lemma cache_hit_ignores_raw_data_witness :
  preprocess_as_prediction (Ok labels_demo) (Raise AttributeError)
    (fun _ self => (Raise AttributeError, self)) holdout_split repeat_minority
    (cached features_demo ["f0"%string; "f1"%string]) =
  preprocess_demo (cached features_demo ["f0"%string; "f1"%string]) /\
  snd (snd (preprocess_demo (cached features_demo ["f0"%string; "f1"%string]))) =
  snd (cached features_demo ["f0"%string; "f1"%string]).
Proof.
  exact (cache_hit_ignores_raw_data (Ok labels_demo) holdout_split repeat_minority
           (Ok series_demo) (Raise AttributeError) keep_table
           (fun _ self => (Raise AttributeError, self))
           fresh_object
           {| pickle_file := Pickled features_demo ["f0"%string; "f1"%string];
              write_error := None |}
           features_demo ["f0"%string; "f1"%string] eq_refl).
Defined.

End PreprocessingFacts.

(** ** The prediction script *)

Module PredictionScriptFacts.
Import PredictionScript.

Lemma to_int_not_nil (n : Z) :
  Z.to_int n <> Decimal.Pos Decimal.Nil /\ Z.to_int n <> Decimal.Neg Decimal.Nil.
Proof.
  destruct n as [|p|p]; cbn; split; try discriminate.
  - intros H. injection H as H. revert H. apply Unsigned.to_uint_nonnil.
  - intros H. injection H as H. revert H. apply Unsigned.to_uint_nonnil.
Qed.

Lemma str_injective (n m : Z) : str n = str m -> n = m.
Proof.
  unfold str. intros H.
  destruct (to_int_not_nil n) as [N1 N2]. destruct (to_int_not_nil m) as [M1 M2].
  pose proof (NilZero.isi (Z.to_int n) N1 N2) as En.
  pose proof (NilZero.isi (Z.to_int m) M1 M2) as Em.
  rewrite H in En. rewrite En in Em. injection Em as Em.
  rewrite <- (of_to n), <- (of_to m). now rewrite Em.
Qed.

Lemma append_cancel_l (p s t : string) : (p ++ s = p ++ t)%string -> s = t.
Proof.
  induction p as [|c p IH]; cbn; [auto |]. intros H. injection H as H. auto.
Qed.

Lemma append_length (s t : string) :
  String.length (s ++ t) = (String.length s + String.length t)%nat.
Proof. induction s as [|c s IH]; cbn; [reflexivity | now rewrite IH]. Qed.

Lemma append_cancel_r (s t q : string) : (s ++ q = t ++ q)%string -> s = t.
Proof.
  revert t. induction s as [|c s IH]; intros [|d t] H; cbn in H.
  - reflexivity.
  - apply (f_equal String.length) in H. cbn in H. rewrite append_length in H. lia.
  - apply (f_equal String.length) in H. cbn in H. rewrite append_length in H. lia.
  - injection H as -> H. f_equal. now apply IH.
Qed.

(** X16. The script chooses the cache file by the cut-off point alone:
    for one output path, two command lines name the same file exactly when
    their cut-off points are equal, whatever their definitions, input
    paths and prediction intervals are. *)
Theorem cache_file_chosen_by_cutoff_only (args args' : Args) :
  output_path args = output_path args' ->
  (pickle_path args = pickle_path args' <-> cutoff_point args = cutoff_point args').
Proof.
  intros HO. unfold pickle_path. rewrite HO. split.
  - intros H. apply append_cancel_l in H. apply append_cancel_l in H.
    apply append_cancel_r in H. now apply str_injective.
  - intros ->. reflexivity.
Qed.

Lemma cache_file_chosen_by_cutoff_only_witness :
  pickle_path (args_demo "CP07" 5) = pickle_path (args_demo "U65" 10) <-> 60%Z = 60%Z.
Proof.
  exact (cache_file_chosen_by_cutoff_only (args_demo "CP07" 5) (args_demo "U65" 10) eq_refl).
Defined.

End PredictionScriptFacts.

(** ** The two evaluations of [RandomForestClassification] *)

Module EvaluationFacts.
Import Histogram Evaluation.
Import Prediction (result, Ok, Raise, exn, AttributeError, OtherError).

Section Collaborators.

Variable score : Type.
Variable forest : Type.
Variable DataManager_new : option string -> result DataManager.
Variables f1_score roc_auc_score accuracy_score : metric_function score.
Variable forest_fit : Z -> list (list nat) -> list Z -> result forest.
Variable forest_predict : forest -> list (list nat) -> result (list Z).
Variable splitter : Type.
Variable StratifiedKFold : Z -> result splitter.
Variables np_mean np_std : list score -> score.
Variable write_output_ok : Output score -> result unit.
Variable cross_validate :
  Pipeline -> tensor -> list Z -> splitter -> list (string * metric_function score) ->
  result (list (string * list score)).
Variable plot : list score -> list score -> result unit.

Let RFC : Type := RandomForestClassification score.

Let init := __init__ DataManager_new f1_score roc_auc_score accuracy_score.
Let eval_real := evaluate_real forest_fit forest_predict write_output_ok.
Let eval_sim :=
  evaluate_simulated StratifiedKFold np_mean np_std write_output_ok cross_validate plot.
Let scores_real : RFC -> _ := real_scores forest_fit forest_predict.
Let scores_sim : RFC -> _ :=
  simulated_scores StratifiedKFold np_mean np_std cross_validate plot.
Let three : RFC -> _ := write_three write_output_ok.

Lemma evaluate_real_eq (self : RFC) (s : sink score) :
  eval_real self s =
  match scores_real self with
  | Raise e => (Raise e, s)
  | Ok (_, _, scores, (score0, score1, score2)) =>
      match three self real [score0] [score1] [score2] s with
      | (Ok _, s') => (Ok scores, s')
      | (Raise e, s') => (Raise e, s')
      end
  end.
Proof.
  unfold eval_real, scores_real, three, evaluate_real, real_scores, write_three.
  unfold bind, call, ret, rbind.
  destruct (_get_raw_data self true); [| reflexivity].
  destruct (_get_labels self true); [| reflexivity].
  destruct (pipeline_fit _ _ _ _); [| reflexivity].
  destruct (_get_raw_data self false); [| reflexivity].
  destruct (_get_labels self false); [| reflexivity].
  destruct (pipeline_predict _ _ _ _); [| reflexivity].
  destruct (mapM _ _) as [scores|]; [| reflexivity].
  destruct (log_real_scores self scores); [| reflexivity].
  destruct (getitem scores 0); [| reflexivity].
  destruct (getitem scores 1); [| reflexivity].
  destruct (getitem scores 2); [| reflexivity].
  destruct (write_output _ _ s) as [[[]|] s1]; [| reflexivity].
  destruct (write_output _ _ s1) as [[[]|] s2]; [| reflexivity].
  destruct (write_output _ _ s2) as [[[]|] s3]; reflexivity.
Qed.

Lemma evaluate_simulated_eq (self : RFC) (with_plot : bool) (s : sink score) :
  eval_sim self with_plot s =
  match scores_sim self with_plot with
  | Raise e => (Raise e, s)
  | Ok (scores, (score0, score1, score2)) =>
      match three self simulated score0 score1 score2 s with
      | (Ok _, s') => (Ok (map np_mean scores, map np_std scores), s')
      | (Raise e, s') => (Raise e, s')
      end
  end.
Proof.
  unfold eval_sim, scores_sim, three, evaluate_simulated, simulated_scores, write_three.
  unfold bind, call, ret, rbind.
  destruct (_get_raw_data self true); [| reflexivity].
  destruct (_get_labels self true); [| reflexivity].
  destruct (StratifiedKFold _); [| reflexivity].
  destruct (cross_validate _ _ _ _ _) as [d|]; [| reflexivity].
  destruct (mapM _ _) as [scores|]; [| reflexivity].
  destruct (log_scores _ _ _); [| reflexivity].
  destruct with_plot.
  - destruct (plot _ _); [| reflexivity].
    destruct (getitem scores 0); [| reflexivity].
    destruct (getitem scores 1); [| reflexivity].
    destruct (getitem scores 2); [| reflexivity].
    destruct (write_output _ _ s) as [[[]|] s1]; [| reflexivity].
    destruct (write_output _ _ s1) as [[[]|] s2]; [| reflexivity].
    destruct (write_output _ _ s2) as [[[]|] s3]; reflexivity.
  - destruct (getitem scores 0); [| reflexivity].
    destruct (getitem scores 1); [| reflexivity].
    destruct (getitem scores 2); [| reflexivity].
    destruct (write_output _ _ s) as [[[]|] s1]; [| reflexivity].
    destruct (write_output _ _ s1) as [[[]|] s2]; [| reflexivity].
    destruct (write_output _ _ s2) as [[[]|] s3]; reflexivity.
Qed.

Lemma init_fields (d : DatapointKey) (path_train : option string)
    (nb ne cv : Z) (path_test : option string) (self : RFC) :
  init d path_train nb ne cv path_test = Ok self ->
  metrics self = [f1_score; roc_auc_score; accuracy_score] /\
  metric_txt self = ["F1"%string; "ROCAUC"%string; "Accuracy"%string] /\
  definition self = d /\ rf_n_bins self = nb /\ cv_folds self = cv /\
  (truthy path_test = false -> data_manager_test self = None).
Proof.
  unfold init, __init__.
  destruct (DataManager_new path_train) as [mt|e]; [| discriminate].
  destruct (truthy path_test).
  - destruct (DataManager_new path_test) as [ms|e]; [| discriminate].
    intros H. injection H as <-. cbn. repeat split. discriminate.
  - intros H. injection H as <-. cbn. repeat split.
Qed.

Lemma init_pipeline (d : DatapointKey) (path_train : option string)
    (nb ne cv : Z) (path_test : option string) (self : RFC) :
  init d path_train nb ne cv path_test = Ok self ->
  classifier self = ne /\ rf_n_bins self = nb.
Proof.
  unfold init, __init__.
  destruct (DataManager_new path_train); [| discriminate].
  destruct (truthy path_test); [destruct (DataManager_new path_test) |];
    try discriminate; intros E; injection E as <-; auto.
Qed.

Lemma three_ok_inv (self : RFC) (dt : DataType) (a b c : list score)
    (s s' : sink score) (u : unit) :
  three self dt a b c s = (Ok u, s') ->
  s' = s ++ [output_for self dt f1 a; output_for self dt auroc b;
             output_for self dt accuracy c].
Proof.
  unfold three, write_three, bind, write_output.
  destruct (write_output_ok (output_for self dt f1 a)); [| discriminate].
  destruct (write_output_ok (output_for self dt auroc b)); [| discriminate].
  destruct (write_output_ok (output_for self dt accuracy c)); [| discriminate].
  intros H. injection H as _ <-. now rewrite <- !app_assoc.
Qed.

Lemma three_total (self : RFC) (dt : DataType) (a b c : list score) (s : sink score) :
  (forall o, write_output_ok o = Ok tt) ->
  three self dt a b c s =
  (Ok tt, s ++ [output_for self dt f1 a; output_for self dt auroc b;
                output_for self dt accuracy c]).
Proof.
  intros H. unfold three, write_three, bind, write_output.
  rewrite !H. now rewrite <- !app_assoc.
Qed.

Lemma rbind_ok_inv {A B : Type} (r : result A) (k : A -> result B) (b : B) :
  rbind r k = Ok b -> exists a, r = Ok a /\ k a = Ok b.
Proof. destruct r; simpl; [eauto | discriminate]. Qed.

Lemma getitem_three {A : Type} (x y z : A) (a b c : A) :
  getitem [x; y; z] 0 = Ok a -> getitem [x; y; z] 1 = Ok b ->
  getitem [x; y; z] 2 = Ok c -> a = x /\ b = y /\ c = z.
Proof. cbn. intros H0 H1 H2. injection H0. injection H1. injection H2. auto. Qed.

Lemma mapM_three {A B : Type} (f : A -> result B) (x y z : A) (l : list B) :
  mapM f [x; y; z] = Ok l ->
  exists a b c, f x = Ok a /\ f y = Ok b /\ f z = Ok c /\ l = [a; b; c].
Proof.
  cbn. destruct (f x) as [a|]; [| discriminate].
  destruct (f y) as [b|]; [| discriminate].
  destruct (f z) as [c|]; [| discriminate].
  intros H. injection H as <-. eauto 8.
Qed.


(** X11. On an object built by [__init__], a call of
    [evaluate_simulated] that returns has cross-validated the pipeline on
    the training data with the three scorers under the keys [F1],
    [ROCAUC], [Accuracy]; it returns the means and the standard deviations
    of the fold scores found under [test_F1], [test_ROCAUC],
    [test_Accuracy], and has written exactly three records, which hold the
    fold scores themselves, not the means. *)
Theorem evaluate_simulated_records
    (d : DatapointKey) (path_train : option string) (nb ne cv : Z)
    (path_test : option string) (self : RFC) (with_plot : bool)
    (s s' : sink score) (means stds : list score) :
  init d path_train nb ne cv path_test = Ok self ->
  eval_sim self with_plot s = (Ok (means, stds), s') ->
  exists raw labels folds scores_dict folds0 folds1 folds2,
    _get_raw_data self true = Ok raw /\
    _get_labels self true = Ok labels /\
    StratifiedKFold cv = Ok folds /\
    cross_validate {| feature_extraction := {| n_bins := nb |}; model := ne |}
      raw labels folds
      [("F1"%string, f1_score); ("ROCAUC"%string, roc_auc_score);
       ("Accuracy"%string, accuracy_score)] = Ok scores_dict /\
    dict_getitem scores_dict "test_F1" = Ok folds0 /\
    dict_getitem scores_dict "test_ROCAUC" = Ok folds1 /\
    dict_getitem scores_dict "test_Accuracy" = Ok folds2 /\
    means = [np_mean folds0; np_mean folds1; np_mean folds2] /\
    stds = [np_std folds0; np_std folds1; np_std folds2] /\
    s' = s ++ [output_for self simulated f1 folds0;
               output_for self simulated auroc folds1;
               output_for self simulated accuracy folds2].
Proof.
  intros Hinit H.
  destruct (init_pipeline _ _ _ _ _ _ _ Hinit) as [Hne Hnb].
  destruct (init_fields _ _ _ _ _ _ _ Hinit) as (Hm & Htxt & _ & _ & Hcv & _).
  rewrite evaluate_simulated_eq in H.
  destruct (scores_sim self with_plot) as [[sc [[a b] c]]|e] eqn:HS; [| discriminate].
  destruct (three self simulated a b c s) as [[u|e] s1] eqn:HT; [| discriminate].
  injection H as <- <- <-.
  apply three_ok_inv in HT.
  unfold scores_sim, simulated_scores in HS.
  repeat (apply rbind_ok_inv in HS; destruct HS as (? & ? & HS)).
  injection HS as <- <- <- <-.
  unfold _get_pipeline in *. rewrite Hm, Htxt, Hcv, Hne, Hnb in *.
  match goal with
  | Hmap : mapM _ _ = Ok _ |- _ =>
      apply mapM_three in Hmap; destruct Hmap as (m0 & m1 & m2 & F0 & F1 & F2 & ->)
  end.
  match goal with
  | G0 : getitem _ 0 = Ok _, G1 : getitem _ 1 = Ok _, G2 : getitem _ 2 = Ok _ |- _ =>
      destruct (getitem_three _ _ _ _ _ _ G0 G1 G2) as (-> & -> & ->)
  end.
  do 7 eexists. repeat split; eauto.
Qed.



(** X14. An exception raised inside [cross_validate] is not caught:
    [evaluate_simulated] raises the same exception and writes no
    record. *)
Theorem cross_validate_error_surfaces (self : RFC) (with_plot : bool)
    (s : sink score) (raw : tensor) (labels : list Z) (folds : splitter) (e : exn) :
  _get_raw_data self true = Ok raw ->
  _get_labels self true = Ok labels ->
  StratifiedKFold (cv_folds self) = Ok folds ->
  cross_validate (_get_pipeline self) raw labels folds
    (combine (metric_txt self) (metrics self)) = Raise e ->
  eval_sim self with_plot s = (Raise e, s).
Proof.
  intros H1 H2 H3 H4. rewrite evaluate_simulated_eq.
  unfold scores_sim, simulated_scores. rewrite H1, H2. cbn [rbind].
  rewrite H3. cbn [rbind]. rewrite H4. reflexivity.
Qed.

Let run_main :=
  main DataManager_new f1_score roc_auc_score accuracy_score forest_fit forest_predict
    StratifiedKFold np_mean np_std write_output_ok cross_validate plot.


End Collaborators.

(** *** Concrete runs *)

Lemma init_demo_object (with_test : bool) :
  init_demo (if with_test then Some "test.h5"%string else None) =
  Ok (object_demo with_test).
Proof. destruct with_test; reflexivity. Defined.

Example evaluate_real_example :
  evaluate_real remember_labels predict_first writer_demo (object_demo true) [] =
  (Ok [1 # 2; 3 # 4; 1 # 2],
   [output_for (object_demo true) real f1 [1 # 2];
    output_for (object_demo true) real auroc [3 # 4];
    output_for (object_demo true) real accuracy [1 # 2]]).
Proof. vm_compute. reflexivity. Qed.


Lemma evaluate_simulated_records_witness :
  exists raw labels folds scores_dict folds0 folds1 folds2,
    _get_raw_data (object_demo false) true = Ok raw /\
    _get_labels (object_demo false) true = Ok labels /\
    folds_demo 5 = Ok folds /\
    cross_validate_demo {| feature_extraction := {| n_bins := 20 |}; model := 1000 |}
      raw labels folds
      [("F1"%string, half); ("ROCAUC"%string, three_quarters);
       ("Accuracy"%string, agreement)] = Ok scores_dict /\
    dict_getitem scores_dict "test_F1" = Ok folds0 /\
    dict_getitem scores_dict "test_ROCAUC" = Ok folds1 /\
    dict_getitem scores_dict "test_Accuracy" = Ok folds2 /\
    [mean_demo [1 # 2; 3 # 4]; mean_demo [1 # 2; 3 # 4]; mean_demo [1 # 2; 3 # 4]] =
      [mean_demo folds0; mean_demo folds1; mean_demo folds2] /\
    [spread_demo [1 # 2; 3 # 4]; spread_demo [1 # 2; 3 # 4];
     spread_demo [1 # 2; 3 # 4]] =
      [spread_demo folds0; spread_demo folds1; spread_demo folds2] /\
    [output_for (object_demo false) simulated f1 [1 # 2; 3 # 4];
     output_for (object_demo false) simulated auroc [1 # 2; 3 # 4];
     output_for (object_demo false) simulated accuracy [1 # 2; 3 # 4]] =
    [] ++ [output_for (object_demo false) simulated f1 folds0;
           output_for (object_demo false) simulated auroc folds1;
           output_for (object_demo false) simulated accuracy folds2].
Proof.
  apply (evaluate_simulated_records Q DataManager_demo half three_quarters agreement
           Z folds_demo mean_demo spread_demo writer_demo cross_validate_demo plot_demo
           CP07 (Some "train.h5"%string) 20 1000 5 None
           (object_demo false) false []).
  - exact (init_demo_object false).
  - reflexivity.
Defined.



Lemma cross_validate_error_surfaces_witness :
  evaluate_simulated folds_demo mean_demo spread_demo writer_demo
    cross_validate_raises plot_demo (object_demo false) true [] =
  (Raise (OtherError "ValueError"%string), []).
Proof.
  apply (cross_validate_error_surfaces Q Z folds_demo mean_demo spread_demo
           writer_demo cross_validate_raises plot_demo (object_demo false) true []
           HistogramSpec.X_demo [1; 0]%Z 5%Z);
    reflexivity.
Defined.


End EvaluationFacts.

(** ** The order of binary64 *)

Module Binary64Facts.
Import Binary64.

Lemma compare_cont_Eq (m1 m2 : positive) :
  Pos.compare_cont Eq m1 m2 = (Zpos m1 ?= Zpos m2)%Z.
Proof. reflexivity. Qed.

Lemma leb_key (x y : float64) :
  leb x y = true <-> isnan x = false /\ isnan y = false /\ key_le (key x) (key y).
Proof.
  unfold leb, SFleb, SFcompare, key_le.
  destruct x as [sx|sx| |sx mx ex], y as [sy|sy| |sy my ey]; cbn [key isnan];
    try (destruct sx); try (destruct sy);
    try (split; [intros H; try discriminate H; repeat split; lia
                | intros (H1 & H2 & H3); try discriminate H1; try discriminate H2;
                  try reflexivity; lia]).
  - rewrite compare_cont_Eq.
    destruct (Z.compare_spec ex ey) as [Ce|Ce|Ce], (Z.compare_spec (Zpos mx) (Zpos my)) as [Cm|Cm|Cm];
      cbn [CompOpp]; split;
      try (intros H; try discriminate H; repeat split; lia);
      intros (_ & _ & H); try reflexivity; lia.
  - rewrite compare_cont_Eq.
    destruct (Z.compare_spec ex ey) as [Ce|Ce|Ce], (Z.compare_spec (Zpos mx) (Zpos my)) as [Cm|Cm|Cm];
      split;
      try (intros H; try discriminate H; repeat split; lia);
      intros (_ & _ & H); try reflexivity; lia.
Qed.

Lemma eqb_key (x y : float64) :
  eqb x y = true <-> isnan x = false /\ isnan y = false /\ key x = key y.
Proof.
  unfold eqb, SFeqb, SFcompare.
  destruct x as [sx|sx| |sx mx ex], y as [sy|sy| |sy my ey]; cbn [key isnan];
    try (destruct sx); try (destruct sy);
    try (split; [intros H; try discriminate H; repeat split; reflexivity
                | intros (H1 & H2 & H3); try discriminate H1; try discriminate H2;
                  try discriminate H3; try reflexivity]).
  - rewrite compare_cont_Eq.
    destruct (Z.compare_spec ex ey) as [Ce|Ce|Ce], (Z.compare_spec (Zpos mx) (Zpos my)) as [Cm|Cm|Cm];
      cbn [CompOpp]; split;
      try (intros H; try discriminate H; repeat split; congruence);
      intros (_ & _ & H); try reflexivity; injection H; intros; lia.
  - rewrite compare_cont_Eq.
    destruct (Z.compare_spec ex ey) as [Ce|Ce|Ce], (Z.compare_spec (Zpos mx) (Zpos my)) as [Cm|Cm|Cm];
      split;
      try (intros H; try discriminate H; repeat split; congruence);
      intros (_ & _ & H); try reflexivity; injection H; intros; lia.
Qed.

Lemma ltb_key (x y : float64) :
  ltb x y = true <->
  isnan x = false /\ isnan y = false /\ key_le (key x) (key y) /\ key x <> key y.
Proof.
  unfold ltb, SFltb, SFcompare, key_le.
  destruct x as [sx|sx| |sx mx ex], y as [sy|sy| |sy my ey]; cbn [key isnan];
    try (destruct sx); try (destruct sy);
    try (split; [intros H; try discriminate H; repeat split; try lia; discriminate
                | intros (H1 & H2 & H3 & H4); try discriminate H1; try discriminate H2;
                  try reflexivity; try lia; try (now elim H4)]).
  - rewrite compare_cont_Eq.
    destruct (Z.compare_spec ex ey) as [Ce|Ce|Ce], (Z.compare_spec (Zpos mx) (Zpos my)) as [Cm|Cm|Cm];
      cbn [CompOpp]; split;
      try (intros H; try discriminate H; repeat split; try lia;
           intros E; injection E; intros; lia);
      intros (_ & _ & H & H'); try reflexivity; try lia;
      elim H'; f_equal; try f_equal; lia.
  - rewrite compare_cont_Eq.
    destruct (Z.compare_spec ex ey) as [Ce|Ce|Ce], (Z.compare_spec (Zpos mx) (Zpos my)) as [Cm|Cm|Cm];
      split;
      try (intros H; try discriminate H; repeat split; try lia;
           intros E; injection E; intros; lia);
      intros (_ & _ & H & H'); try reflexivity; try lia;
      elim H'; f_equal; try f_equal; lia.
Qed.

Lemma key_le_refl (a : Z * Z * Z) : key_le a a.
Proof. destruct a as [[a1 a2] a3]. unfold key_le. lia. Qed.

Lemma key_le_trans (a b c : Z * Z * Z) : key_le a b -> key_le b c -> key_le a c.
Proof.
  destruct a as [[a1 a2] a3], b as [[b1 b2] b3], c as [[c1 c2] c3].
  unfold key_le. lia.
Qed.

Lemma key_le_total (a b : Z * Z * Z) : key_le a b \/ key_le b a.
Proof.
  destruct a as [[a1 a2] a3], b as [[b1 b2] b3]. unfold key_le. lia.
Qed.

Lemma key_le_antisym (a b : Z * Z * Z) : key_le a b -> key_le b a -> a = b.
Proof.
  destruct a as [[a1 a2] a3], b as [[b1 b2] b3]. unfold key_le.
  intros H1 H2. f_equal; [f_equal |]; lia.
Qed.

Lemma leb_not_nan (x y : float64) :
  leb x y = true -> isnan x = false /\ isnan y = false.
Proof. intros H. apply leb_key in H. tauto. Qed.

Lemma leb_refl (x : float64) : isnan x = false -> leb x x = true.
Proof. intros H. apply leb_key. auto using key_le_refl. Qed.

Lemma leb_trans (x y z : float64) :
  leb x y = true -> leb y z = true -> leb x z = true.
Proof.
  intros H1 H2. apply leb_key in H1, H2. apply leb_key.
  destruct H1 as (A & B & C), H2 as (_ & E & F).
  eauto using key_le_trans.
Qed.

Lemma leb_total (x y : float64) :
  isnan x = false -> isnan y = false -> leb x y = true \/ leb y x = true.
Proof.
  intros Hx Hy. destruct (key_le_total (key x) (key y)); [left | right];
    apply leb_key; auto.
Qed.

Lemma leb_antisym (x y : float64) :
  leb x y = true -> leb y x = true -> eqb x y = true.
Proof.
  intros H1 H2. apply leb_key in H1, H2. apply eqb_key.
  destruct H1 as (A & B & C), H2 as (_ & _ & F).
  auto using key_le_antisym.
Qed.

Lemma eqb_leb (x y : float64) :
  eqb x y = true -> leb x y = true /\ leb y x = true.
Proof.
  intros H. apply eqb_key in H. destruct H as (A & B & C).
  split; apply leb_key; rewrite C || rewrite <- C; auto using key_le_refl.
Qed.

(** Values that compare equal are the same value, or two zeros. *)
Lemma eqb_same (x y : float64) :
  eqb x y = true ->
  x = y \/ exists s s', x = S754_zero s /\ y = S754_zero s'.
Proof.
  intros H. apply eqb_key in H. destruct H as (A & B & C).
  destruct x as [sx|sx| |sx mx ex], y as [sy|sy| |sy my ey];
    try discriminate A; try discriminate B;
    try (right; eauto; fail);
    try destruct sx; try destruct sy; cbn in C; try discriminate C;
    try (left; reflexivity);
    injection C; intros; left; f_equal; lia.
Qed.

(** Comparisons do not see the sign of a zero. *)
Lemma leb_zero_l (s s' : bool) (y : float64) :
  leb (S754_zero s) y = leb (S754_zero s') y.
Proof. destruct y as [sy|sy| |sy my ey]; reflexivity. Qed.

Lemma leb_zero_r (s s' : bool) (x : float64) :
  leb x (S754_zero s) = leb x (S754_zero s').
Proof. destruct x as [sx|sx| |sx mx ex]; reflexivity. Qed.

Lemma ltb_zero_l (s s' : bool) (y : float64) :
  ltb (S754_zero s) y = ltb (S754_zero s') y.
Proof. destruct y as [sy|sy| |sy my ey]; reflexivity. Qed.

(** Between two finite bounds there are finite values only. *)
Lemma between_finite (lo x hi : float64) :
  isfinite lo = true -> isfinite hi = true ->
  leb lo x = true -> leb x hi = true -> isfinite x = true.
Proof.
  intros Hlo Hhi H1 H2. apply leb_key in H1, H2.
  destruct H1 as (_ & Hx & K1), H2 as (_ & _ & K2).
  destruct x as [sx|[|]| |sx mx ex]; try reflexivity; try discriminate Hx;
    destruct lo as [sl|sl| |[|] ml el]; try discriminate Hlo;
    destruct hi as [sh|sh| |[|] mh eh]; try discriminate Hhi;
    cbn in K1, K2; lia.
Qed.

End Binary64Facts.

Module Rounding.
Import Binary64 Binary64Facts.
Local Open Scope Z_scope.

(** *** Digits *)

Lemma digits2_size (p : positive) : digits2_pos p = Pos.size p.
Proof. induction p; cbn; congruence. Qed.

Lemma Zdigits2_log2 (z : Z) : 0 < z -> Zdigits2 z = Z.log2 z + 1.
Proof.
  destruct z as [|p|p]; try lia. intros _. cbn [Zdigits2].
  rewrite digits2_size. destruct p; cbn; lia.
Qed.

Lemma Zdigits2_nonneg (z : Z) : 0 <= Zdigits2 z.
Proof. destruct z; cbn; lia. Qed.

Lemma Zdigits2_lt_pow (z k : Z) : 0 <= z -> 0 <= k -> (z < 2 ^ k <-> Zdigits2 z <= k).
Proof.
  intros Hz Hk. destruct (Z.eq_dec z 0) as [->|Hn].
  - cbn [Zdigits2]. split; [lia | intros _; apply Z.pow_pos_nonneg; lia].
  - rewrite Zdigits2_log2 by lia.
    destruct (Z.eq_dec k 0) as [->|Hk0].
    + pose proof (Z.log2_nonneg z). split; cbn; lia.
    + rewrite Z.log2_lt_pow2 by lia. lia.
Qed.

Lemma Zdigits2_shift (z k : Z) : 0 < z -> 0 <= k -> Zdigits2 (z * 2 ^ k) = Zdigits2 z + k.
Proof.
  intros Hz Hk.
  assert (Hp : 0 < z * 2 ^ k)
    by (apply Z.mul_pos_pos; [lia | apply Z.pow_pos_nonneg; lia]).
  rewrite (Zdigits2_log2 _ Hp), (Zdigits2_log2 _ Hz).
  rewrite Z.log2_mul_pow2 by lia. lia.
Qed.

Lemma Zdigits2_mono (a b : Z) : 0 < a -> a <= b -> Zdigits2 a <= Zdigits2 b.
Proof.
  intros Ha Hab. rewrite !Zdigits2_log2 by lia.
  pose proof (Z.log2_le_mono a b Hab). lia.
Qed.

Lemma fexp_eq (e : Z) : fexp prec emax e = Z.max (e - 53) (-1074).
Proof. reflexivity. Qed.

(** *** Shifts *)

Lemma iter_pos_nat {A : Type} (f : A -> A) (p : positive) :
  forall x, iter_pos f p x = Nat.iter (Pos.to_nat p) f x.
Proof.
  assert (Hadd : forall a b x, Nat.iter (a + b) f x = Nat.iter a f (Nat.iter b f x)).
  { intros a b x. apply Nat.iter_add. }
  induction p as [p IH|p IH|]; intros x; cbn [iter_pos].
  - rewrite !IH. rewrite Pos2Nat.inj_xI.
    replace (S (2 * Pos.to_nat p))%nat with (Pos.to_nat p + (Pos.to_nat p + 1))%nat by lia.
    rewrite !Hadd. reflexivity.
  - rewrite !IH. rewrite Pos2Nat.inj_xO.
    replace (2 * Pos.to_nat p)%nat with (Pos.to_nat p + Pos.to_nat p)%nat by lia.
    rewrite Hadd. reflexivity.
  - reflexivity.
Qed.

Lemma shr_1_spec (m : Z) (r s : bool) :
  0 <= m ->
  shr_m (shr_1 (Build_shr_record m r s)) = m / 2 /\
  shr_r (shr_1 (Build_shr_record m r s)) = Z.odd m /\
  shr_s (shr_1 (Build_shr_record m r s)) = (r || s)%bool.
Proof.
  intros Hm. destruct m as [|[p|p|]|p]; cbn [shr_1 shr_m shr_r shr_s]; try lia.
  - repeat split. 
  - repeat split. rewrite Pos2Z.inj_xI. 
    replace (2 * Zpos p + 1) with (1 + Zpos p * 2) by lia.
    rewrite Z.div_add by lia. reflexivity.
  - repeat split. rewrite Pos2Z.inj_xO.
    replace (2 * Zpos p) with (Zpos p * 2) by lia.
    now rewrite Z.div_mul by lia.
  - repeat split.
Qed.

Lemma iter_shr_spec (k : nat) (m : Z) :
  0 <= m ->
  let out := Nat.iter k shr_1 (Build_shr_record m false false) in
  shr_m out = m / 2 ^ Z.of_nat k /\
  (m mod 2 ^ Z.of_nat k = 0 -> shr_r out = false /\ shr_s out = false).
Proof.
  intros Hm. induction k as [|k IH]; cbn zeta.
  - cbn [Nat.iter nat_rect shr_m shr_r shr_s]. change (2 ^ Z.of_nat 0) with 1.
    rewrite Z.div_1_r. auto.
  - rewrite Nat.iter_succ. cbv zeta in IH. destruct IH as [IHm IHf].
    destruct (Nat.iter k shr_1 (Build_shr_record m false false)) as [mk rk sk] eqn:E.
    cbn [shr_m shr_r shr_s] in IHm, IHf.
    assert (Hk : 0 < 2 ^ Z.of_nat k) by (apply Z.pow_pos_nonneg; lia).
    assert (Hmk : 0 <= mk) by (subst mk; apply Z.div_pos; lia).
    destruct (shr_1_spec mk rk sk Hmk) as (S1 & S2 & S3).
    rewrite S1, S2, S3.
    rewrite Nat2Z.inj_succ, Z.pow_succ_r by lia.
    split.
    + subst mk. rewrite Z.div_div by lia. f_equal. lia.
    + intros Hmod.
      assert (Hdiv : m = 2 * 2 ^ Z.of_nat k * (m / (2 * 2 ^ Z.of_nat k))).
      { apply Z.div_exact; lia. }
      set (q := m / (2 * 2 ^ Z.of_nat k)) in *.
      assert (Hmod' : m mod 2 ^ Z.of_nat k = 0).
      { rewrite Hdiv. replace (2 * 2 ^ Z.of_nat k * q) with (2 * q * 2 ^ Z.of_nat k) by lia.
        apply Z.mod_mul. lia. }
      destruct (IHf Hmod') as [-> ->]. split; [| reflexivity].
      assert (Emk : mk = 2 * q).
      { subst mk. rewrite Hdiv.
        replace (2 * 2 ^ Z.of_nat k * q) with (2 * q * 2 ^ Z.of_nat k) by lia.
        apply Z.div_mul. lia. }
      rewrite Emk. rewrite Z.odd_mul. reflexivity.
Qed.

(** [shr] on an exact record: the quotient, with both flags off when the
    division is exact. *)
Lemma shr_spec (m e n : Z) :
  0 <= m -> 0 <= n ->
  let out := shr (Build_shr_record m false false) e n in
  snd out = e + n /\
  shr_m (fst out) = m / 2 ^ n /\
  (m mod 2 ^ n = 0 -> shr_r (fst out) = false /\ shr_s (fst out) = false).
Proof.
  intros Hm Hn. destruct n as [|p|p]; try lia; cbn zeta; cbn [shr fst snd].
  - cbn [shr_m shr_r shr_s]. rewrite Z.add_0_r, Z.pow_0_r, Z.div_1_r. auto.
  - rewrite iter_pos_nat.
    pose proof (iter_shr_spec (Pos.to_nat p) m Hm) as H. cbv zeta in H.
    rewrite positive_nat_Z in H. tauto.
Qed.

Lemma round_nearest_even_spec (m : Z) (r s : bool) :
  let m' := round_nearest_even m (loc_of_shr_record (Build_shr_record m r s)) in
  m <= m' <= m + 1 /\ (r = false -> s = false -> m' = m).
Proof.
  destruct r, s; cbn; try destruct (Z.even m); split; try lia; intros; try lia;
    discriminate.
Qed.


(** *** One rounding *)

Lemma shl_align_spec (m : positive) (e e' : Z) :
  (e' < e ->
   snd (shl_align m e e') = e' /\
   Zpos (fst (shl_align m e e')) = Zpos m * 2 ^ (e - e')) /\
  (e <= e' -> shl_align m e e' = (m, e)).
Proof.
  unfold shl_align. destruct (e' - e) as [|d|d] eqn:E; split; intros H; try lia;
    try reflexivity.
  cbn [fst snd]. split; [reflexivity |].
  change (Pos.iter xO m d) with (shift_pos d m).
  rewrite shift_pos_correct, Z.pow_pos_fold.
  replace (e - e') with (Zpos d) by lia. lia.
Qed.

Lemma binary_round_aux_spec (s : bool) (mz : positive) (e0 : Z) :
  let t := fexp prec emax (Zdigits2 (Zpos mz) + e0) in
  e0 <= t ->
  exists m,
    Zpos mz / 2 ^ (t - e0) <= m <= Zpos mz / 2 ^ (t - e0) + 1 /\
    (Zpos mz mod 2 ^ (t - e0) = 0 -> m = Zpos mz / 2 ^ (t - e0)) /\
    m <= 2 ^ 53 /\
    binary_round_aux prec emax s (Zpos mz) e0 loc_Exact = settled s m t.
Proof.
  intros t Ht.
  assert (Ht' : t = Z.max (Zdigits2 (Zpos mz) + e0 - 53) (-1074)) by reflexivity.
  unfold binary_round_aux, shr_fexp. fold t.
  change (shr_record_of_loc (Zpos mz) loc_Exact)
    with (Build_shr_record (Zpos mz) false false).
  destruct (shr_spec (Zpos mz) e0 (t - e0) ltac:(lia) ltac:(lia)) as (S1 & S2 & S3).
  destruct (shr (Build_shr_record (Zpos mz) false false) e0 (t - e0))
    as [[m' r' s'] e'] eqn:E1.
  cbn [fst snd shr_m shr_r shr_s] in S1, S2, S3. cbn [shr_m].
  assert (Ee : e' = t) by lia. clear S1 E1. subst e'.
  destruct (round_nearest_even_spec m' r' s') as [R1 R2]. cbv zeta in R1, R2.
  set (m := round_nearest_even m' (loc_of_shr_record (Build_shr_record m' r' s'))) in *.
  assert (Hp : 0 < 2 ^ (t - e0)) by (apply Z.pow_pos_nonneg; lia).
  assert (Hm0 : 0 <= m') by (subst m'; apply Z.div_pos; lia).
  assert (Hm53 : m' < 2 ^ 53).
  { subst m'. apply Z.div_lt_upper_bound; [lia |].
    rewrite <- Z.pow_add_r by lia.
    apply Zdigits2_lt_pow; lia. }
  exists m. split; [subst m'; lia |]. split.
  { intros Hmod. destruct (S3 Hmod) as [-> ->]. subst m'. now apply R2. }
  split; [lia |].
  change (shr_record_of_loc m loc_Exact) with (Build_shr_record m false false).
  unfold settled. destruct (Z.eqb_spec m (2 ^ 53)) as [E|E].
  - rewrite E.
    replace (fexp prec emax (Zdigits2 (2 ^ 53) + t) - t) with 1.
    2:{ rewrite fexp_eq. change (Zdigits2 (2 ^ 53)) with 54. lia. }
    cbn [shr iter_pos shr_1 shr_m].
    change (emax - prec) with 971. reflexivity.
  - assert (Hd : Zdigits2 m <= 53) by (apply Zdigits2_lt_pow; lia).
    assert (Hn : fexp prec emax (Zdigits2 m + t) - t <= 0)
      by (rewrite fexp_eq; lia).
    assert (Es : shr (Build_shr_record m false false) t
                     (fexp prec emax (Zdigits2 m + t) - t) =
                 (Build_shr_record m false false, t)).
    { unfold shr. destruct (fexp prec emax (Zdigits2 m + t) - t); try reflexivity. lia. }
    rewrite Es. cbn [shr_m]. change (emax - prec) with 971. reflexivity.
Qed.

(** Rounding [z * 2^ez]: the value is kept when it has a place in the
    format; otherwise the mantissa is cut down to the quotient by the
    power of two between the exponents, or its successor. *)
Lemma binary_round_spec (s : bool) (z : positive) (ez : Z) :
  let t := fexp prec emax (Zdigits2 (Zpos z) + ez) in
  (t < ez /\
   exists mz, Zpos mz = Zpos z * 2 ^ (ez - t) /\
     binary_round prec emax s z ez =
     if t <=? 971 then S754_finite s mz t else S754_infinity s) \/
  (ez <= t /\
   exists m,
     Zpos z / 2 ^ (t - ez) <= m <= Zpos z / 2 ^ (t - ez) + 1 /\
     (Zpos z mod 2 ^ (t - ez) = 0 -> m = Zpos z / 2 ^ (t - ez)) /\
     m <= 2 ^ 53 /\
     binary_round prec emax s z ez = settled s m t).
Proof.
  intros t. unfold binary_round.
  change (Zpos (digits2_pos z)) with (Zdigits2 (Zpos z)). fold t.
  destruct (shl_align_spec z ez t) as [Hlt Hge].
  destruct (Z.lt_ge_cases t ez) as [H|H].
  - left. split; [exact H |]. destruct (Hlt H) as [E1 E2].
    destruct (shl_align z ez t) as [mz e0]. cbn [fst snd] in E1, E2. subst e0.
    exists mz. split; [exact E2 |].
    assert (Et : fexp prec emax (Zdigits2 (Zpos mz) + t) = t).
    { rewrite E2, Zdigits2_shift by lia.
      replace (Zdigits2 (Zpos z) + (ez - t) + t) with (Zdigits2 (Zpos z) + ez) by lia.
      reflexivity. }
    pose proof (binary_round_aux_spec s mz t) as A. cbv zeta in A. rewrite Et in A.
    destruct (A ltac:(lia)) as (m & Hm & Hex & _ & ->).
    rewrite Z.sub_diag, Z.pow_0_r, Z.div_1_r in Hex.
    rewrite (Hex (Z.mod_1_r _)).
    unfold settled.
    assert (Hd : Zdigits2 (Zpos mz) <= 53).
    { rewrite fexp_eq in Et. lia. }
    assert (Hlt53 : Zpos mz < 2 ^ 53) by (apply Zdigits2_lt_pow; lia).
    destruct (Z.eqb_spec (Zpos mz) (2 ^ 53)); [lia | reflexivity].
  - right. split; [exact H |]. rewrite (Hge H).
    apply (binary_round_aux_spec s z ez). exact H.
Qed.


(** *** Rounding against a number of the format *)

Lemma bounded_inv (mc : positive) (ec : Z) :
  bounded prec emax mc ec = true ->
  ec = Z.max (Zdigits2 (Zpos mc) + ec - 53) (-1074) /\ ec <= 971.
Proof.
  unfold bounded, canonical_mantissa. intros H.
  apply andb_prop in H. destruct H as [H1 H2].
  apply Z.eqb_eq in H1. apply Z.leb_le in H2.
  rewrite fexp_eq in H1. change (emax - prec) with 971 in H2.
  cbn [Zdigits2]. lia.
Qed.

Lemma pow2_le (a b : Z) : 0 <= a <= b -> 2 ^ a <= 2 ^ b.
Proof. intros H. apply Z.pow_le_mono_r; lia. Qed.

Lemma digits_lower (z : Z) : 0 < z -> 2 ^ (Zdigits2 z - 1) <= z.
Proof.
  intros Hz. rewrite Zdigits2_log2 by lia.
  replace (Z.log2 z + 1 - 1) with (Z.log2 z) by lia.
  apply Z.log2_spec. lia.
Qed.

(** A value that does not exceed a number of the format is rounded to a
    number that does not exceed it either. *)
Lemma round_le (s : bool) (z : positive) (ez : Z) (mc : positive) (ec : Z) :
  bounded prec emax mc ec = true -> ez <= ec ->
  Zpos z <= Zpos mc * 2 ^ (ec - ez) ->
  binary_round prec emax s z ez = S754_zero s \/
  exists m3 e3,
    binary_round prec emax s z ez = S754_finite s m3 e3 /\
    (e3 < ec \/ (e3 = ec /\ Zpos m3 <= Zpos mc)).
Proof.
  intros Hb Hez Hle. destruct (bounded_inv mc ec Hb) as [Hc H971].
  assert (Hpow : 0 < 2 ^ (ec - ez)) by (apply Z.pow_pos_nonneg; lia).
  assert (Hdig : Zdigits2 (Zpos z) <= Zdigits2 (Zpos mc) + (ec - ez)).
  { rewrite <- Zdigits2_shift by lia. apply Zdigits2_mono; lia. }
  pose proof (binary_round_spec s z ez) as R. cbv zeta in R.
  rewrite fexp_eq in R.
  set (t := Z.max (Zdigits2 (Zpos z) + ez - 53) (-1074)) in *.
  assert (Ht : t <= ec) by lia.
  destruct R as [(H1 & mz & Emz & ->) | (H1 & m & Hm & Hex & H53 & ->)].
  - right. destruct (Z.leb_spec t 971); [| lia].
    exists mz, t. split; [reflexivity | lia].
  - assert (Hp : 0 < 2 ^ (t - ez)) by (apply Z.pow_pos_nonneg; lia).
    assert (Hm0 : 0 <= Zpos z / 2 ^ (t - ez)) by (apply Z.div_pos; lia).
    assert (Hmc53 : Zpos mc < 2 ^ 53) by (apply Zdigits2_lt_pow; lia).
    (* at the exponent of the bound the mantissa stays below it *)
    assert (Htop : t = ec -> m <= Zpos mc).
    { intros ->.
      assert (Hq : Zpos z / 2 ^ (ec - ez) <= Zpos mc).
      { apply Z.div_le_upper_bound; lia. }
      destruct (Z.eq_dec (Zpos z / 2 ^ (ec - ez)) (Zpos mc)) as [E|E]; [| lia].
      assert (Hz : Zpos z = Zpos mc * 2 ^ (ec - ez)).
      { pose proof (Z.mul_div_le (Zpos z) (2 ^ (ec - ez)) Hpow). nia. }
      rewrite Hex; [lia |]. rewrite Hz. apply Z.mod_mul. lia. }
    unfold settled. destruct (Z.eqb_spec m (2 ^ 53)) as [E|E].
    + assert (Hlt : t < ec) by (destruct (Z.eq_dec t ec) as [Et|Et]; [specialize (Htop Et) |]; lia).
      right. destruct (Z.leb_spec (t + 1) 971); [| lia].
      exists (2 ^ 52)%positive, (t + 1). split; [reflexivity |].
      destruct (Z.eq_dec (t + 1) ec) as [Et|Et]; [| lia]. right. split; [exact Et |].
      assert (Hd53 : Zdigits2 (Zpos mc) = 53) by lia.
      pose proof (digits_lower (Zpos mc) ltac:(lia)) as Hl. rewrite Hd53 in Hl.
      exact Hl.
    + destruct m as [|p|p]; [left; reflexivity | | lia].
      right. destruct (Z.leb_spec t 971); [| lia].
      exists p, t. split; [reflexivity |].
      destruct (Z.eq_dec t ec) as [Et|Et]; [| lia]. right. split; [exact Et |].
      now apply Htop.
Qed.

(** A value that is not below a number of the format is rounded to a
    number that is not below it either. *)
Lemma round_ge (s : bool) (z : positive) (ez : Z) (mc : positive) (ec : Z) :
  bounded prec emax mc ec = true -> ez <= ec ->
  Zpos mc * 2 ^ (ec - ez) <= Zpos z ->
  binary_round prec emax s z ez = S754_infinity s \/
  exists m3 e3,
    binary_round prec emax s z ez = S754_finite s m3 e3 /\
    (ec < e3 \/ (e3 = ec /\ Zpos mc <= Zpos m3)).
Proof.
  intros Hb Hez Hle. destruct (bounded_inv mc ec Hb) as [Hc H971].
  assert (Hpow : 0 < 2 ^ (ec - ez)) by (apply Z.pow_pos_nonneg; lia).
  assert (Hdig : Zdigits2 (Zpos mc) + (ec - ez) <= Zdigits2 (Zpos z)).
  { rewrite <- Zdigits2_shift by lia. apply Zdigits2_mono; lia. }
  pose proof (binary_round_spec s z ez) as R. cbv zeta in R.
  rewrite fexp_eq in R.
  set (t := Z.max (Zdigits2 (Zpos z) + ez - 53) (-1074)) in *.
  assert (Ht : ec <= t) by lia.
  destruct R as [(H1 & _) | (H1 & m & Hm & Hex & H53 & ->)]; [lia |].
  assert (Hp : 0 < 2 ^ (t - ez)) by (apply Z.pow_pos_nonneg; lia).
  (* the quotient is not zero *)
  assert (Hq1 : 1 <= Zpos z / 2 ^ (t - ez)).
  { apply Z.div_le_lower_bound; [lia |]. rewrite Z.mul_1_r.
    destruct (Z.eq_dec t (-1074)) as [Et|Et].
    - assert (2 ^ (t - ez) <= 2 ^ (ec - ez)) by (apply pow2_le; lia). nia.
    - pose proof (digits_lower (Zpos z) ltac:(lia)) as Hl.
      assert (2 ^ (t - ez) <= 2 ^ (Zdigits2 (Zpos z) - 1)) by (apply pow2_le; lia).
      lia. }
  unfold settled. destruct (Z.eqb_spec m (2 ^ 53)) as [E|E].
  - destruct (Z.leb_spec (t + 1) 971); [| left; reflexivity].
    right. exists (2 ^ 52)%positive, (t + 1). split; [reflexivity | lia].
  - destruct m as [|p|p]; [lia | | lia].
    destruct (Z.leb_spec t 971); [| left; reflexivity].
    right. exists p, t. split; [reflexivity |].
    destruct (Z.eq_dec t ec) as [Et|Et]; [| lia]. right. split; [exact Et |].
    subst t. rewrite Et in Hm.
    assert (Zpos mc <= Zpos z / 2 ^ (ec - ez)) by (apply Z.div_le_lower_bound; lia).
    lia.
Qed.

(** A rounding keeps the sign. *)
Lemma binary_round_sign (s : bool) (z : positive) (ez : Z) :
  binary_round prec emax s z ez = S754_zero s \/
  binary_round prec emax s z ez = S754_infinity s \/
  exists m e, binary_round prec emax s z ez = S754_finite s m e.
Proof.
  pose proof (binary_round_spec s z ez) as R. cbv zeta in R.
  destruct R as [(H1 & mz & Emz & ->) | (H1 & m & Hm & Hex & H53 & ->)].
  - destruct (_ <=? 971); eauto.
  - assert (0 <= Zpos z / 2 ^ (fexp prec emax (Zdigits2 (Zpos z) + ez) - ez)).
    { apply Z.div_pos; [lia | apply Z.pow_pos_nonneg; lia]. }
    unfold settled. destruct (m =? 2 ^ 53).
    + destruct (_ <=? 971); eauto.
    + destruct m as [|p|p]; [eauto | | lia]. destruct (_ <=? 971); eauto.
Qed.

Lemma shl_align_value (m : positive) (e e' : Z) :
  e' <= e -> Zpos (fst (shl_align m e e')) = Zpos m * 2 ^ (e - e').
Proof.
  intros H. destruct (shl_align_spec m e e') as [Hlt Hge].
  destruct (Z.eq_dec e' e) as [->|Hn].
  - rewrite (Hge ltac:(lia)). cbn [fst]. rewrite Z.sub_diag, Z.pow_0_r. lia.
  - apply Hlt. lia.
Qed.

(** *** One half more, one half less *)

Lemma add_half_above (c : float64) :
  valid c = true -> isfinite c = true -> leb c (add c half) = true.
Proof.
  intros Hv Hf. destruct c as [sc| | |sc mc ec]; try discriminate Hf.
  { destruct sc; reflexivity. }
  unfold valid, valid_binary in Hv.
  destruct (bounded_inv mc ec Hv) as [Hc H971].
  unfold add, half, SFadd.
  set (ez := Z.min ec (-53)).
  pose proof (shl_align_value mc ec ez ltac:(lia)) as Ea.
  pose proof (shl_align_value (2 ^ 52) (-53) ez ltac:(lia)) as Eb.
  set (a := Zpos (fst (shl_align mc ec ez))) in *.
  set (b := Zpos (fst (shl_align (2 ^ 52) (-53) ez))) in *.
  assert (Ha : 0 < a) by (subst a; lia). assert (Hb : 0 < b) by (subst b; lia).
  apply leb_key. split; [reflexivity |].
  destruct sc; cbn [cond_Zopp].
  - (* a negative number *)
    destruct (- a + b) as [|p|p] eqn:Ez; cbn [binary_normalize].
    + split; [reflexivity |]. cbn. lia.
    + destruct (binary_round_sign false p ez) as [-> | [-> | (m & e & ->)]];
        (split; [reflexivity |]); cbn; lia.
    + destruct (round_le true p ez mc ec Hv ltac:(lia) ltac:(lia))
        as [-> | (m3 & e3 & -> & H3)];
        (split; [reflexivity |]); cbn; lia.
  - (* a positive number *)
    destruct (a + b) as [|p|p] eqn:Ez; try lia. cbn [binary_normalize].
    destruct (round_ge false p ez mc ec Hv ltac:(lia) ltac:(lia))
      as [-> | (m3 & e3 & -> & H3)];
      (split; [reflexivity |]); cbn; lia.
Qed.

Lemma sub_half_below (c : float64) :
  valid c = true -> isfinite c = true -> leb (sub c half) c = true.
Proof.
  intros Hv Hf. destruct c as [sc| | |sc mc ec]; try discriminate Hf.
  { destruct sc; reflexivity. }
  unfold valid, valid_binary in Hv.
  destruct (bounded_inv mc ec Hv) as [Hc H971].
  unfold sub, half, SFsub.
  set (ez := Z.min ec (-53)).
  pose proof (shl_align_value mc ec ez ltac:(lia)) as Ea.
  pose proof (shl_align_value (2 ^ 52) (-53) ez ltac:(lia)) as Eb.
  set (a := Zpos (fst (shl_align mc ec ez))) in *.
  set (b := Zpos (fst (shl_align (2 ^ 52) (-53) ez))) in *.
  assert (Ha : 0 < a) by (subst a; lia). assert (Hb : 0 < b) by (subst b; lia).
  apply leb_key.
  destruct sc; cbn [cond_Zopp].
  - (* a negative number *)
    destruct (- a - b) as [|p|p] eqn:Ez; try lia. cbn [binary_normalize].
    destruct (round_ge true p ez mc ec Hv ltac:(lia) ltac:(lia))
      as [-> | (m3 & e3 & -> & H3)];
      (split; [reflexivity | split; [reflexivity |]]); cbn; lia.
  - (* a positive number *)
    destruct (a - b) as [|p|p] eqn:Ez; cbn [binary_normalize].
    + split; [reflexivity | split; [reflexivity |]]. cbn. lia.
    + destruct (round_le false p ez mc ec Hv ltac:(lia) ltac:(lia))
        as [-> | (m3 & e3 & -> & H3)];
        (split; [reflexivity | split; [reflexivity |]]); cbn; lia.
    + destruct (binary_round_sign true p ez) as [-> | [-> | (m & e & ->)]];
        (split; [reflexivity | split; [reflexivity |]]); cbn; lia.
Qed.

End Rounding.

(** ** [np.min], [np.max] and [np.histogram] in binary64 *)

Module Numpy64Facts.
Import Binary64 Numpy64 Binary64Facts.
Import Numpy (bincount).

Lemma scalar_min_spec (a b : float64) :
  isnan (scalar_min a b) = false ->
  isnan a = false /\ isnan b = false /\
  leb (scalar_min a b) a = true /\ leb (scalar_min a b) b = true /\
  (scalar_min a b = a \/ scalar_min a b = b).
Proof.
  unfold scalar_min. destruct (leb a b) eqn:E; cbn [orb].
  - intros Ha. destruct (leb_not_nan _ _ E) as [_ Hb].
    repeat split; auto using leb_refl.
  - destruct (isnan a) eqn:Ha; [intros C; congruence |]. intros Hb.
    destruct (leb_total a b Ha Hb) as [C|C]; [congruence |].
    repeat split; auto using leb_refl.
Qed.

Lemma scalar_max_spec (a b : float64) :
  isnan (scalar_max a b) = false ->
  isnan a = false /\ isnan b = false /\
  leb a (scalar_max a b) = true /\ leb b (scalar_max a b) = true /\
  (scalar_max a b = a \/ scalar_max a b = b).
Proof.
  unfold scalar_max. destruct (leb b a) eqn:E; cbn [orb].
  - intros Ha. destruct (leb_not_nan _ _ E) as [Hb _].
    repeat split; auto using leb_refl.
  - destruct (isnan a) eqn:Ha; [intros C; congruence |]. intros Hb.
    destruct (leb_total a b Ha Hb) as [C|C]; [| congruence].
    repeat split; auto using leb_refl.
Qed.

Lemma fold_min_spec (r : list float64) :
  forall x0, isnan (fold_left scalar_min r x0) = false ->
    Forall (fun x => leb (fold_left scalar_min r x0) x = true) (x0 :: r) /\
    In (fold_left scalar_min r x0) (x0 :: r).
Proof.
  induction r as [|y r IH]; intros x0 H; cbn [fold_left] in *.
  - split; [| now left]. constructor; [now apply leb_refl | constructor].
  - destruct (IH _ H) as [F I].
    inversion F as [|? ? F0 Fr]; subst.
    destruct (scalar_min_spec x0 y (proj2 (leb_not_nan _ _ F0)))
      as (_ & _ & L1 & L2 & Hor).
    split.
    + constructor; [eapply leb_trans; eauto |].
      constructor; [eapply leb_trans; eauto | exact Fr].
    + destruct I as [I|I]; [| right; right; exact I].
      rewrite <- I. destruct Hor as [-> | ->]; [now left | right; now left].
Qed.

Lemma fold_max_spec (r : list float64) :
  forall x0, isnan (fold_left scalar_max r x0) = false ->
    Forall (fun x => leb x (fold_left scalar_max r x0) = true) (x0 :: r) /\
    In (fold_left scalar_max r x0) (x0 :: r).
Proof.
  induction r as [|y r IH]; intros x0 H; cbn [fold_left] in *.
  - split; [| now left]. constructor; [now apply leb_refl | constructor].
  - destruct (IH _ H) as [F I].
    inversion F as [|? ? F0 Fr]; subst.
    destruct (scalar_max_spec x0 y (proj1 (leb_not_nan _ _ F0)))
      as (_ & _ & L1 & L2 & Hor).
    split.
    + constructor; [eapply leb_trans; eauto |].
      constructor; [eapply leb_trans; eauto | exact Fr].
    + destruct I as [I|I]; [| right; right; exact I].
      rewrite <- I. destruct Hor as [-> | ->]; [now left | right; now left].
Qed.

(** A minimum that is not NaN is a value of the array and lies below every
    value; likewise for the maximum. *)
Lemma np_min_least (a : list float64) (lo : float64) :
  np_min a = Some lo -> isnan lo = false ->
  In lo a /\ Forall (fun x => leb lo x = true) a.
Proof.
  destruct a as [|x r]; [discriminate |]. cbn [np_min].
  intros H Hn. injection H as <-.
  destruct (fold_min_spec r x Hn); auto.
Qed.

Lemma np_max_greatest (a : list float64) (hi : float64) :
  np_max a = Some hi -> isnan hi = false ->
  In hi a /\ Forall (fun x => leb x hi = true) a.
Proof.
  destruct a as [|x r]; [discriminate |]. cbn [np_max].
  intros H Hn. injection H as <-.
  destruct (fold_max_spec r x Hn); auto.
Qed.

Lemma isfinite_not_nan (x : float64) : isfinite x = true -> isnan x = false.
Proof. destruct x; (reflexivity || discriminate). Qed.

(** The three ways [_get_outer_edges] returns. *)
Lemma get_outer_edges_inv (lo hi first_edge last_edge : float64) :
  _get_outer_edges (lo, hi) = Some (first_edge, last_edge) ->
  isfinite lo = true /\ isfinite hi = true /\
  ((eqb lo hi = true /\ first_edge = sub lo half /\ last_edge = add hi half) \/
   (eqb lo hi = false /\ first_edge = lo /\ last_edge = hi)).
Proof.
  unfold _get_outer_edges.
  destruct (ltb hi lo); [discriminate |].
  destruct (isfinite lo); [| discriminate].
  destruct (isfinite hi); [| discriminate]. cbn [andb negb].
  destruct (eqb lo hi); intros H; injection H as <- <-;
    (split; [reflexivity | split; [reflexivity |]]); [left | right]; auto.
Qed.

Lemma mapM_length {A B : Type} (f : A -> option B) (l : list A) :
  forall ys, OptionMonad.mapM f l = Some ys -> length ys = length l.
Proof.
  induction l as [|x l IH]; intros ys; cbn [OptionMonad.mapM].
  - intros H. injection H as <-. reflexivity.
  - destruct (f x) as [y|]; [| discriminate].
    destruct (OptionMonad.mapM f l) as [ys'|]; [| discriminate].
    intros H. injection H as <-. cbn [length]. now rewrite (IH ys' eq_refl).
Qed.

Lemma mapM_nth {A B : Type} (f : A -> option B) (l : list A) (dA : A) (dB : B) :
  forall ys, OptionMonad.mapM f l = Some ys ->
    forall i, (i < length l)%nat -> f (nth i l dA) = Some (nth i ys dB).
Proof.
  induction l as [|x l IH]; intros ys; cbn [OptionMonad.mapM].
  - intros _ i Hi. cbn in Hi. lia.
  - destruct (f x) as [y|] eqn:E; [| discriminate].
    destruct (OptionMonad.mapM f l) as [ys'|]; [| discriminate].
    intros H i Hi. injection H as <-. destruct i as [|i]; cbn [nth].
    + exact E.
    + apply (IH ys' eq_refl). cbn in Hi. lia.
Qed.

Lemma mapM_Forall {A B : Type} (f : A -> option B) (P : B -> Prop) (l : list A) :
  (forall x y, In x l -> f x = Some y -> P y) ->
  forall ys, OptionMonad.mapM f l = Some ys -> Forall P ys.
Proof.
  induction l as [|x l IH]; intros HP ys; cbn [OptionMonad.mapM].
  - intros H. injection H as <-. constructor.
  - destruct (f x) as [y|] eqn:E; [| discriminate].
    destruct (OptionMonad.mapM f l) as [ys'|] eqn:E'; [| discriminate].
    intros H. injection H as <-. constructor.
    + apply (HP x y); [now left | exact E].
    + apply IH; [| reflexivity]. intros x' y' Hx'. apply HP. now right.
Qed.

(** [np.bincount] with [minlength=n] returns [n] counts exactly when every
    index is one of [0 .. n-1]. *)
Lemma bincount_inv (x : list Z) (n : nat) (h : list nat) :
  bincount x n = Some h -> length h = n ->
  Forall (fun i => (0 <= i < Z.of_nat n)%Z) x /\
  h = map (fun b : nat => count_occ Z.eq_dec x (Z.of_nat b)) (seq 0 n).
Proof.
  unfold bincount.
  set (top := fold_right (fun i m => Nat.max (S (Z.to_nat i)) m) 0%nat x).
  destruct (existsb (fun i => (i <? 0)%Z) x) eqn:E; [discriminate |].
  intros H Hlen.
  assert (Hh : h = map (fun b : nat => count_occ Z.eq_dec x (Z.of_nat b))
                       (seq 0 (Nat.max n top))) by congruence.
  clear H. subst h. rewrite length_map, length_seq in Hlen.
  assert (Htop : (top <= n)%nat) by lia.
  replace (Nat.max n top) with n by lia. split; [| reflexivity].
  assert (Hnn : Forall (fun i => (0 <= i)%Z) x).
  { apply Forall_forall. intros i Hi.
    destruct (Z.ltb_spec i 0) as [C|C]; [| exact C].
    assert (existsb (fun i => (i <? 0)%Z) x = true).
    { apply existsb_exists. exists i. split; [exact Hi | now apply Z.ltb_lt]. }
    congruence. }
  clear E Hlen. subst top.
  induction x as [|i x IH]; [constructor |].
  inversion Hnn as [|? ? Hi Hx]; subst.
  cbn [fold_right] in Htop. constructor; [lia |]. apply IH; [lia | exact Hx].
Qed.

Lemma count_sum (x : list Z) (n : nat) :
  Forall (fun i => (0 <= i < Z.of_nat n)%Z) x ->
  list_sum (map (fun b : nat => count_occ Z.eq_dec x (Z.of_nat b)) (seq 0 n)) = length x.
Proof.
  induction 1 as [|i x Hi _ IH]; cbn [count_occ length].
  - induction (seq 0 n) as [|b l IHl]; [reflexivity | exact IHl].
  - rewrite <- IH.
    rewrite map_ext with
      (g := fun b : nat =>
              ((if (i =? Z.of_nat b)%Z then 1 else 0) +
               count_occ Z.eq_dec x (Z.of_nat b))%nat).
    + rewrite HistogramFacts.list_sum_map_add, HistogramFacts.list_sum_indicator.
      destruct (Z.leb_spec 0 i), (Z.ltb_spec i (Z.of_nat n)); cbn; lia.
    + intros b. destruct (Z.eq_dec i (Z.of_nat b)) as [E|E].
      * rewrite (proj2 (Z.eqb_eq _ _) E). reflexivity.
      * rewrite (proj2 (Z.eqb_neq _ _) E). reflexivity.
Qed.

Lemma count_repeat (i : Z) (k : nat) (b : Z) :
  count_occ Z.eq_dec (repeat i k) b = if (b =? i)%Z then k else 0%nat.
Proof.
  destruct (Z.eqb_spec b i) as [->|E].
  - now apply count_occ_repeat_eq.
  - apply count_occ_repeat_neq. congruence.
Qed.

(** What a returning call of [np.histogram] has done. *)
Lemma histogram_inv (a : list float64) (bins : Z) (lo hi : float64) (h : list nat) :
  histogram a bins (lo, hi) = Some h ->
  (1 <= bins)%Z /\
  exists first_edge last_edge indices,
    _get_outer_edges (lo, hi) = Some (first_edge, last_edge) /\
    OptionMonad.mapM
      (bin_index first_edge last_edge bins
         (linspace first_edge last_edge (Z.to_nat (bins + 1))))
      (filter (keep first_edge last_edge) a) = Some indices /\
    Forall (fun i => (0 <= i < bins)%Z) indices /\
    h = map (fun b : nat => count_occ Z.eq_dec indices (Z.of_nat b))
            (seq 0 (Z.to_nat bins)).
Proof.
  unfold histogram. destruct (Z.ltb_spec bins 1) as [|HB]; [discriminate |].
  destruct (_get_outer_edges (lo, hi)) as [[first_edge last_edge]|] eqn:HE;
    [| discriminate]. cbn [OptionMonad.bind].
  destruct (any_edge_not_below_next _); [discriminate |].
  destruct (OptionMonad.mapM _ _) as [indices|] eqn:HI; [| discriminate].
  cbn [OptionMonad.bind].
  destruct (bincount indices (Z.to_nat bins)) as [n|] eqn:HC; [| discriminate].
  cbn [OptionMonad.bind].
  destruct (Nat.eqb_spec (length n) (Z.to_nat bins)) as [HL|]; [| discriminate].
  intros H. injection H as <-.
  destruct (bincount_inv _ _ _ HC HL) as [HF ->].
  split; [exact HB |]. exists first_edge, last_edge, indices.
  repeat split; auto.
  eapply Forall_impl; [| exact HF]. cbn. intros i Hi. lia.
Qed.

Lemma histogram_length (a : list float64) (bins : Z) (lo hi : float64) (h : list nat) :
  histogram a bins (lo, hi) = Some h -> length h = Z.to_nat bins.
Proof.
  intros H. destruct (histogram_inv _ _ _ _ _ H) as (_ & f & l & idx & _ & _ & _ & ->).
  now rewrite length_map, length_seq.
Qed.

(** The counts of a returning call add up to the number of values inside
    the outer edges. *)
Lemma histogram_sum (a : list float64) (bins : Z) (lo hi : float64) (h : list nat) :
  histogram a bins (lo, hi) = Some h ->
  exists first_edge last_edge,
    _get_outer_edges (lo, hi) = Some (first_edge, last_edge) /\
    list_sum h = length (filter (keep first_edge last_edge) a).
Proof.
  intros H.
  destruct (histogram_inv _ _ _ _ _ H) as (HB & f & l & idx & HE & HI & HF & ->).
  exists f, l. split; [exact HE |].
  rewrite count_sum.
  - now apply mapM_length in HI.
  - eapply Forall_impl; [| exact HF]. cbn. intros i Hi. lia.
Qed.

End Numpy64Facts.

(** ** [HistogramTransformer] on binary64 arrays *)

Module Histogram64Facts.
Import Binary64 Numpy64 Histogram64 Binary64Facts Rounding Numpy64Facts ListFacts.
Import Histogram (HistogramTransformer, n_bins, at2).
Import HistogramSpec (block_sum).

Section Shape64.

Variables (X : tensor) (N V D : nat).
Hypothesis HX : has_shape X N V D.

Lemma sample_shape (s : nat) :
  (s < N)%nat ->
  length (nth s X []) = V /\
  Forall (fun series => length series = D) (nth s X []).
Proof.
  intros Hs. destruct HX as [HN HF]. rewrite Forall_forall in HF.
  apply HF, nth_In. lia.
Qed.

Lemma series_length (s v : nat) :
  (s < N)%nat -> (v < V)%nat -> length (nth v (nth s X []) []) = D.
Proof.
  intros Hs Hv. destruct (sample_shape s Hs) as [HL HF].
  rewrite Forall_forall in HF. apply HF, nth_In. lia.
Qed.

Lemma slice_length (v : nat) : length (variable_slice X v) = N.
Proof. unfold variable_slice. rewrite length_map. apply HX. Qed.

Lemma slice_nth (v s : nat) :
  (s < N)%nat -> nth s (variable_slice X v) [] = nth v (nth s X []) [].
Proof.
  intros Hs. unfold variable_slice.
  rewrite nth_map_in with (dA := []) by (destruct HX as [HN _]; lia).
  reflexivity.
Qed.

Lemma batch_concat (v : nat) : batch_values X v = concat (variable_slice X v).
Proof. unfold batch_values, variable_slice. apply flat_map_concat_map. Qed.

Lemma series_values_in_batch (s v : nat) (x : float64) :
  (s < N)%nat -> In x (nth v (nth s X []) []) -> In x (batch_values X v).
Proof.
  intros Hs Hx. unfold batch_values. apply in_flat_map.
  exists (nth s X []). split; [| exact Hx]. apply nth_In. destruct HX. lia.
Qed.

End Shape64.

Lemma histograms_for_variable_inv (array : list (list float64)) (B : Z)
    (rv : list (list nat)) :
  _histograms_for_variable array B = Some rv ->
  exists lo hi,
    np_min (concat array) = Some lo /\ np_max (concat array) = Some hi /\
    OptionMonad.mapM (fun a => histogram a B (lo, hi)) array = Some rv.
Proof.
  unfold _histograms_for_variable.
  destruct (np_min (concat array)) as [lo|]; [| discriminate].
  destruct (np_max (concat array)) as [hi|]; [| discriminate].
  cbn [OptionMonad.bind]. unfold Numpy.apply_along_axis1.
  destruct array as [|a0 array]; [discriminate |]. eauto.
Qed.

(** What a returning call of [transform] has computed: one list of
    per-sample histograms for every variable, laid out sample by sample. *)
Lemma transform_inv (self : HistogramTransformer) (X : tensor) (N V D : nat)
    (M : list (list nat)) :
  has_shape X N V D ->
  transform self X = Some M ->
  (1 <= N)%nat /\ (1 <= V)%nat /\
  exists R : list (list (list nat)),
    length R = V /\
    (forall v, (v < V)%nat ->
       _histograms_for_variable (variable_slice X v) (n_bins self) =
       Some (nth v R [])) /\
    M = map (fun s : nat => concat (map (fun rv => nth s rv []) R)) (seq 0 N).
Proof.
  intros HX. unfold transform, _histograms.
  destruct X as [|x0 X'] eqn:EX.
  { cbn. discriminate. }
  assert (HN : (1 <= N)%nat) by (destruct HX as [<- _]; cbn; lia).
  assert (E1 : shape1 (x0 :: X') = V).
  { destruct HX as [_ HF]. inversion HF as [|? ? Hhd _]; subst. exact (proj1 Hhd). }
  rewrite E1. rewrite <- EX in *. clear EX x0 X' E1.
  destruct (OptionMonad.mapM _ (seq 0 V)) as [R|] eqn:HR; [| discriminate].
  cbn [OptionMonad.bind].
  pose proof (mapM_length _ _ _ HR) as HL. rewrite length_seq in HL.
  assert (Hv : forall v, (v < V)%nat ->
            _histograms_for_variable (variable_slice X v) (n_bins self) =
            Some (nth v R [])).
  { intros v Hv.
    pose proof (mapM_nth _ _ 0%nat [] _ HR v) as H.
    rewrite length_seq in H. specialize (H Hv).
    now rewrite seq_nth in H by exact Hv. }
  destruct R as [|r0 R'] eqn:ER; [cbn; discriminate |].
  assert (HV : (1 <= V)%nat) by (cbn in HL; lia).
  assert (H0 : length r0 = N).
  { destruct (histograms_for_variable_inv _ _ _ (Hv 0%nat ltac:(lia)))
      as (lo & hi & _ & _ & Hm).
    cbn [nth] in Hm. apply mapM_length in Hm.
    now rewrite (slice_length X N V D HX) in Hm. }
  unfold Numpy.swapaxes01. cbn [OptionMonad.bind]. rewrite H0.
  intros H. injection H as <-.
  split; [exact HN | split; [exact HV |]].
  exists (r0 :: R'). split; [exact HL | split; [exact Hv |]].
  unfold Numpy.reshape_rows. now rewrite map_map.
Qed.

(** The histogram of one series inside a returned matrix. *)
Lemma transform_series (self : HistogramTransformer) (X : tensor) (N V D : nat)
    (M : list (list nat)) :
  has_shape X N V D ->
  transform self X = Some M ->
  length M = N /\
  Forall (fun row => length row = (V * Z.to_nat (n_bins self))%nat) M /\
  forall v, (v < V)%nat ->
    exists lo hi,
      np_min (batch_values X v) = Some lo /\
      np_max (batch_values X v) = Some hi /\
      forall s, (s < N)%nat ->
        exists h,
          histogram (nth v (nth s X []) []) (n_bins self) (lo, hi) = Some h /\
          length h = Z.to_nat (n_bins self) /\
          firstn (Z.to_nat (n_bins self))
                 (skipn (v * Z.to_nat (n_bins self)) (nth s M [])) = h /\
          forall b, (b < Z.to_nat (n_bins self))%nat ->
            at2 M s (v * Z.to_nat (n_bins self) + b) = nth b h 0%nat.
Proof.
  intros HX HM.
  destruct (transform_inv self X N V D M HX HM) as (HN & HV & R & HL & HR & ->).
  set (B := Z.to_nat (n_bins self)).
  (* every histogram of every variable *)
  assert (Hcell : forall v, (v < V)%nat ->
            exists lo hi,
              np_min (batch_values X v) = Some lo /\
              np_max (batch_values X v) = Some hi /\
              forall s, (s < N)%nat ->
                histogram (nth v (nth s X []) []) (n_bins self) (lo, hi) =
                Some (nth s (nth v R []) []) /\
                length (nth s (nth v R []) []) = B).
  { intros v Hv.
    destruct (histograms_for_variable_inv _ _ _ (HR v Hv)) as (lo & hi & Hlo & Hhi & Hm).
    exists lo, hi. rewrite (batch_concat X v). split; [exact Hlo | split; [exact Hhi |]].
    intros s Hs.
    pose proof (mapM_nth _ _ [] [] _ Hm s) as H.
    rewrite (slice_length X N V D HX) in H. specialize (H Hs).
    rewrite (slice_nth X N V D HX v s Hs) in H.
    split; [exact H |]. exact (histogram_length _ _ _ _ _ H). }
  assert (Hrow : forall s, (s < N)%nat ->
            Forall (fun l : list nat => length l = B)
                   (map (fun rv : list (list nat) => nth s rv []) R)).
  { intros s Hs. apply Forall_forall. intros l Hl.
    apply in_map_iff in Hl. destruct Hl as (rv & <- & Hrv).
    destruct (In_nth _ _ [] Hrv) as (v & Hv & <-). rewrite HL in Hv.
    destruct (Hcell v Hv) as (lo & hi & _ & _ & Hc).
    now destruct (Hc s Hs). }
  split; [now rewrite length_map, length_seq |]. split.
  - apply Forall_forall. intros row Hrow'.
    apply in_map_iff in Hrow'. destruct Hrow' as (s & <- & Hs).
    apply in_seq in Hs.
    rewrite (HistogramFacts.length_concat_uniform (Hrow s ltac:(lia))).
    now rewrite length_map, HL.
  - intros v Hv. destruct (Hcell v Hv) as (lo & hi & Hlo & Hhi & Hc).
    exists lo, hi. split; [exact Hlo | split; [exact Hhi |]].
    intros s Hs. destruct (Hc s Hs) as [Hh Hlen].
    exists (nth s (nth v R []) []).
    split; [exact Hh | split; [exact Hlen |]].
    assert (En : nth s (map (fun s0 : nat =>
                               concat (map (fun rv : list (list nat) => nth s0 rv []) R))
                            (seq 0 N)) [] =
                 concat (map (fun rv : list (list nat) => nth s rv []) R)).
    { now rewrite nth_map_seq. }
    assert (Ev : nth v (map (fun rv : list (list nat) => nth s rv []) R) [] =
                 nth s (nth v R []) []).
    { rewrite nth_map_in with (dA := []) by lia. reflexivity. }
    split.
    + rewrite En.
      rewrite (HistogramFacts.block_concat_uniform (Hrow s Hs))
        by (rewrite length_map; lia).
      exact Ev.
    + intros b Hb. unfold at2. rewrite En.
      rewrite (HistogramFacts.nth_concat_uniform 0%nat (Hrow s Hs))
        by (rewrite ?length_map; lia).
      now rewrite Ev.
Qed.



(** The range of a variable of a returned matrix: finite, and around every
    value of the variable. *)
Lemma range_around (X : tensor) (N V D : nat) (v : nat) (lo hi : float64)
    (B : Z) (a : list float64) (h : list nat) :
  has_shape X N V D -> valid_tensor X -> (v < V)%nat ->
  np_min (batch_values X v) = Some lo ->
  np_max (batch_values X v) = Some hi ->
  histogram a B (lo, hi) = Some h ->
  exists first_edge last_edge,
    _get_outer_edges (lo, hi) = Some (first_edge, last_edge) /\
    (eqb lo hi = true -> first_edge = sub lo half /\ last_edge = add hi half) /\
    forall x, In x (batch_values X v) ->
      leb lo x = true /\ leb x hi = true /\ keep first_edge last_edge x = true.
Proof.
  intros HX HXv Hv Hlo Hhi Hh.
  destruct (histogram_inv _ _ _ _ _ Hh) as (_ & f & l & _ & HE & _).
  destruct (get_outer_edges_inv _ _ _ _ HE) as (Flo & Fhi & Hcase).
  destruct (np_min_least _ _ Hlo (isfinite_not_nan _ Flo)) as [Ilo Llo].
  destruct (np_max_greatest _ _ Hhi (isfinite_not_nan _ Fhi)) as [Ihi Lhi].
  rewrite Forall_forall in Llo, Lhi.
  assert (Hval : forall x, In x (batch_values X v) -> valid x = true).
  { intros x Hx. unfold batch_values in Hx. apply in_flat_map in Hx.
    destruct Hx as (smp & Hs & Hx).
    unfold valid_tensor in HXv. rewrite Forall_forall in HXv.
    specialize (HXv smp Hs). rewrite Forall_forall in HXv.
    destruct (Nat.lt_ge_cases v (length smp)) as [Hlt|Hge].
    - specialize (HXv (nth v smp []) (nth_In _ _ Hlt)).
      rewrite Forall_forall in HXv. now apply HXv.
    - rewrite nth_overflow in Hx by exact Hge. contradiction. }
  exists f, l. split; [exact HE |]. split.
  { intros E. destruct Hcase as [(_ & -> & ->) | (E' & _)]; [auto | congruence]. }
  intros x Hx. split; [now apply Llo | split; [now apply Lhi |]].
  unfold keep. apply andb_true_intro.
  destruct Hcase as [(_ & -> & ->) | (_ & -> & ->)].
  - split.
    + apply leb_trans with (y := lo); [| now apply Llo].
      apply sub_half_below; [now apply Hval | exact Flo].
    + apply leb_trans with (y := hi); [now apply Lhi |].
      apply add_half_above; [now apply Hval | exact Fhi].
  - split; [now apply Llo | now apply Lhi].
Qed.


(** With a finite left edge, the bin of a zero does not depend on its
    sign. *)
Lemma bin_index_zero (s s' sf : bool) (mf : positive) (ef : Z)
    (last_edge : float64) (B : Z) (bin_edges : list float64) :
  bin_index (S754_finite sf mf ef) last_edge B bin_edges (S754_zero s) =
  bin_index (S754_finite sf mf ef) last_edge B bin_edges (S754_zero s').
Proof.
  unfold bin_index.
  change (sub (S754_zero s) (S754_finite sf mf ef))
    with (S754_finite (negb sf) mf ef).
  change (sub (S754_zero s') (S754_finite sf mf ef))
    with (S754_finite (negb sf) mf ef).
  destruct (getitem bin_edges _) as [edge|]; [| reflexivity].
  cbn [OptionMonad.bind]. rewrite (ltb_zero_l s s' edge).
  destruct (getitem bin_edges _) as [next_edge|]; [| reflexivity].
  cbn [OptionMonad.bind]. now rewrite (leb_zero_r s s' next_edge).
Qed.

(** Over a range of width zero, values that compare equal to the minimum
    have the bin of the minimum. *)
Lemma bin_index_constant (lo hi : float64) (B : Z) (bin_edges : list float64)
    (x : float64) :
  eqb x lo = true ->
  bin_index (sub lo half) (add hi half) B bin_edges x =
  bin_index (sub lo half) (add hi half) B bin_edges lo.
Proof.
  intros E. destruct (eqb_same _ _ E) as [-> | (s & s' & -> & ->)]; [reflexivity |].
  change (sub (S754_zero s') half) with (S754_finite true (2 ^ 52) (-53)).
  apply bin_index_zero.
Qed.


(** X1. [transform] raises on a batch that has no sample, no variable or
    no day, and for a bin count below one. *)
Theorem transform_raises_without_data
    (self : HistogramTransformer) (X : tensor) (N V D : nat) :
  has_shape X N V D ->
  N = 0%nat \/ V = 0%nat \/ D = 0%nat \/ (n_bins self < 1)%Z ->
  transform self X = None.
Proof.
  intros HX Hcase.
  destruct (transform self X) as [M|] eqn:HM; [exfalso | reflexivity].
  destruct (transform_series self X N V D M HX HM) as (_ & _ & Hcell).
  destruct (transform_inv self X N V D M HX HM) as (HN & HV & _).
  destruct (Hcell 0%nat ltac:(lia)) as (lo & hi & Hlo & _ & Hrow).
  destruct (Hrow 0%nat ltac:(lia)) as (h & Hh & _).
  destruct (histogram_inv _ _ _ _ _ Hh) as (HB & _).
  assert (HD : D <> 0%nat).
  { intros ->. destruct (batch_values X 0) as [|x0 r] eqn:Eb; [discriminate Hlo |].
    assert (Hin : In x0 (batch_values X 0)) by (rewrite Eb; now left).
    unfold batch_values in Hin. apply in_flat_map in Hin.
    destruct Hin as (smp & Hsmp & Hx0).
    destruct (In_nth _ _ [] Hsmp) as (s & Hs & <-).
    destruct HX as [HNl HF]. rewrite HNl in Hs.
    pose proof (series_length X N V 0 (conj HNl HF) s 0 Hs ltac:(lia)) as Hlen.
    destruct (nth 0 (nth s X []) []); [contradiction | discriminate Hlen]. }
  lia.
Qed.

(** X2. The row of a sample depends on the rest of the batch only
    through the minimum and the maximum of each variable: when a sample
    occurs in two batches for which [np.min] and [np.max] return the same
    values on every variable and [transform] returns a matrix for both,
    the sample has the same row in both, whatever the other samples and
    the batch sizes are. *)
Theorem row_depends_on_batch_range_only
    (self : HistogramTransformer) (X X' : tensor) (N N' V D : nat) (s s' : nat)
    (M M' : list (list nat)) :
  has_shape X N V D -> has_shape X' N' V D ->
  (s < N)%nat -> (s' < N')%nat ->
  nth s X [] = nth s' X' [] ->
  (forall v, (v < V)%nat ->
     np_min (batch_values X v) = np_min (batch_values X' v) /\
     np_max (batch_values X v) = np_max (batch_values X' v)) ->
  transform self X = Some M ->
  transform self X' = Some M' ->
  nth s M [] = nth s' M' [].
Proof.
  intros HX HX' Hs Hs' Esample Hrange HM HM'.
  destruct (transform_series self X N V D M HX HM) as (HL & HR & Hcell).
  destruct (transform_series self X' N' V D M' HX' HM') as (HL' & HR' & Hcell').
  set (B := Z.to_nat (n_bins self)) in *.
  rewrite Forall_forall in HR, HR'.
  assert (Hlen : length (nth s M []) = (V * B)%nat)
    by (apply HR, nth_In; lia).
  assert (Hlen' : length (nth s' M' []) = (V * B)%nat)
    by (apply HR', nth_In; lia).
  apply nth_ext with (d := 0%nat) (d' := 0%nat); [lia |].
  intros c Hc. rewrite Hlen in Hc.
  assert (HBpos : (0 < B)%nat) by (destruct B; lia).
  set (v := (c / B)%nat). set (b := (c mod B)%nat).
  assert (Hv : (v < V)%nat).
  { subst v. apply Nat.Div0.div_lt_upper_bound. lia. }
  assert (Hb : (b < B)%nat) by (subst b; apply Nat.mod_upper_bound; lia).
  assert (Ec : c = (v * B + b)%nat).
  { subst v b. rewrite (Nat.div_mod_eq c B) at 1. lia. }
  destruct (Hcell v Hv) as (lo & hi & Hlo & Hhi & Hrow).
  destruct (Hcell' v Hv) as (lo' & hi' & Hlo' & Hhi' & Hrow').
  destruct (Hrange v Hv) as [Emin Emax].
  rewrite Hlo, Hlo' in Emin. injection Emin as <-.
  rewrite Hhi, Hhi' in Emax. injection Emax as <-.
  destruct (Hrow s Hs) as (h & Hh & _ & _ & Hat).
  destruct (Hrow' s' Hs') as (h' & Hh' & _ & _ & Hat').
  rewrite Esample, Hh' in Hh. injection Hh as <-.
  specialize (Hat b Hb). specialize (Hat' b Hb). unfold at2 in Hat, Hat'.
  rewrite Ec, Hat, Hat'. reflexivity.
Qed.

(** *** Concrete runs *)

Example transform64_example :
  transform {| n_bins := 3 |} X_demo =
  Some [[1; 1; 1; 0; 3; 0]; [1; 0; 2; 0; 3; 0]]%nat.
Proof. vm_compute. reflexivity. Qed.

Lemma X_demo_has_shape : has_shape X_demo 2 2 3.
Proof. split; [reflexivity | repeat constructor]. Defined.

Lemma X_demo_valid : valid_tensor X_demo.
Proof. unfold valid_tensor, X_demo, of_integers. cbn [map]. repeat constructor. Defined.







Lemma transform_raises_without_data_witness :
  transform {| n_bins := 0 |} X_demo = None.
Proof.
  apply (transform_raises_without_data {| n_bins := 0 |} X_demo 2 2 3
           X_demo_has_shape).
  right. right. right. reflexivity.
Defined.

Lemma X_demo_more_has_shape : has_shape X_demo_more 3 2 3.
Proof. split; [reflexivity | repeat constructor]. Defined.

Lemma row_depends_on_batch_range_only_witness :
  nth 0 [[1; 1; 1; 0; 3; 0]; [1; 0; 2; 0; 3; 0]]%nat [] =
  nth 1 [[1; 0; 2; 0; 3; 0]; [1; 1; 1; 0; 3; 0]; [0; 3; 0; 0; 3; 0]]%nat [].
Proof.
  apply (row_depends_on_batch_range_only {| n_bins := 3 |} X_demo X_demo_more
           2 3 2 3 0 1 _ _ X_demo_has_shape X_demo_more_has_shape).
  - lia.
  - lia.
  - reflexivity.
  - intros v Hv. destruct v as [|[|v]]; [| | lia]; split; vm_compute; reflexivity.
  - vm_compute. reflexivity.
  - vm_compute. reflexivity.
Defined.

End Histogram64Facts.
